(** * Home safety system: sensor decoders, producers and the alert engine

    A shallow embedding of the central analyzer process
    (src/central_analyzer.c), of the message definitions (src/msg_def.h)
    and of the sensor drivers (src/sensors/*.h), followed by the
    properties of the specification that concern them.

    C integers are modelled as [Z]; every place where the C code narrows
    or wraps a value is written out.  C truth values ([uint8_t] flags
    tested with [if (x)]) are tested with [truthy]. *)

From Stdlib Require Import ZArith List Bool Lia String Ascii QArith Qround.
Import ListNotations.
Local Open Scope Z_scope.

(** [if (x)] on a C integer. *)
Definition truthy (x : Z) : bool := negb (x =? 0).

(** ** msg_def.h *)

Module MsgDef.

Definition MSG_TYPE_SENSOR_DATA : Z := 1.
Definition MSG_TYPE_PULSE : Z := 3.
Definition MSG_TYPE_LOG : Z := 4.

Definition ALERT_LEVEL_INFO : Z := 0.
Definition ALERT_LEVEL_WARNING : Z := 1.
Definition ALERT_LEVEL_CRITICAL : Z := 2.

Definition ALERT_TYPE_TEMP_HIGH : Z := 1.
Definition ALERT_TYPE_TEMP_LOW : Z := 2.
Definition ALERT_TYPE_GAS_DETECTED : Z := 3.
Definition ALERT_TYPE_MOTION : Z := 4.
Definition ALERT_TYPE_DOOR_CLOSED : Z := 5.
Definition ALERT_TYPE_DOOR_OPEN : Z := 6.

(** [sensor_data_msg_t], the snapshot message sent to stats_update. *)
Record sensor_data_msg_t := {
  msg_type : Z;
  timestamp : Z;
  temperature : Z;
  humidity : Z;
  temp_sensor_valid : Z;
  gas_detected : Z;
  gas_sensor_valid : Z;
  motion_detected : Z;
  motion_sensor_valid : Z;
  distance_cm : Z;
  door_closed : Z;
  ultrasonic_valid : Z;
  alert_level : Z;
  sequence_num : Z
}.

(** [threshold_config_t]. *)
Record threshold_config_t := {
  temp_high_threshold : Z;
  temp_low_threshold : Z;
  humidity_high_threshold : Z;
  humidity_low_threshold : Z;
  door_closed_dist_cm : Z
}.

End MsgDef.

(** ** alert_pulse_def.h *)

(** Modelled from the spec: the header alert_pulse_def.h, which gives the
    pulse codes their numbers, is not among the sources.  The spec (section
    6, indicator trigger) and alert_mgr.c name four codes, one per
    category; they are kept as an enumeration. *)
Inductive pulse_code := MOTION_DETECTED | HIGH_CO2 | HIGH_TEMP | DOOR_OPEN.

(** ** central_analyzer.c *)

Module CentralAnalyzer.

Import MsgDef.

Definition AGGREGATION_INTERVAL_SEC : Z := 2.
Definition SENSOR_READ_INTERVAL_MS : Z := 1000.

(** The [thresholds] the process is built with. *)
Definition configured_thresholds : threshold_config_t :=
  {| temp_high_threshold := 30;
     temp_low_threshold := 15;
     humidity_high_threshold := 80;
     humidity_low_threshold := 20;
     door_closed_dist_cm := 10 |}.

(** [shared_sensor_data_t], the structure behind [g_sensor_data]. *)
Record shared_sensor_data_t := mk_shared {
  temperature : Z;
  humidity : Z;
  temp_sensor_valid : Z;
  gas_detected : Z;
  gas_sensor_valid : Z;
  motion_detected : Z;
  motion_sensor_valid : Z;
  distance_cm : Z;
  door_closed : Z;
  ultrasonic_valid : Z;
  alert_level : Z
}.

(** [static shared_sensor_data_t g_sensor_data = {0}]. *)
Definition zero_sensor_data : shared_sensor_data_t :=
  mk_shared 0 0 0 0 0 0 0 0 0 0 0.

(** What the threads do that another thread or process can see. *)
Inductive event :=
| EvLock                                    (* pthread_mutex_lock(&g_data_mutex) *)
| EvUnlock                                  (* pthread_mutex_unlock(&g_data_mutex) *)
| EvCheck                                   (* check_thresholds_and_alert is entered *)
| EvAlert (alert_type alert_level sensor_value : Z) (description : string)
                                            (* send_alert(...) *)
| EvPulse (pulse_type : pulse_code) (alert_level : Z)
                                            (* send_pulse(...) *)
| EvSensorData (msg : sensor_data_msg_t).   (* MsgSend(stats_update_coid, &msg, ...) *)

(** The mutable globals of the process, together with the [static]
    locals of [check_thresholds_and_alert]. *)
Record process := mk_process {
  g_sensor_data : shared_sensor_data_t;
  g_sequence_num : Z;
  last_alert_level : Z;
  last_motion : Z;
  last_door_state : Z
}.

(** The state of the process when [main] has started the threads. *)
Definition initial_process : process :=
  mk_process zero_sensor_data 0 ALERT_LEVEL_INFO 0 0.

(** *** A state and trace monad for the threads' code *)

Definition prog (A : Type) : Type := process -> A * process * list event.

Definition ret {A} (a : A) : prog A := fun p => (a, p, []).

Definition bind {A B} (m : prog A) (k : A -> prog B) : prog B :=
  fun p =>
    let '(a, p1, t1) := m p in
    let '(b, p2, t2) := k a p1 in
    (b, p2, t1 ++ t2).

Declare Scope prog_scope.
Delimit Scope prog_scope with prog.
Notation "x <- m ;; k" := (bind m (fun x => k))
  (at level 61, m at next level, right associativity) : prog_scope.
Notation "m ;; k" := (bind m (fun _ => k))
  (at level 61, right associativity) : prog_scope.
Local Open Scope prog_scope.

Definition emit (e : event) : prog unit := fun p => (tt, p, [e]).
Definition gets {A} (f : process -> A) : prog A := fun p => (f p, p, []).
Definition modify (f : process -> process) : prog unit := fun p => (tt, f p, []).

Definition result {A} (r : A * process * list event) : A := fst (fst r).
Definition final {A} (r : A * process * list event) : process := snd (fst r).
Definition events {A} (r : A * process * list event) : list event := snd r.

Definition set_g_sensor_data (d : shared_sensor_data_t) (p : process) : process :=
  mk_process d (g_sequence_num p) (last_alert_level p) (last_motion p)
             (last_door_state p).
Definition set_g_sequence_num (n : Z) (p : process) : process :=
  mk_process (g_sensor_data p) n (last_alert_level p) (last_motion p)
             (last_door_state p).
Definition set_last_alert_level (v : Z) (p : process) : process :=
  mk_process (g_sensor_data p) (g_sequence_num p) v (last_motion p)
             (last_door_state p).
Definition set_last_motion (v : Z) (p : process) : process :=
  mk_process (g_sensor_data p) (g_sequence_num p) (last_alert_level p) v
             (last_door_state p).
Definition set_last_door_state (v : Z) (p : process) : process :=
  mk_process (g_sensor_data p) (g_sequence_num p) (last_alert_level p)
             (last_motion p) v.

(** The calls that leave the thread.  Whether the connection to the
    receiving process exists only changes what is printed, so a call is
    recorded with its arguments. *)
Definition pthread_mutex_lock : prog unit := emit EvLock.
Definition pthread_mutex_unlock : prog unit := emit EvUnlock.
Definition send_alert (alert_type alert_level sensor_value : Z)
           (description : string) : prog unit :=
  emit (EvAlert alert_type alert_level sensor_value description).
Definition send_pulse (pulse_type : pulse_code) (alert_level : Z) : prog unit :=
  emit (EvPulse pulse_type alert_level).

Section WithThresholds.

Variable thresholds : threshold_config_t.

(** *** The producers' loop bodies

    Each takes what the sensor's read function returned: its status
    and the values it stored through its out-pointers. *)

Definition temperature_sensor_thread_body (rc temp hum : Z) : prog unit :=
  if rc =? 0 then
    pthread_mutex_lock ;;
    modify (fun p =>
      let g := g_sensor_data p in
      set_g_sensor_data
        (mk_shared temp hum 1
           (gas_detected g) (gas_sensor_valid g)
           (motion_detected g) (motion_sensor_valid g)
           (distance_cm g) (door_closed g) (ultrasonic_valid g)
           (alert_level g)) p) ;;
    pthread_mutex_unlock
  else
    pthread_mutex_lock ;;
    modify (fun p =>
      let g := g_sensor_data p in
      set_g_sensor_data
        (mk_shared (temperature g) (humidity g) 0
           (gas_detected g) (gas_sensor_valid g)
           (motion_detected g) (motion_sensor_valid g)
           (distance_cm g) (door_closed g) (ultrasonic_valid g)
           (alert_level g)) p) ;;
    pthread_mutex_unlock.

Definition gas_sensor_thread_body (rc : Z) (gas : bool) : prog unit :=
  if rc =? 0 then
    pthread_mutex_lock ;;
    modify (fun p =>
      let g := g_sensor_data p in
      set_g_sensor_data
        (mk_shared (temperature g) (humidity g) (temp_sensor_valid g)
           (if gas then 1 else 0) 1
           (motion_detected g) (motion_sensor_valid g)
           (distance_cm g) (door_closed g) (ultrasonic_valid g)
           (alert_level g)) p) ;;
    pthread_mutex_unlock
  else
    pthread_mutex_lock ;;
    modify (fun p =>
      let g := g_sensor_data p in
      set_g_sensor_data
        (mk_shared (temperature g) (humidity g) (temp_sensor_valid g)
           (gas_detected g) 0
           (motion_detected g) (motion_sensor_valid g)
           (distance_cm g) (door_closed g) (ultrasonic_valid g)
           (alert_level g)) p) ;;
    pthread_mutex_unlock.

Definition motion_sensor_thread_body (rc : Z) (motion : bool) : prog unit :=
  if rc =? 0 then
    pthread_mutex_lock ;;
    modify (fun p =>
      let g := g_sensor_data p in
      set_g_sensor_data
        (mk_shared (temperature g) (humidity g) (temp_sensor_valid g)
           (gas_detected g) (gas_sensor_valid g)
           (if motion then 1 else 0) 1
           (distance_cm g) (door_closed g) (ultrasonic_valid g)
           (alert_level g)) p) ;;
    pthread_mutex_unlock
  else
    pthread_mutex_lock ;;
    modify (fun p =>
      let g := g_sensor_data p in
      set_g_sensor_data
        (mk_shared (temperature g) (humidity g) (temp_sensor_valid g)
           (gas_detected g) (gas_sensor_valid g)
           (motion_detected g) 0
           (distance_cm g) (door_closed g) (ultrasonic_valid g)
           (alert_level g)) p) ;;
    pthread_mutex_unlock.

Definition ultrasonic_sensor_thread_body (rc distance : Z) : prog unit :=
  if rc =? 0 then
    let door := distance <=? door_closed_dist_cm thresholds in
    pthread_mutex_lock ;;
    modify (fun p =>
      let g := g_sensor_data p in
      set_g_sensor_data
        (mk_shared (temperature g) (humidity g) (temp_sensor_valid g)
           (gas_detected g) (gas_sensor_valid g)
           (motion_detected g) (motion_sensor_valid g)
           distance (if door then 1 else 0) 1
           (alert_level g)) p) ;;
    pthread_mutex_unlock
  else
    pthread_mutex_lock ;;
    modify (fun p =>
      let g := g_sensor_data p in
      set_g_sensor_data
        (mk_shared (temperature g) (humidity g) (temp_sensor_valid g)
           (gas_detected g) (gas_sensor_valid g)
           (motion_detected g) (motion_sensor_valid g)
           (distance_cm g) (door_closed g) 0
           (alert_level g)) p) ;;
    pthread_mutex_unlock.

(** *** check_thresholds_and_alert

    [data] is the structure the pointer argument refers to; the
    function returns it with [alert_level] stored.  The local
    [current_alert_level] is passed from block to block. *)

Definition check_temperature (data : shared_sensor_data_t)
           (current_alert_level : Z) : prog Z :=
  if truthy (temp_sensor_valid data) then
    if temperature data >? temp_high_threshold thresholds then
      send_alert ALERT_TYPE_TEMP_HIGH ALERT_LEVEL_WARNING (temperature data)
                 "Temperature above threshold" ;;
      send_pulse HIGH_TEMP ALERT_LEVEL_WARNING ;;
      ret ALERT_LEVEL_WARNING
    else if temperature data <? temp_low_threshold thresholds then
      send_alert ALERT_TYPE_TEMP_LOW ALERT_LEVEL_WARNING (temperature data)
                 "Temperature below threshold" ;;
      ret ALERT_LEVEL_WARNING
    else ret current_alert_level
  else ret current_alert_level.

Definition check_gas (data : shared_sensor_data_t)
           (current_alert_level : Z) : prog Z :=
  if truthy (gas_sensor_valid data) && truthy (gas_detected data) then
    send_alert ALERT_TYPE_GAS_DETECTED ALERT_LEVEL_CRITICAL 1
               "Gas detected - potential hazard!" ;;
    send_pulse HIGH_CO2 ALERT_LEVEL_CRITICAL ;;
    ret ALERT_LEVEL_CRITICAL
  else ret current_alert_level.

Definition check_motion (data : shared_sensor_data_t)
           (current_alert_level : Z) : prog Z :=
  if truthy (motion_sensor_valid data) && truthy (motion_detected data) then
    send_alert ALERT_TYPE_MOTION ALERT_LEVEL_INFO 1 "Motion detected" ;;
    send_pulse MOTION_DETECTED ALERT_LEVEL_INFO ;;
    modify (set_last_motion (motion_detected data)) ;;
    if current_alert_level <? ALERT_LEVEL_INFO
    then ret ALERT_LEVEL_INFO
    else ret current_alert_level
  else ret current_alert_level.

Definition check_door (data : shared_sensor_data_t) : prog unit :=
  if truthy (ultrasonic_valid data) then
    last <- gets last_door_state ;;
    (if truthy (door_closed data) && negb (truthy last) then
       send_alert ALERT_TYPE_DOOR_CLOSED ALERT_LEVEL_INFO (distance_cm data)
                  "Door closed" ;;
       send_pulse DOOR_OPEN ALERT_LEVEL_INFO
     else if negb (truthy (door_closed data)) && truthy last then
       send_alert ALERT_TYPE_DOOR_OPEN ALERT_LEVEL_INFO (distance_cm data)
                  "Door opened" ;;
       send_pulse DOOR_OPEN ALERT_LEVEL_INFO
     else ret tt) ;;
    modify (set_last_door_state (door_closed data))
  else ret tt.

Definition check_thresholds_and_alert (data : shared_sensor_data_t)
  : prog shared_sensor_data_t :=
  let current_alert_level := ALERT_LEVEL_INFO in
  current_alert_level <- check_temperature data current_alert_level ;;
  current_alert_level <- check_gas data current_alert_level ;;
  current_alert_level <- check_motion data current_alert_level ;;
  check_door data ;;
  modify (set_last_alert_level current_alert_level) ;;
  ret (mk_shared (temperature data) (humidity data) (temp_sensor_valid data)
         (gas_detected data) (gas_sensor_valid data)
         (motion_detected data) (motion_sensor_valid data)
         (distance_cm data) (door_closed data) (ultrasonic_valid data)
         current_alert_level).

(** *** One iteration of the loop of aggregator_thread

    [now] is what [time(NULL)] returns.  The function returns the
    message it sends. *)

Definition aggregator_thread_body (now : Z) : prog sensor_data_msg_t :=
  pthread_mutex_lock ;;
  g <- gets g_sensor_data ;;
  seq <- gets g_sequence_num ;;
  modify (set_g_sequence_num ((seq + 1) mod 2 ^ 32)) ;;
  let msg :=
    {| msg_type := MSG_TYPE_SENSOR_DATA;
       timestamp := now;
       MsgDef.temperature := temperature g;
       MsgDef.humidity := humidity g;
       MsgDef.temp_sensor_valid := temp_sensor_valid g;
       MsgDef.gas_detected := gas_detected g;
       MsgDef.gas_sensor_valid := gas_sensor_valid g;
       MsgDef.motion_detected := motion_detected g;
       MsgDef.motion_sensor_valid := motion_sensor_valid g;
       MsgDef.distance_cm := distance_cm g;
       MsgDef.door_closed := door_closed g;
       MsgDef.ultrasonic_valid := ultrasonic_valid g;
       MsgDef.alert_level := alert_level g;
       sequence_num := seq |} in
  emit EvCheck ;;
  g' <- check_thresholds_and_alert g ;;
  modify (set_g_sensor_data g') ;;
  pthread_mutex_unlock ;;
  emit (EvSensorData msg) ;;
  ret msg.

End WithThresholds.

End CentralAnalyzer.


(** ** common/public/rpi_gpio.h and the clock, as the drivers see them *)

Module RpiGpio.

Definition GPIO_SUCCESS : Z := 0.
Definition GPIO_IN : Z := 0.
Definition GPIO_OUT : Z := 1.
Definition GPIO_LOW : Z := 4.
Definition GPIO_HIGH : Z := 8.

(** What the board answers.  The drivers poll a line and a cycle counter
    that they do not control, so every answer is given by the number of
    the call: any behaviour of the line and of the clock is one such
    [hardware]. *)
Record hardware := {
  cycles_per_sec : Z;           (* SYSPAGE_ENTRY(qtime)->cycles_per_sec *)
  clock_cycles : nat -> Z;      (* what the n-th ClockCycles() returns *)
  gpio_input : nat -> Z * Z;    (* status of the n-th rpi_gpio_input, level it stores *)
  gpio_status : nat -> Z        (* status of the n-th rpi_gpio_setup / rpi_gpio_output *)
}.

Record world := mk_world {
  board : hardware;
  clock_reads : nat;
  input_reads : nat;
  commands : nat
}.

Definition power_on (h : hardware) : world := mk_world h 0 0 0.

(** Code that talks to the board.  [None]: a polling loop was still
    spinning when the fuel given to it ran out. *)
Definition io (A : Type) : Type := world -> option (A * world).

Definition ret {A} (a : A) : io A := fun w => Some (a, w).

Definition bind {A B} (m : io A) (k : A -> io B) : io B :=
  fun w => match m w with
           | Some (a, w1) => k a w1
           | None => None
           end.

Declare Scope io_scope.
Delimit Scope io_scope with io.
Notation "x <- m ;; k" := (bind m (fun x => k))
  (at level 61, m at next level, right associativity) : io_scope.
Notation "m ;; k" := (bind m (fun _ => k))
  (at level 61, right associativity) : io_scope.

(** Narrowing to [uint64_t], [uint8_t] and [int]. *)
Definition to_uint64 (x : Z) : Z := x mod 2 ^ 64.
Definition to_uint8 (x : Z) : Z := x mod 2 ^ 8.
Definition to_int (x : Z) : Z := (x + 2 ^ 31) mod 2 ^ 32 - 2 ^ 31.

Definition ClockCycles : io Z :=
  fun w =>
    Some (to_uint64 (clock_cycles (board w) (clock_reads w)),
          mk_world (board w) (S (clock_reads w)) (input_reads w) (commands w)).

Definition rpi_gpio_input (gpio_pin : Z) : io (Z * Z) :=
  fun w =>
    Some (gpio_input (board w) (input_reads w),
          mk_world (board w) (clock_reads w) (S (input_reads w)) (commands w)).

Definition gpio_command : io Z :=
  fun w =>
    Some (gpio_status (board w) (commands w),
          mk_world (board w) (clock_reads w) (input_reads w) (S (commands w))).

Definition rpi_gpio_setup (gpio_pin configuration : Z) : io Z := gpio_command.
Definition rpi_gpio_output (gpio_pin level : Z) : io Z := gpio_command.

(** [usleep] only lets time pass; the time is in the answers of the clock. *)
Definition usleep (usec : Z) : io unit := ret tt.

End RpiGpio.

(** ** sensors/temperature_sensor.h *)

Module TemperatureSensor.

Import RpiGpio.
Local Open Scope io_scope.

Definition dht_cycles_per_usec : io Z :=
  fun w => Some (to_uint64 (cycles_per_sec (board w)) / 1000000, w).

Definition dht_get_cycles : io Z := ClockCycles.

(** [while (dht_get_cycles() < target) {}]. *)
Fixpoint dht_delay_us_loop (fuel : nat) (target : Z) : io unit :=
  match fuel with
  | O => fun _ => None
  | S fuel' =>
      c <- dht_get_cycles ;;
      if c <? target then dht_delay_us_loop fuel' target else ret tt
  end.

Definition dht_delay_us (fuel : nat) (usec : Z) : io unit :=
  start <- dht_get_cycles ;;
  cpu <- dht_cycles_per_usec ;;
  let target := to_uint64 (start + usec * cpu) in
  dht_delay_us_loop fuel target.

(** The [for (;;)] of [dht_wait_while_level]. *)
Fixpoint dht_wait_while_level_loop (fuel : nat) (gpio_pin expected : Z)
         (start timeout_cycles : Z) : io Z :=
  match fuel with
  | O => fun _ => None
  | S fuel' =>
      r <- rpi_gpio_input gpio_pin ;;
      let '(rc, level) := r in
      if negb (rc =? 0) then ret (-1)
      else if negb (level =? expected) then
        now <- dht_get_cycles ;;
        let diff := to_uint64 (now - start) in
        cpu <- dht_cycles_per_usec ;;
        ret (to_int (diff / cpu))
      else
        c <- dht_get_cycles ;;
        if to_uint64 (c - start) >? timeout_cycles then ret (-1)
        else dht_wait_while_level_loop fuel' gpio_pin expected start timeout_cycles
  end.

Definition dht_wait_while_level (fuel : nat) (gpio_pin expected timeout_us : Z)
  : io Z :=
  start <- dht_get_cycles ;;
  cpu <- dht_cycles_per_usec ;;
  let timeout_cycles := to_uint64 (to_uint64 timeout_us * cpu) in
  dht_wait_while_level_loop fuel gpio_pin expected start timeout_cycles.

Definition dht_read_bit (fuel : nat) (gpio_pin : Z) : io Z :=
  t <- dht_wait_while_level fuel gpio_pin GPIO_LOW 100 ;;
  if t <? 0 then ret (-1)
  else
    t <- dht_wait_while_level fuel gpio_pin GPIO_HIGH 120 ;;
    if t <? 0 then ret (-1)
    else ret (if t >? 50 then 1 else 0).

Definition temperature_sensor_init (gpio_pin : Z) : io Z :=
  rc <- rpi_gpio_setup gpio_pin GPIO_OUT ;;
  if negb (rc =? 0) then ret (-1)
  else
    rc <- rpi_gpio_output gpio_pin GPIO_HIGH ;;
    if negb (rc =? 0) then ret (-1) else ret 0.

(** [data[k] = v] on [uint8_t data[5]]. *)
Fixpoint store_byte (k : nat) (v : Z) (data : list Z) : list Z :=
  match data, k with
  | [], _ => []
  | _ :: rest, O => v :: rest
  | d :: rest, S k' => d :: store_byte k' v rest
  end.

(** [*ptr = v] when [ptr] is not NULL.  A pointer argument is the cell
    it points to: [None] for NULL, [Some x] for a cell that holds [x]. *)
Definition store_through (ptr : option Z) (v : Z) : option Z :=
  match ptr with
  | None => None
  | Some _ => Some v
  end.

(** Steps 1 and 2 of [temperature_sensor_read]: the start signal and the
    sensor's response.  The result is 0 when the function goes on to read
    the bits and -1 when it has returned -1. *)
Definition temperature_sensor_read_start (fuel : nat) (gpio_pin : Z) : io Z :=
  rc <- rpi_gpio_setup gpio_pin GPIO_OUT ;;
  if negb (rc =? 0) then ret (-1)
  else
    rc <- rpi_gpio_output gpio_pin GPIO_LOW ;;
    if negb (rc =? 0) then ret (-1)
    else
      usleep 20000 ;;
      rc <- rpi_gpio_output gpio_pin GPIO_HIGH ;;
      if negb (rc =? 0) then ret (-1)
      else
        dht_delay_us fuel 40 ;;
        rc <- rpi_gpio_setup gpio_pin GPIO_IN ;;
        if negb (rc =? 0) then ret (-1)
        else
          t <- dht_wait_while_level fuel gpio_pin GPIO_HIGH 200 ;;
          if t <? 0 then ret (-1)
          else
            t <- dht_wait_while_level fuel gpio_pin GPIO_LOW 200 ;;
            if t <? 0 then ret (-1)
            else
              t <- dht_wait_while_level fuel gpio_pin GPIO_HIGH 200 ;;
              if t <? 0 then ret (-1) else ret 0.

(** [data[i / 8] <<= 1; data[i / 8] |= (uint8_t)bit;] *)
Definition shift_bit_in (i bit : Z) (data : list Z) : list Z :=
  let k := Z.to_nat (i / 8) in
  let data := store_byte k (to_uint8 (Z.shiftl (nth k data 0) 1)) data in
  store_byte k (Z.lor (nth k data 0) (to_uint8 bit)) data.

(** Step 3: [for (i = 0; i < 40; ++i)], with [count] iterations left
    from [i].  The result is the status (-1 when a bit could not be read)
    and the array. *)
Fixpoint temperature_sensor_read_bits (fuel : nat) (gpio_pin : Z)
         (count : nat) (i : Z) (data : list Z) : io (Z * list Z) :=
  match count with
  | O => ret (0, data)
  | S count' =>
      bit <- dht_read_bit fuel gpio_pin ;;
      if bit <? 0 then ret (-1, data)
      else
        temperature_sensor_read_bits fuel gpio_pin count' (i + 1)
          (shift_bit_in i bit data)
  end.

(** Step 4 and the stores through the out-pointers. *)
Definition temperature_sensor_read_verify (data : list Z)
           (temperature humidity : option Z) : Z * option Z * option Z :=
  let sum := to_uint8 (nth 0 data 0 + nth 1 data 0 + nth 2 data 0 + nth 3 data 0) in
  if negb (sum =? nth 4 data 0) then (-1, temperature, humidity)
  else (0, store_through temperature (nth 2 data 0),
           store_through humidity (nth 0 data 0)).

(** [temperature_sensor_read(gpio_pin, temperature, humidity)]: the
    status, and the two cells as the call leaves them. *)
Definition temperature_sensor_read (fuel : nat) (gpio_pin : Z)
           (temperature humidity : option Z) : io (Z * option Z * option Z) :=
  let data := [0; 0; 0; 0; 0] in
  rc <- temperature_sensor_read_start fuel gpio_pin ;;
  if negb (rc =? 0) then ret (-1, temperature, humidity)
  else
    r <- temperature_sensor_read_bits fuel gpio_pin 40 0 data ;;
    let '(rc, data) := r in
    if negb (rc =? 0) then ret (-1, temperature, humidity)
    else ret (temperature_sensor_read_verify data temperature humidity).

End TemperatureSensor.

(** ** sensors/gas_sensor.h and sensors/motion_sensor.h *)

Module GasSensor.

Import RpiGpio.
Local Open Scope io_scope.

(** [detected] is the caller's variable; the result is the status and the
    variable as the call leaves it. *)
Definition gas_sensor_read (gpio_pin : Z) (detected : bool) : io (Z * bool) :=
  r <- rpi_gpio_input gpio_pin ;;
  let '(rc, level) := r in
  if negb (rc =? 0) then ret (-1, detected)
  else ret (0, level =? GPIO_LOW).

End GasSensor.

Module MotionSensor.

Import RpiGpio.
Local Open Scope io_scope.

Definition motion_sensor_read (gpio_pin : Z) (detected : bool) : io (Z * bool) :=
  r <- rpi_gpio_input gpio_pin ;;
  let '(rc, level) := r in
  if negb (rc =? 0) then ret (-1, detected)
  else ret (0, level =? GPIO_HIGH).

End MotionSensor.

(** ** sensors/ultrasonic_sensor.h *)

Module UltrasonicSensor.

Local Open Scope Q_scope.

Record timespec := { tv_sec : Z; tv_nsec : Z }.

(** [(uint16_t)x] for a [float] [x]: the fraction is dropped, towards
    zero.  C leaves the conversion undefined when the whole part does not
    fit; the model then keeps its low 16 bits. *)
Definition Qtruncate (x : Q) : Z :=
  if Qle_bool 0 x then Qfloor x else Qceiling x.

Definition float_to_uint16 (x : Q) : Z := (Qtruncate x mod 2 ^ 16)%Z.

Section WithFloats.

(** The values of [float] and [double] are rationals; [to_float] and
    [to_double] are the roundings of the two formats, applied wherever C
    rounds: after each arithmetic operation and at each conversion. *)
Variable to_float : Q -> Q.
Variable to_double : Q -> Q.

Definition SPEED_OF_SOUND_CM_PER_US : Q := to_double (343 # 10000).
Definition EDGE_TIMEOUT_MS : Q := to_double 50.

Definition calculate_elapsed_time_us (start stop : timespec) : Q :=
  let sec := to_double (inject_Z (tv_sec stop - tv_sec start)) in
  let nsec := to_double (inject_Z (tv_nsec stop - tv_nsec start)) in
  to_float
    (to_double (to_double (sec * to_double 1000000)
                + to_double (nsec / to_double 1000))).

(** [distance_float = (pulse_duration_us * SPEED_OF_SOUND_CM_PER_US) / 2.0]:
    the product and the quotient are computed in [double], the result is
    stored in a [float]. *)
Definition distance_float (pulse_duration_us : Q) : Q :=
  to_float
    (to_double (to_double (pulse_duration_us * SPEED_OF_SOUND_CM_PER_US)
                / to_double 2)).

(** [*distance_cm = (uint16_t)distance_float]: from the pulse duration to
    the distance stored. *)
Definition ultrasonic_distance (pulse_duration_us : Q) : Z :=
  float_to_uint16 (distance_float pulse_duration_us).

(** [ultrasonic_sensor_read] once the trigger pulse is sent.  [rising] and
    [falling] are what the two calls of [wait_for_gpio_state] return: the
    status and the timestamp stored.  [distance_cm] is the caller's
    variable; the result is the status and the variable as the call
    leaves it. *)
Definition ultrasonic_sensor_read (rising falling : Z * timespec)
           (distance_cm : Z) : Z * Z :=
  if negb (fst rising =? 0)%Z then (-1, distance_cm)%Z
  else if negb (fst falling =? 0)%Z then (-1, distance_cm)%Z
  else
    let pulse_duration_us :=
      calculate_elapsed_time_us (snd rising) (snd falling) in
    (0%Z, ultrasonic_distance pulse_duration_us).

End WithFloats.

(** A rounding to try the decoder with: down to the next multiple of
    [1 / 2 ^ bits]. *)
Definition round_down (bits : Z) (x : Q) : Q :=
  Qfloor (x * inject_Z (2 ^ bits)) # Z.to_pos (2 ^ bits).

End UltrasonicSensor.

(** ** The process at work *)

Module System.

Import MsgDef CentralAnalyzer.

(** What a sensor's read function hands to its thread in one iteration. *)
Inductive reading :=
| TemperatureReading (rc temp hum : Z)
| GasReading (rc : Z) (detected : bool)
| MotionReading (rc : Z) (detected : bool)
| UltrasonicReading (rc distance : Z).

Definition failed (r : reading) : bool :=
  match r with
  | TemperatureReading rc _ _ => negb (rc =? 0)
  | GasReading rc _ => negb (rc =? 0)
  | MotionReading rc _ => negb (rc =? 0)
  | UltrasonicReading rc _ => negb (rc =? 0)
  end.

Inductive category := Temperature | Gas | Motion | Door.

Definition category_eqb (a b : category) : bool :=
  match a, b with
  | Temperature, Temperature | Gas, Gas | Motion, Motion | Door, Door => true
  | _, _ => false
  end.

Definition producer (r : reading) : category :=
  match r with
  | TemperatureReading _ _ _ => Temperature
  | GasReading _ _ => Gas
  | MotionReading _ _ => Motion
  | UltrasonicReading _ _ => Door
  end.

(** The category of an alert, by its [ALERT_TYPE_*]. *)
Definition alert_category (alert_type : Z) : option category :=
  if (alert_type =? ALERT_TYPE_TEMP_HIGH) || (alert_type =? ALERT_TYPE_TEMP_LOW)
  then Some Temperature
  else if alert_type =? ALERT_TYPE_GAS_DETECTED then Some Gas
  else if alert_type =? ALERT_TYPE_MOTION then Some Motion
  else if (alert_type =? ALERT_TYPE_DOOR_CLOSED) || (alert_type =? ALERT_TYPE_DOOR_OPEN)
  then Some Door
  else None.

Definition is_alert (e : event) : bool :=
  match e with
  | EvAlert _ _ _ _ => true
  | _ => false
  end.

Definition is_alert_of (c : category) (e : event) : bool :=
  match e with
  | EvAlert ty _ _ _ =>
      match alert_category ty with
      | Some c' => category_eqb c c'
      | None => false
      end
  | _ => false
  end.

(** The alerts in a trace, and those of one category. *)
Definition alerts (t : list event) : list event := filter is_alert t.
Definition alerts_of (c : category) (t : list event) : list event :=
  filter (is_alert_of c) t.

(** The severity of an alert, and the largest one in a trace
    ([ALERT_LEVEL_INFO] when there is none). *)
Definition severity (e : event) : Z :=
  match e with
  | EvAlert _ level _ _ => level
  | _ => ALERT_LEVEL_INFO
  end.

Definition max_severity (t : list event) : Z :=
  fold_right Z.max ALERT_LEVEL_INFO (map severity (alerts t)).

(** The validity flag of a category and the fields that hold its value. *)
Definition valid_flag (c : category) (d : shared_sensor_data_t) : Z :=
  match c with
  | Temperature => temp_sensor_valid d
  | Gas => gas_sensor_valid d
  | Motion => motion_sensor_valid d
  | Door => ultrasonic_valid d
  end.

Definition value_fields (c : category) (d : shared_sensor_data_t) : Z * Z :=
  match c with
  | Temperature => (temperature d, humidity d)
  | Gas => (gas_detected d, 0)
  | Motion => (motion_detected d, 0)
  | Door => (distance_cm d, door_closed d)
  end.

(** [d] with the value fields of category [c] replaced by [a] and [b]. *)
Definition with_values (c : category) (a b : Z) (d : shared_sensor_data_t)
  : shared_sensor_data_t :=
  match c with
  | Temperature =>
      mk_shared a b (temp_sensor_valid d) (gas_detected d) (gas_sensor_valid d)
        (motion_detected d) (motion_sensor_valid d) (distance_cm d)
        (door_closed d) (ultrasonic_valid d) (alert_level d)
  | Gas =>
      mk_shared (temperature d) (humidity d) (temp_sensor_valid d) a
        (gas_sensor_valid d) (motion_detected d) (motion_sensor_valid d)
        (distance_cm d) (door_closed d) (ultrasonic_valid d) (alert_level d)
  | Motion =>
      mk_shared (temperature d) (humidity d) (temp_sensor_valid d)
        (gas_detected d) (gas_sensor_valid d) a (motion_sensor_valid d)
        (distance_cm d) (door_closed d) (ultrasonic_valid d) (alert_level d)
  | Door =>
      mk_shared (temperature d) (humidity d) (temp_sensor_valid d)
        (gas_detected d) (gas_sensor_valid d) (motion_detected d)
        (motion_sensor_valid d) a b (ultrasonic_valid d) (alert_level d)
  end.

(** [d] with the validity flag of category [c] replaced by [v]. *)
Definition with_valid_flag (c : category) (v : Z) (d : shared_sensor_data_t)
  : shared_sensor_data_t :=
  match c with
  | Temperature =>
      mk_shared (temperature d) (humidity d) v (gas_detected d)
        (gas_sensor_valid d) (motion_detected d) (motion_sensor_valid d)
        (distance_cm d) (door_closed d) (ultrasonic_valid d) (alert_level d)
  | Gas =>
      mk_shared (temperature d) (humidity d) (temp_sensor_valid d)
        (gas_detected d) v (motion_detected d) (motion_sensor_valid d)
        (distance_cm d) (door_closed d) (ultrasonic_valid d) (alert_level d)
  | Motion =>
      mk_shared (temperature d) (humidity d) (temp_sensor_valid d)
        (gas_detected d) (gas_sensor_valid d) (motion_detected d) v
        (distance_cm d) (door_closed d) (ultrasonic_valid d) (alert_level d)
  | Door =>
      mk_shared (temperature d) (humidity d) (temp_sensor_valid d)
        (gas_detected d) (gas_sensor_valid d) (motion_detected d)
        (motion_sensor_valid d) (distance_cm d) (door_closed d) v
        (alert_level d)
  end.

(** Whether an event is part of the alert evaluation. *)
Definition is_evaluation (e : event) : bool :=
  match e with
  | EvCheck | EvAlert _ _ _ _ | EvPulse _ _ => true
  | _ => false
  end.

Section WithThresholds.

Variable thresholds : threshold_config_t.

(** One iteration of the loop of the thread that owns the sensor. *)
Definition producer_thread_body (r : reading) : prog unit :=
  match r with
  | TemperatureReading rc temp hum => temperature_sensor_thread_body rc temp hum
  | GasReading rc detected => gas_sensor_thread_body rc detected
  | MotionReading rc detected => motion_sensor_thread_body rc detected
  | UltrasonicReading rc distance =>
      ultrasonic_sensor_thread_body thresholds rc distance
  end.

(** Consecutive iterations of one producer: the process after each. *)
Fixpoint producer_cycles (rs : list reading) (p : process) : list process :=
  match rs with
  | [] => []
  | r :: rest =>
      let p' := final (producer_thread_body r p) in
      p' :: producer_cycles rest p'
  end.

(** The threads interleave; the mutex makes each iteration's access to
    [g_sensor_data] one step. *)
Inductive step :=
| Produce (r : reading)
| Tick (now : Z).

(** What one aggregator tick did: the process it started from, its trace,
    the message it sent and the process it left. *)
Record tick_report := mk_report {
  before : process;
  trace : list event;
  sent : sensor_data_msg_t;
  after : process
}.

Fixpoint run (steps : list step) (p : process) : list tick_report :=
  match steps with
  | [] => []
  | Produce r :: rest => run rest (final (producer_thread_body r p))
  | Tick now :: rest =>
      let r := aggregator_thread_body thresholds now p in
      mk_report p (events r) (result r) (final r) :: run rest (final r)
  end.

End WithThresholds.

End System.

(** ** Boards to run the drivers on *)

Module Boards.

Import RpiGpio.

Definition other_level (level : Z) : Z :=
  if level =? GPIO_LOW then GPIO_HIGH else GPIO_LOW.

(** A phase of the line: the level it holds and for how many
    microseconds, counted from the moment the driver starts to wait. *)
Definition phase : Type := Z * Z.

(** The driver's clock reads and line reads over the phases, when each
    wait polls the line twice: once during the phase and once after it.
    [cpu] is the number of cycles in a microsecond, [t] the time at which
    the first wait starts. *)
Fixpoint clock_script (cpu t : Z) (phases : list phase) : list Z :=
  match phases with
  | [] => []
  | (_, d) :: rest =>
      t :: (t + cpu) :: (t + d * cpu) :: clock_script cpu (t + d * cpu) rest
  end.

Definition input_script (phases : list phase) : list (Z * Z) :=
  flat_map (fun ph => [(0, fst ph); (0, other_level (fst ph))]) phases.

(** A board whose line goes through [phases]; [lead] are the clock reads
    that come before the first wait. *)
Definition line_board (cpu : Z) (lead : list Z) (t : Z) (phases : list phase)
  : hardware :=
  {| cycles_per_sec := cpu * 1000000;
     clock_cycles := fun n => nth n (lead ++ clock_script cpu t phases) 0;
     gpio_input := fun n => nth n (input_script phases) (-1, 0);
     gpio_status := fun _ => GPIO_SUCCESS |}.

(** The eight bits of a byte, the highest first. *)
Definition byte_bits (b : Z) : list bool :=
  map (Z.testbit b) [7; 6; 5; 4; 3; 2; 1; 0].

(** The array after the loop of step 3 has taken [bits], the first of
    them as bit [i]. *)
Fixpoint shift_bits_in (i : Z) (bits : list bool) (data : list Z) : list Z :=
  match bits with
  | [] => data
  | b :: rest =>
      shift_bits_in (i + 1) rest
        (TemperatureSensor.shift_bit_in i (if b then 1 else 0) data)
  end.

(** The phases of one bit on the line. *)
Definition bit_phases (b : bool) : list phase :=
  [(GPIO_LOW, 50); (GPIO_HIGH, if b then 70 else 27)].

(** The line and the clock, from where the world [w] stands, go through
    [phases], the first of which starts at cycle [t]. *)
Definition on_script (cpu t : Z) (phases : list phase) (w : world) : Prop :=
  (forall n, (n < List.length (clock_script cpu t phases))%nat ->
             clock_cycles (board w) (clock_reads w + n)
             = nth n (clock_script cpu t phases) 0)
  /\ (forall n, (n < List.length (input_script phases))%nat ->
                gpio_input (board w) (input_reads w + n)
                = nth n (input_script phases) (-1, 0)).

(** The time the phases take, in microseconds. *)
Definition duration (phases : list phase) : Z :=
  fold_right (fun ph acc => snd ph + acc) 0 phases.

(** A DHT11 that answers the start signal and sends [bytes]: 80 us low,
    80 us high, then per bit 50 us low and 27 us (a 0) or 70 us (a 1)
    high. *)
Definition dht11_phases (bytes : list Z) : list phase :=
  [(GPIO_HIGH, 30); (GPIO_LOW, 80); (GPIO_HIGH, 80)]
  ++ flat_map bit_phases (flat_map byte_bits bytes).

Definition dht11_board (cpu : Z) (bytes : list Z) : hardware :=
  line_board cpu [0; 40 * cpu] (40 * cpu) (dht11_phases bytes).

(** A board with no sensor on the line: the line stays high, a read of
    the clock takes 10 us. *)
Definition silent_board (cpu : Z) : hardware :=
  {| cycles_per_sec := cpu * 1000000;
     clock_cycles := fun n => Z.of_nat n * 10 * cpu;
     gpio_input := fun _ => (0, GPIO_HIGH);
     gpio_status := fun _ => GPIO_SUCCESS |}.

(** A board whose GPIO resource manager cannot be reached. *)
Definition unreachable_board (cpu : Z) : hardware :=
  {| cycles_per_sec := cpu * 1000000;
     clock_cycles := fun n => Z.of_nat n * 10 * cpu;
     gpio_input := fun _ => (-1, 0);
     gpio_status := fun _ => -1 |}.

(** The byte that eight bits shifted into [d] leave. *)
Definition pack8 (bits : list bool) (d : Z) : Z :=
  fold_left (fun d (b : bool) =>
               Z.lor (to_uint8 (Z.shiftl d 1)) (to_uint8 (if b then 1 else 0)))
            bits d.

(** The cycle counter runs over its first [n] reads: it goes up from one
    read to the next and does not wrap. *)
Definition clock_runs (h : hardware) (n : nat) : Prop :=
  forall k, (k < n)%nat ->
            0 <= clock_cycles h k < clock_cycles h (S k)
            /\ clock_cycles h (S k) < 2 ^ 64.

(** What [dht_cycles_per_usec] returns on a board. *)
Definition cycles_per_usec (h : hardware) : Z :=
  to_uint64 (cycles_per_sec h) / 1000000.

(** [m] returns from [w], in a world where [post] holds. *)
Definition returns {A} (post : world -> Prop) (m : io A) (w : world) : Prop :=
  exists a w', m w = Some (a, w') /\ post w'.

(** A world on board [h] that has read the clock at most [n] times. *)
Definition within (h : hardware) (n : nat) (w : world) : Prop :=
  board w = h /\ (clock_reads w <= n)%nat.

End Boards.


(** ** Notions the properties are stated in *)

Module Notions.

Import MsgDef CentralAnalyzer System.

(** The events of a trace that happen while the mutex is held, and
    those that happen while it is free; [held] tells whether it is held
    when the trace starts. *)
Fixpoint events_held (held : bool) (t : list event) : list event :=
  match t with
  | [] => []
  | EvLock :: rest => events_held true rest
  | EvUnlock :: rest => events_held false rest
  | e :: rest =>
      if held then e :: events_held held rest else events_held held rest
  end.

Fixpoint events_free (held : bool) (t : list event) : list event :=
  match t with
  | [] => []
  | EvLock :: rest => events_free true rest
  | EvUnlock :: rest => events_free false rest
  | e :: rest =>
      if held then events_free held rest else e :: events_free held rest
  end.

(** The alert a door transition raises. *)
Definition door_alert (closed : bool) (distance : Z) : event :=
  if closed
  then EvAlert ALERT_TYPE_DOOR_CLOSED ALERT_LEVEL_INFO distance "Door closed"
  else EvAlert ALERT_TYPE_DOOR_OPEN ALERT_LEVEL_INFO distance "Door opened".

(** A step that leaves the door where it is: any step but a successful
    ultrasonic reading on the other side of the threshold. *)
Definition keeps_door (thresholds : threshold_config_t) (closed : bool)
           (s : step) : bool :=
  match s with
  | Produce (UltrasonicReading rc distance) =>
      if rc =? 0
      then Bool.eqb (distance <=? door_closed_dist_cm thresholds) closed
      else true
  | _ => true
  end.

(** The evaluation runs outside the lock: nothing of it happens while
    the mutex is held. *)
Definition evaluates_outside_lock (t : list event) : Prop :=
  filter is_evaluation (events_held false t) = [].

(** Three ticks of the aggregator with the temperature at 32, no gas, no
    motion, and the door open, open, closed (15 cm, 15 cm, 8 cm). *)
Definition three_ticks : list step :=
  [ Produce (TemperatureReading 0 32 40);
    Produce (GasReading 0 false);
    Produce (MotionReading 0 false);
    Produce (UltrasonicReading 0 15);
    Tick 100;
    Produce (UltrasonicReading 0 15);
    Tick 102;
    Produce (UltrasonicReading 0 8);
    Tick 104 ].

End Notions.

(** ** Formatted output, as the C library does it *)

Module Printf.

(** The double quote and the newline of a C string literal. *)
Definition dq : string := String "034"%char EmptyString.
Definition nl : string := String "010"%char EmptyString.

Definition digit (d : Z) : ascii := ascii_of_nat (48 + Z.to_nat d).

(** The decimal digits of [n >= 0] put before [acc], at most [fuel] of
    them. *)
Fixpoint decimal (fuel : nat) (n : Z) (acc : string) : string :=
  match fuel with
  | O => acc
  | S fuel' =>
      let acc' := String (digit (n mod 10)) acc in
      if n / 10 =? 0 then acc' else decimal fuel' (n / 10) acc'
  end.

(** ["%u"] of an [unsigned] and ["%d"] of an [int]: neither has more than
    ten digits. *)
Definition print_u (n : Z) : string := decimal 10 n EmptyString.
Definition print_d (n : Z) : string :=
  if n <? 0 then ("-" ++ print_u (- n))%string else print_u n.

(** [snprintf(buf, size, ...)]: what of the formatted text ends up in
    [buf], before the terminating NUL. *)
Definition snprintf (size : nat) (formatted : string) : string :=
  substring 0 (size - 1) formatted.

End Printf.

(** ** event_logger.c *)

Module EventLogger.

Import Printf.
Definition MAX_MSG_LEN : nat := 128.

(** [event_msg_t].  [text] is the C string in the array: the characters
    before its first NUL. *)
Record event_msg_t := { type : Z; text : string }.

(** What the server has done: the text appended to the log file (every
    [fprintf] is followed by [fflush]) and the replies sent, each with the
    [rcvid] it answers and the [status] of the reply. *)
Record server := mk_server {
  logfile : string;
  replies : list (Z * Z)
}.

(** One iteration of the [while (1)] of [main]: [rcvid] is what
    [MsgReceive] returns and [msg] what it leaves in the buffer. *)
Definition event_logger_body (rcvid : Z) (msg : event_msg_t) (s : server)
  : server :=
  if rcvid =? -1 then s
  else if rcvid =? 0 then s
  else
    mk_server (logfile s ++ "EVENT: " ++ text msg ++ nl)%string
              (replies s ++ [(rcvid, 0)]).

(** The loop over what is received. *)
Definition event_logger_loop (received : list (Z * event_msg_t)) (s : server)
  : server :=
  fold_left (fun s r => event_logger_body (fst r) (snd r) s) received s.

(** The line the server writes for a message, and whether what
    [MsgReceive] returned is a message to log. *)
Definition log_line (msg : event_msg_t) : string :=
  ("EVENT: " ++ text msg ++ nl)%string.
Definition is_message (rcvid : Z) : bool :=
  negb (rcvid =? -1) && negb (rcvid =? 0).

(** [main] from its start: it gives up with -1 when the name cannot be
    attached or the log file cannot be opened for appending, and serves
    otherwise.  [log] is what the file holds already. *)
Definition event_logger_main (name_attach_ok fopen_ok : bool)
           (received : list (Z * event_msg_t)) (log : string)
  : Z + server :=
  if negb name_attach_ok then inl (-1)
  else if negb fopen_ok then inl (-1)
  else inr (event_logger_loop received (mk_server log [])).

End EventLogger.

(** ** central_analyzer.c: the messages to the event logger *)

Module AnalyzerMessages.

Import MsgDef CentralAnalyzer Printf EventLogger.
(** The first ["%s"] of [send_alert]:
    [alert_level == ALERT_LEVEL_CRITICAL ? "CRITICAL" : ...]. *)
Definition level_text (alert_level : Z) : string :=
  if alert_level =? ALERT_LEVEL_CRITICAL then "CRITICAL"
  else if alert_level =? ALERT_LEVEL_WARNING then "WARNING"
  else "INFO".

(** The text that the format ["[%s] %s (value=%d)"] of [send_alert]
    gives. *)
Definition alert_format (alert_level sensor_value : Z) (description : string)
  : string :=
  ("[" ++ level_text alert_level ++ "] " ++ description
   ++ " (value=" ++ print_d sensor_value ++ ")")%string.

(** The message [send_alert] builds and passes to [MsgSend]. *)
Definition send_alert_msg (alert_type alert_level sensor_value : Z)
           (description : string) : event_msg_t :=
  {| type := alert_type;
     text := snprintf 128 (alert_format alert_level sensor_value description) |}.

(** The message [send_log] builds. *)
Definition send_log_msg (message : string) : event_msg_t :=
  {| type := 0; text := snprintf 128 ("[LOG] " ++ message)%string |}.

(** The messages that the calls of [send_alert] in a trace pass to the
    event logger, in the order of the calls. *)
Definition alert_messages (t : list event) : list event_msg_t :=
  flat_map (fun e =>
              match e with
              | EvAlert alert_type alert_level sensor_value description =>
                  [send_alert_msg alert_type alert_level sensor_value description]
              | _ => []
              end) t.

End AnalyzerMessages.

(** ** stats_update.c *)

Module StatsUpdate.

Import MsgDef Printf.

Definition DASHBOARD_FILE : string :=
  "/home/qnxuser/home_safety_dash/dashboard.json".
Definition DASHBOARD_FILE_FALLBACK : string := "./dashboard.json".

(** The status of a reply. *)
Inductive errno := EOK | EINVAL.

(** The files by their path, with what each holds. *)
Definition files : Type := string -> option string.

(** [fopen(path, "w")], the writes and [fclose]: the file holds [content]
    and nothing else. *)
Definition rewrite_file (path content : string) (fs : files) : files :=
  fun p => if String.eqb p path then Some content else fs p.

(** ["key": ] and ["text"] in the output. *)
Definition key (k : string) : string := (dq ++ k ++ dq ++ ": ")%string.
Definition quoted (s : string) : string := (dq ++ s ++ dq)%string.

Section WithTime.

(** [localtime] and [strftime] with ["%Y-%m-%d %H:%M:%S"]. *)
Variable format_time : Z -> string.

(** What the [fprintf]s of [update_dashboard] write, one after the
    other. *)
Definition dashboard_door (data : sensor_data_msg_t) : string :=
  ("    " ++ key "door" ++ "{" ++ nl
   ++ (if truthy (ultrasonic_valid data)
       then "      " ++ key "status"
            ++ quoted (if truthy (door_closed data) then "closed" else "open")
            ++ nl
       else "      " ++ key "status" ++ quoted "unknown" ++ nl)
   ++ "    }," ++ nl)%string.

Definition dashboard_temperature (data : sensor_data_msg_t) : string :=
  ("    " ++ key "temperature" ++ "{" ++ nl
   ++ (if truthy (temp_sensor_valid data)
       then "      " ++ key "value" ++ print_d (temperature data) ++ nl
       else "      " ++ key "value" ++ "null" ++ nl)
   ++ "    }," ++ nl)%string.

Definition dashboard_humidity (data : sensor_data_msg_t) : string :=
  ("    " ++ key "humidity" ++ "{" ++ nl
   ++ (if truthy (temp_sensor_valid data)
       then "      " ++ key "value" ++ print_d (humidity data) ++ nl
       else "      " ++ key "value" ++ "null" ++ nl)
   ++ "    }," ++ nl)%string.

Definition dashboard_smoke (data : sensor_data_msg_t) : string :=
  ("    " ++ key "smoke" ++ "{" ++ nl
   ++ (if truthy (gas_sensor_valid data)
       then "      " ++ key "status"
            ++ quoted (if truthy (gas_detected data) then "detected" else "clear")
            ++ "," ++ nl
            ++ "      " ++ key "alert"
            ++ (if truthy (gas_detected data) then "true" else "false") ++ nl
       else "      " ++ key "status" ++ quoted "unknown" ++ "," ++ nl
            ++ "      " ++ key "alert" ++ "false" ++ nl)
   ++ "    }," ++ nl)%string.

Definition dashboard_motion (data : sensor_data_msg_t) : string :=
  ("    " ++ key "motion" ++ "{" ++ nl
   ++ (if truthy (motion_sensor_valid data)
       then "      " ++ key "status"
            ++ quoted (if truthy (motion_detected data) then "detected" else "clear")
            ++ nl
       else "      " ++ key "status" ++ quoted "unknown" ++ nl)
   ++ "    }," ++ nl)%string.

Definition dashboard_co2 (data : sensor_data_msg_t) : string :=
  ("    " ++ key "co2" ++ "{" ++ nl
   ++ (if truthy (gas_sensor_valid data)
       then "      " ++ key "value"
            ++ print_d (if truthy (gas_detected data) then 1000 else 400) ++ nl
       else "      " ++ key "value" ++ "null" ++ nl)
   ++ "    }" ++ nl)%string.

(** The last ["%s"]:
    [alert_level == ALERT_LEVEL_CRITICAL ? "critical" : ...]. *)
Definition dashboard_level (alert_level : Z) : string :=
  if alert_level =? ALERT_LEVEL_CRITICAL then "critical"
  else if alert_level =? ALERT_LEVEL_WARNING then "warning"
  else "info".

Definition dashboard_metadata (data : sensor_data_msg_t) : string :=
  ("  " ++ key "metadata" ++ "{" ++ nl
   ++ "    " ++ key "sequence" ++ print_u (sequence_num data) ++ "," ++ nl
   ++ "    " ++ key "alert_level" ++ quoted (dashboard_level (alert_level data))
   ++ nl
   ++ "  }" ++ nl)%string.

(** The text [update_dashboard] writes. *)
Definition dashboard_json (data : sensor_data_msg_t) : string :=
  ("{" ++ nl
   ++ "  " ++ key "timestamp" ++ quoted (format_time (timestamp data)) ++ "," ++ nl
   ++ "  " ++ key "sensors" ++ "{" ++ nl
   ++ dashboard_door data
   ++ dashboard_temperature data
   ++ dashboard_humidity data
   ++ dashboard_smoke data
   ++ dashboard_motion data
   ++ dashboard_co2 data
   ++ "  }," ++ nl
   ++ dashboard_metadata data
   ++ "}" ++ nl)%string.

(** [update_dashboard]: [can_open] tells whether [fopen(path, "w")]
    succeeds. *)
Definition update_dashboard (can_open : string -> bool)
           (data : sensor_data_msg_t) (fs : files) : files :=
  if can_open DASHBOARD_FILE
  then rewrite_file DASHBOARD_FILE (dashboard_json data) fs
  else if can_open DASHBOARD_FILE_FALLBACK
  then rewrite_file DASHBOARD_FILE_FALLBACK (dashboard_json data) fs
  else fs.

(** The server: its files, the replies it has sent and whether its loop
    is still running. *)
Record server := mk_server {
  disk : files;
  replies : list (Z * errno);
  running : bool
}.

(** One iteration of the [while (1)] of [main]. *)
Definition stats_update_body (can_open : string -> bool) (rcvid : Z)
           (sensor_msg : sensor_data_msg_t) (s : server) : server :=
  if rcvid =? -1 then mk_server (disk s) (replies s) false
  else if rcvid =? 0 then s
  else if msg_type sensor_msg =? MSG_TYPE_SENSOR_DATA then
    mk_server (update_dashboard can_open sensor_msg (disk s))
              (replies s ++ [(rcvid, EOK)]) true
  else mk_server (disk s) (replies s ++ [(rcvid, EINVAL)]) true.

(** The loop over what is received, until it breaks. *)
Fixpoint stats_update_loop (can_open : string -> bool)
         (received : list (Z * sensor_data_msg_t)) (s : server) : server :=
  match received with
  | [] => s
  | (rcvid, sensor_msg) :: rest =>
      let s' := stats_update_body can_open rcvid sensor_msg s in
      if running s' then stats_update_loop can_open rest s' else s'
  end.

End WithTime.

End StatsUpdate.

(** ** alert_mgr.c *)

Module AlertMgr.

Import RpiGpio.

Definition LED_PIN : Z := 16.

(** What the manager does that can be seen from outside. *)
Inductive action :=
| Output (gpio_pin level : Z)     (* rpi_gpio_output(gpio_pin, level) *)
| Sleep (seconds : Z)             (* sleep(seconds) *)
| Reply (rcvid : Z).              (* MsgReply(rcvid, EOK, NULL, 0) *)

(** One iteration of the [while (1)] of [main].  [code] is the code of the
    pulse: one of the four of alert_pulse_def.h, or [None] for any other
    value. *)
Definition alert_mgr_body (rcvid : Z) (code : option pulse_code) : list action :=
  if rcvid =? -1 then []
  else if rcvid =? 0 then
    match code with
    | Some MOTION_DETECTED =>
        [Output LED_PIN GPIO_HIGH; Sleep 2; Output LED_PIN GPIO_LOW]
    | Some HIGH_CO2 =>
        [Output LED_PIN GPIO_HIGH; Sleep 5; Output LED_PIN GPIO_LOW]
    | Some HIGH_TEMP =>
        [Output LED_PIN GPIO_HIGH; Sleep 3; Output LED_PIN GPIO_LOW]
    | Some DOOR_OPEN =>
        [Output LED_PIN GPIO_HIGH; Sleep 3; Output LED_PIN GPIO_LOW]
    | None => []
    end
  else [Reply rcvid].

(** [main] once the name is attached: it exits when the LED pin cannot be
    set up, and otherwise turns the LED off and serves. *)
Definition alert_mgr_main (setup_status : Z)
           (received : list (Z * option pulse_code)) : option (list action) :=
  if negb (setup_status =? 0) then None
  else Some (Output LED_PIN GPIO_LOW
             :: flat_map (fun r => alert_mgr_body (fst r) (snd r)) received).

(** The level the LED is left at by a list of actions, from [level]. *)
Definition led_after (level : Z) (acts : list action) : Z :=
  fold_left (fun l a =>
               match a with
               | Output pin v => if pin =? LED_PIN then v else l
               | _ => l
               end) acts level.

(** The seconds the LED is on during a list of actions, from [level]:
    the time slept while the LED pin is high. *)
Fixpoint seconds_lit (level : Z) (acts : list action) : Z :=
  match acts with
  | [] => 0
  | Output pin v :: rest =>
      seconds_lit (if pin =? LED_PIN then v else level) rest
  | Sleep s :: rest =>
      (if level =? GPIO_HIGH then s else 0) + seconds_lit level rest
  | Reply _ :: rest => seconds_lit level rest
  end.

(** The seconds of the [sleep] in the case of a pulse code. *)
Definition on_time (code : option pulse_code) : Z :=
  match code with
  | Some MOTION_DETECTED => 2
  | Some HIGH_CO2 => 5
  | Some HIGH_TEMP => 3
  | Some DOOR_OPEN => 3
  | None => 0
  end.

End AlertMgr.

(** ** common/rpi_gpio.c *)

Module RpiGpioApi.

Import RpiGpio.

Definition GPIO_ERROR_NOT_CONNECTED : Z := -1.
Definition GPIO_ERROR_MSG_NOT_SENT : Z := -2.
Definition GPIO_ERROR_MSG_EVENT_NOT_REGISTERED : Z := -3.
Definition GPIO_ERROR_INPUT_OUT_OF_RANGE : Z := -4.
Definition GPIO_ERROR_CLEANING_UP : Z := -5.

Definition GPIO_COUNT : Z := 28.

Definition GPIO_PUD_OFF : Z := 0.
Definition GPIO_PUD_UP : Z := 1.
Definition GPIO_PUD_DOWN : Z := 2.

(** The subtypes of the messages to the resource manager that the
    functions below use. *)
Inductive subtype :=
| RPI_GPIO_SET_SELECT
| RPI_GPIO_PUD
| RPI_GPIO_GET_SELECT
| RPI_GPIO_WRITE
| RPI_GPIO_READ.

(** [rpi_gpio_msg_t], without the parts of its header that are the same in
    every message. *)
Record rpi_gpio_msg_t := mk_msg {
  msg_subtype : subtype;
  gpio : Z;
  value : Z
}.

(** What the system answers: the descriptor the n-th
    [open("/dev/gpio/msg")] returns, the status the n-th [MsgSend] returns
    and the [value] its reply leaves in the message, and the status
    [close] returns. *)
Record manager := {
  open_fd : nat -> Z;
  send_status : nat -> Z;
  reply_value : nat -> Z;
  close_status : Z
}.

(** The state of the client library: [gpio_fd], the system it talks to,
    how often it has opened the device and sent a message, and the
    messages it has passed to [MsgSend]. *)
Record client := mk_client {
  gpio_fd : Z;
  system : manager;
  opens : nat;
  sends : nat;
  sent : list rpi_gpio_msg_t
}.

(** The library before its first call. *)
Definition loaded (m : manager) : client := mk_client (-1) m 0 0 [].

Definition api (A : Type) : Type := client -> A * client.

Definition ret {A} (a : A) : api A := fun c => (a, c).

Definition bind {A B} (m : api A) (k : A -> api B) : api B :=
  fun c => let '(a, c1) := m c in k a c1.

Declare Scope api_scope.
Delimit Scope api_scope with api.
Notation "x <- m ;; k" := (bind m (fun x => k))
  (at level 61, m at next level, right associativity) : api_scope.
Local Open Scope api_scope.

Definition gpio_msg_connect : api Z :=
  fun c =>
    if gpio_fd c =? -1 then
      let fd := open_fd (system c) (opens c) in
      let c' := mk_client fd (system c) (S (opens c)) (sends c) (sent c) in
      if fd =? -1 then (GPIO_ERROR_NOT_CONNECTED, c') else (GPIO_SUCCESS, c')
    else (GPIO_SUCCESS, c).

(** [MsgSend(gpio_fd, buffer, ...)]: the status, and the value the reply
    leaves in the buffer. *)
Definition MsgSend (msg : rpi_gpio_msg_t) : api (Z * Z) :=
  fun c =>
    ((send_status (system c) (sends c), reply_value (system c) (sends c)),
     mk_client (gpio_fd c) (system c) (opens c) (S (sends c))
               (sent c ++ [msg])).

Definition gpio_send_msg (msg : rpi_gpio_msg_t) : api Z :=
  r <- MsgSend msg ;;
  if negb (fst r =? GPIO_SUCCESS) then ret GPIO_ERROR_MSG_NOT_SENT
  else ret GPIO_SUCCESS.

(** The result is the status and the message as the reply leaves it. *)
Definition gpio_send_receive_msg (msg : rpi_gpio_msg_t)
  : api (Z * rpi_gpio_msg_t) :=
  r <- MsgSend msg ;;
  let msg' := mk_msg (msg_subtype msg) (gpio msg) (snd r) in
  if negb (fst r =? GPIO_SUCCESS) then ret (GPIO_ERROR_MSG_NOT_SENT, msg')
  else ret (GPIO_SUCCESS, msg').

Definition rpi_gpio_cleanup : api Z :=
  fun c =>
    if negb (gpio_fd c =? -1) then
      if negb (close_status (system c) =? 0)
      then (GPIO_ERROR_CLEANING_UP, c)
      else (close_status (system c), c)
    else (GPIO_SUCCESS, c).

Section WithManagerConstants.

(** The values of <sys/rpi_gpio.h>, which is a header of the system. *)
Variable RPI_GPIO_FUNC_IN : Z.
Variable RPI_GPIO_FUNC_OUT : Z.
Variable RPI_GPIO_PUD_OFF : Z.
Variable RPI_GPIO_PUD_UP : Z.
Variable RPI_GPIO_PUD_DOWN : Z.

Definition rpi_gpio_setup (gpio_pin configuration : Z) : api Z :=
  rc <- gpio_msg_connect ;;
  if negb (rc =? 0) then ret GPIO_ERROR_NOT_CONNECTED
  else if (gpio_pin <? 0) || (gpio_pin >=? GPIO_COUNT)
  then ret GPIO_ERROR_INPUT_OUT_OF_RANGE
  else if configuration =? GPIO_IN then
    rc <- gpio_send_msg (mk_msg RPI_GPIO_SET_SELECT gpio_pin RPI_GPIO_FUNC_IN) ;;
    if negb (rc =? 0) then ret GPIO_ERROR_MSG_NOT_SENT else ret GPIO_SUCCESS
  else if configuration =? GPIO_OUT then
    rc <- gpio_send_msg (mk_msg RPI_GPIO_SET_SELECT gpio_pin RPI_GPIO_FUNC_OUT) ;;
    if negb (rc =? 0) then ret GPIO_ERROR_MSG_NOT_SENT else ret GPIO_SUCCESS
  else ret GPIO_ERROR_INPUT_OUT_OF_RANGE.

Definition rpi_gpio_setup_pull (gpio_pin configuration direction : Z) : api Z :=
  rc <- rpi_gpio_setup gpio_pin configuration ;;
  if negb (rc =? 0) then ret GPIO_ERROR_NOT_CONNECTED
  else if (gpio_pin <? 0) || (gpio_pin >=? GPIO_COUNT)
  then ret GPIO_ERROR_INPUT_OUT_OF_RANGE
  else
    let send v :=
      rc <- gpio_send_msg (mk_msg RPI_GPIO_PUD gpio_pin v) ;;
      if negb (rc =? 0) then ret GPIO_ERROR_MSG_NOT_SENT else ret GPIO_SUCCESS in
    if direction =? GPIO_PUD_OFF then send RPI_GPIO_PUD_OFF
    else if direction =? GPIO_PUD_UP then send RPI_GPIO_PUD_UP
    else if direction =? GPIO_PUD_DOWN then send RPI_GPIO_PUD_DOWN
    else ret GPIO_ERROR_INPUT_OUT_OF_RANGE.

(** [configuration] is the caller's variable; the result is the status
    and the variable as the call leaves it. *)
Definition rpi_gpio_get_setup (gpio_pin configuration : Z) : api (Z * Z) :=
  rc <- gpio_msg_connect ;;
  if negb (rc =? 0) then ret (GPIO_ERROR_NOT_CONNECTED, configuration)
  else if (gpio_pin <? 0) || (gpio_pin >=? GPIO_COUNT)
  then ret (GPIO_ERROR_INPUT_OUT_OF_RANGE, configuration)
  else
    r <- gpio_send_receive_msg (mk_msg RPI_GPIO_GET_SELECT gpio_pin 0) ;;
    if negb (fst r =? 0) then ret (GPIO_ERROR_MSG_NOT_SENT, configuration)
    else if value (snd r) =? RPI_GPIO_FUNC_IN then ret (GPIO_SUCCESS, GPIO_IN)
    else if value (snd r) =? RPI_GPIO_FUNC_OUT then ret (GPIO_SUCCESS, GPIO_OUT)
    else ret (GPIO_ERROR_INPUT_OUT_OF_RANGE, configuration).

Definition rpi_gpio_output (gpio_pin level : Z) : api Z :=
  rc <- gpio_msg_connect ;;
  if negb (rc =? 0) then ret GPIO_ERROR_NOT_CONNECTED
  else if (gpio_pin <? 0) || (gpio_pin >=? GPIO_COUNT)
  then ret GPIO_ERROR_INPUT_OUT_OF_RANGE
  else if level =? GPIO_LOW then
    rc <- gpio_send_msg (mk_msg RPI_GPIO_WRITE gpio_pin 0) ;;
    if negb (rc =? 0) then ret GPIO_ERROR_MSG_NOT_SENT else ret GPIO_SUCCESS
  else if level =? GPIO_HIGH then
    rc <- gpio_send_msg (mk_msg RPI_GPIO_WRITE gpio_pin 1) ;;
    if negb (rc =? 0) then ret GPIO_ERROR_MSG_NOT_SENT else ret GPIO_SUCCESS
  else ret GPIO_ERROR_INPUT_OUT_OF_RANGE.

(** [level] is the caller's variable; the result is the status and the
    variable as the call leaves it. *)
Definition rpi_gpio_input (gpio_pin level : Z) : api (Z * Z) :=
  rc <- gpio_msg_connect ;;
  if negb (rc =? 0) then ret (GPIO_ERROR_NOT_CONNECTED, level)
  else if (gpio_pin <? 0) || (gpio_pin >=? GPIO_COUNT)
  then ret (GPIO_ERROR_INPUT_OUT_OF_RANGE, level)
  else
    r <- gpio_send_receive_msg (mk_msg RPI_GPIO_READ gpio_pin 1) ;;
    if negb (fst r =? 0) then ret (GPIO_ERROR_MSG_NOT_SENT, level)
    else if value (snd r) =? 0 then ret (GPIO_SUCCESS, GPIO_LOW)
    else if value (snd r) =? 1 then ret (GPIO_SUCCESS, GPIO_HIGH)
    else ret (GPIO_ERROR_INPUT_OUT_OF_RANGE, level).

(** A call of the library by a client. *)
Inductive call :=
| Setup (gpio_pin configuration : Z)
| SetupPull (gpio_pin configuration direction : Z)
| GetSetup (gpio_pin : Z)
| OutputLevel (gpio_pin level : Z)
| InputLevel (gpio_pin : Z)
| Cleanup.

(** The status a call returns and the state it leaves. *)
Definition perform (k : call) (c : client) : Z * client :=
  match k with
  | Setup gpio_pin configuration => rpi_gpio_setup gpio_pin configuration c
  | SetupPull gpio_pin configuration direction =>
      rpi_gpio_setup_pull gpio_pin configuration direction c
  | GetSetup gpio_pin =>
      let '(r, c') := rpi_gpio_get_setup gpio_pin 0 c in (fst r, c')
  | OutputLevel gpio_pin level => rpi_gpio_output gpio_pin level c
  | InputLevel gpio_pin =>
      let '(r, c') := rpi_gpio_input gpio_pin 0 c in (fst r, c')
  | Cleanup => rpi_gpio_cleanup c
  end.

(** A sequence of calls: the statuses and the final state. *)
Fixpoint perform_all (ks : list call) (c : client) : list Z * client :=
  match ks with
  | [] => ([], c)
  | k :: rest =>
      let '(r, c1) := perform k c in
      let '(rs, c2) := perform_all rest c1 in
      (r :: rs, c2)
  end.



(** Whether a call talks to the resource manager. *)
Definition needs_manager (k : call) : bool :=
  match k with
  | Cleanup => false
  | _ => true
  end.

End WithManagerConstants.

End RpiGpioApi.

(** ** Further notions the properties are stated in *)

Module MoreNotions.

Import MsgDef CentralAnalyzer System Notions.

(** The pulse [check_thresholds_and_alert] sends after an alert of a
    type, if it sends one. *)
Definition pulse_of_alert (alert_type : Z) : option pulse_code :=
  if alert_type =? ALERT_TYPE_TEMP_HIGH then Some HIGH_TEMP
  else if alert_type =? ALERT_TYPE_GAS_DETECTED then Some HIGH_CO2
  else if alert_type =? ALERT_TYPE_MOTION then Some MOTION_DETECTED
  else if alert_type =? ALERT_TYPE_DOOR_CLOSED then Some DOOR_OPEN
  else if alert_type =? ALERT_TYPE_DOOR_OPEN then Some DOOR_OPEN
  else None.

Definition is_pulse (e : event) : bool :=
  match e with
  | EvPulse _ _ => true
  | _ => false
  end.

(** The pulses that go with the alerts of a trace. *)
Definition pulses_of_alerts (t : list event) : list event :=
  flat_map (fun e =>
              match e with
              | EvAlert alert_type alert_level _ _ =>
                  match pulse_of_alert alert_type with
                  | Some code => [EvPulse code alert_level]
                  | None => []
                  end
              | _ => []
              end) t.

(** A flag is 0 or 1; a level is one of the three [ALERT_LEVEL_*]. *)
Definition is_flag (x : Z) : bool := (x =? 0) || (x =? 1).
Definition is_level (x : Z) : bool :=
  (x =? ALERT_LEVEL_INFO) || (x =? ALERT_LEVEL_WARNING)
  || (x =? ALERT_LEVEL_CRITICAL).

Definition flags_ok (d : shared_sensor_data_t) : bool :=
  is_flag (temp_sensor_valid d) && is_flag (gas_detected d)
  && is_flag (gas_sensor_valid d) && is_flag (motion_detected d)
  && is_flag (motion_sensor_valid d) && is_flag (door_closed d)
  && is_flag (ultrasonic_valid d) && is_level (alert_level d).

Definition msg_flags_ok (m : sensor_data_msg_t) : bool :=
  is_flag (MsgDef.temp_sensor_valid m) && is_flag (MsgDef.gas_detected m)
  && is_flag (MsgDef.gas_sensor_valid m) && is_flag (MsgDef.motion_detected m)
  && is_flag (MsgDef.motion_sensor_valid m) && is_flag (MsgDef.door_closed m)
  && is_flag (MsgDef.ultrasonic_valid m) && is_level (MsgDef.alert_level m).

(** The validity flag and the value fields of a category in a message. *)
Definition msg_valid_flag (c : category) (m : sensor_data_msg_t) : Z :=
  match c with
  | Temperature => MsgDef.temp_sensor_valid m
  | Gas => MsgDef.gas_sensor_valid m
  | Motion => MsgDef.motion_sensor_valid m
  | Door => MsgDef.ultrasonic_valid m
  end.

Definition msg_value_fields (c : category) (m : sensor_data_msg_t) : Z * Z :=
  match c with
  | Temperature => (MsgDef.temperature m, MsgDef.humidity m)
  | Gas => (MsgDef.gas_detected m, 0)
  | Motion => (MsgDef.motion_detected m, 0)
  | Door => (MsgDef.distance_cm m, MsgDef.door_closed m)
  end.

(** [m] with the value fields of category [c] replaced by [a] and [b]. *)
Definition msg_with_values (c : category) (a b : Z) (m : sensor_data_msg_t)
  : sensor_data_msg_t :=
  {| msg_type := msg_type m;
     timestamp := timestamp m;
     MsgDef.temperature :=
       match c with Temperature => a | _ => MsgDef.temperature m end;
     MsgDef.humidity :=
       match c with Temperature => b | _ => MsgDef.humidity m end;
     MsgDef.temp_sensor_valid := MsgDef.temp_sensor_valid m;
     MsgDef.gas_detected :=
       match c with Gas => a | _ => MsgDef.gas_detected m end;
     MsgDef.gas_sensor_valid := MsgDef.gas_sensor_valid m;
     MsgDef.motion_detected :=
       match c with Motion => a | _ => MsgDef.motion_detected m end;
     MsgDef.motion_sensor_valid := MsgDef.motion_sensor_valid m;
     MsgDef.distance_cm :=
       match c with Door => a | _ => MsgDef.distance_cm m end;
     MsgDef.door_closed :=
       match c with Door => b | _ => MsgDef.door_closed m end;
     MsgDef.ultrasonic_valid := MsgDef.ultrasonic_valid m;
     MsgDef.alert_level := MsgDef.alert_level m;
     sequence_num := sequence_num m |}.

(** The values a successful reading puts into [g_sensor_data]. *)
Definition reading_values (thresholds : threshold_config_t) (r : reading)
  : Z * Z :=
  match r with
  | TemperatureReading _ temp hum => (temp, hum)
  | GasReading _ detected => ((if detected then 1 else 0), 0)
  | MotionReading _ detected => ((if detected then 1 else 0), 0)
  | UltrasonicReading _ distance =>
      (distance, if distance <=? door_closed_dist_cm thresholds then 1 else 0)
  end.

(** A step that is not an iteration of the producer of category [c]:
    an iteration of another producer, or a tick of the aggregator. *)
Definition leaves_category (c : category) (s : step) : bool :=
  match s with
  | Produce r => negb (category_eqb (producer r) c)
  | Tick _ => true
  end.

(** A message of type [ty] with sequence number [seq] and no valid
    reading. *)
Definition blank_msg (ty seq : Z) : sensor_data_msg_t :=
  {| msg_type := ty;
     timestamp := 0;
     MsgDef.temperature := 0;
     MsgDef.humidity := 0;
     MsgDef.temp_sensor_valid := 0;
     MsgDef.gas_detected := 0;
     MsgDef.gas_sensor_valid := 0;
     MsgDef.motion_detected := 0;
     MsgDef.motion_sensor_valid := 0;
     MsgDef.distance_cm := 0;
     MsgDef.door_closed := 0;
     MsgDef.ultrasonic_valid := 0;
     MsgDef.alert_level := 0;
     sequence_num := seq |}.

(** The pulses of a trace, as [MsgReceive] hands them to the alert
    manager: [rcvid] 0 and the code. *)
Definition pulses_received (t : list event) : list (Z * option pulse_code) :=
  flat_map (fun e =>
              match e with
              | EvPulse code _ => [(0, Some code)]
              | _ => []
              end) t.

(** A resource manager that accepts every message and answers [reply]
    to each, on a system where [open] returns descriptor 3. *)
Definition willing_manager (reply : Z) : RpiGpioApi.manager :=
  {| RpiGpioApi.open_fd := fun _ => 3;
     RpiGpioApi.send_status := fun _ => 0;
     RpiGpioApi.reply_value := fun _ => reply;
     RpiGpioApi.close_status := 0 |}.

(** A system on which the device cannot be opened. *)
Definition absent_manager : RpiGpioApi.manager :=
  {| RpiGpioApi.open_fd := fun _ => -1;
     RpiGpioApi.send_status := fun _ => -1;
     RpiGpioApi.reply_value := fun _ => 0;
     RpiGpioApi.close_status := 0 |}.

End MoreNotions.

(** * Properties *)

Import MsgDef CentralAnalyzer System Notions.

(** ** The alert engine *)

Ltac unfold_prog :=
  unfold aggregator_thread_body, check_thresholds_and_alert, check_temperature,
    check_gas, check_motion, check_door, send_alert, send_pulse,
    pthread_mutex_lock, pthread_mutex_unlock, CentralAnalyzer.bind,
    CentralAnalyzer.ret, emit, gets, modify, events, final, result in *.

Ltac split_if :=
  match goal with
  | |- context [if ?b then _ else _] => destruct b eqn:?
  end.

Ltac crunch :=
  unfold_prog; cbn -[Z.modulo Z.pow] in *;
  repeat (split_if; cbn -[Z.modulo Z.pow] in *; try discriminate).

Lemma alerts_of_app c t1 t2 :
  alerts_of c (t1 ++ t2) = alerts_of c t1 ++ alerts_of c t2.
Proof. apply filter_app. Qed.

(** The trace of a tick: the evaluation sits between the lock and the
    unlock, and the message goes out after the unlock with the
    [alert_level] found in [g_sensor_data] when the tick started. *)
Lemma aggregator_thread_body_events th now p :
  events (aggregator_thread_body th now p) =
  [EvLock; EvCheck]
  ++ events (check_thresholds_and_alert th (g_sensor_data p) p)
  ++ [EvUnlock; EvSensorData (result (aggregator_thread_body th now p))].
Proof.
  destruct p as [[] seq l1 l2 l3]. crunch; reflexivity.
Qed.

(** The message carries the [alert_level] that [g_sensor_data] held when
    the tick took the lock. *)
Lemma aggregator_thread_body_sent_level th now p :
  MsgDef.alert_level (result (aggregator_thread_body th now p)) =
  alert_level (g_sensor_data p).
Proof.
  destruct p as [[] seq l1 l2 l3]. crunch; reflexivity.
Qed.

(** X2.  The level the evaluation stores is the largest severity among the
    alerts it raised, [ALERT_LEVEL_INFO] when it raised none. *)
Lemma check_thresholds_and_alert_level th d p :
  alert_level (result (check_thresholds_and_alert th d p)) =
  max_severity (events (check_thresholds_and_alert th d p)).
Proof.
  destruct p as [g seq l1 l2 l3], d. crunch; reflexivity.
Qed.

(** A tick stores nothing in [g_sensor_data] but the level. *)
Lemma aggregator_thread_body_final th now p :
  g_sensor_data (final (aggregator_thread_body th now p)) =
  result (check_thresholds_and_alert th (g_sensor_data p) p)
  /\ last_door_state (final (aggregator_thread_body th now p)) =
     (if truthy (ultrasonic_valid (g_sensor_data p))
      then door_closed (g_sensor_data p) else last_door_state p)
  /\ door_closed (g_sensor_data (final (aggregator_thread_body th now p))) =
     door_closed (g_sensor_data p).
Proof.
  destruct p as [[] seq l1 l2 l3]. crunch; repeat split.
Qed.

(** The door alerts of a tick. *)
Lemma aggregator_thread_body_door th now p :
  alerts_of Door (events (aggregator_thread_body th now p)) =
  if truthy (ultrasonic_valid (g_sensor_data p)) then
    if truthy (door_closed (g_sensor_data p)) && negb (truthy (last_door_state p))
    then [door_alert true (distance_cm (g_sensor_data p))]
    else if negb (truthy (door_closed (g_sensor_data p))) && truthy (last_door_state p)
    then [door_alert false (distance_cm (g_sensor_data p))]
    else []
  else [].
Proof.
  destruct p as [[] seq l1 l2 l3]. crunch; reflexivity.
Qed.

(** The temperature alerts of a tick. *)
Lemma aggregator_thread_body_temperature th now p :
  alerts_of Temperature (events (aggregator_thread_body th now p)) =
  if truthy (temp_sensor_valid (g_sensor_data p)) then
    if temperature (g_sensor_data p) >? temp_high_threshold th
    then [EvAlert ALERT_TYPE_TEMP_HIGH ALERT_LEVEL_WARNING
            (temperature (g_sensor_data p)) "Temperature above threshold"]
    else if temperature (g_sensor_data p) <? temp_low_threshold th
    then [EvAlert ALERT_TYPE_TEMP_LOW ALERT_LEVEL_WARNING
            (temperature (g_sensor_data p)) "Temperature below threshold"]
    else []
  else [].
Proof.
  destruct p as [[] seq l1 l2 l3]. crunch; reflexivity.
Qed.

(** What holds of every tick from every state holds of every tick of a
    run. *)
Lemma run_Forall th (P : tick_report -> Prop) :
  (forall now p,
      P (mk_report p (events (aggregator_thread_body th now p))
           (result (aggregator_thread_body th now p))
           (final (aggregator_thread_body th now p)))) ->
  forall steps p, Forall P (run th steps p).
Proof.
  intros HP steps. induction steps as [|[r|now] rest IH]; intro p; simpl.
  - constructor.
  - apply IH.
  - constructor; [apply HP | apply IH].
Qed.

(** A producer leaves the latch of the door alone, and only a successful
    ultrasonic reading changes [door_closed]. *)
Lemma producer_thread_body_door th r p :
  last_door_state (final (producer_thread_body th r p)) = last_door_state p
  /\ door_closed (g_sensor_data (final (producer_thread_body th r p))) =
     match r with
     | UltrasonicReading rc distance =>
         if rc =? 0
         then (if distance <=? door_closed_dist_cm th then 1 else 0)
         else door_closed (g_sensor_data p)
     | _ => door_closed (g_sensor_data p)
     end.
Proof.
  destruct p as [[] seq l1 l2 l3], r as [rc ? ?|rc ?|rc ?|rc ?];
    unfold producer_thread_body, temperature_sensor_thread_body,
      gas_sensor_thread_body, motion_sensor_thread_body,
      ultrasonic_sensor_thread_body;
    destruct (rc =? 0); crunch; split; reflexivity.
Qed.

(** While the door stays on the side the latch remembers, no tick raises
    a door alert. *)
Lemma run_door_quiet th closed steps :
  forallb (keeps_door th closed) steps = true ->
  forall p,
    truthy (door_closed (g_sensor_data p)) = closed ->
    truthy (last_door_state p) = closed ->
    Forall (fun r => alerts_of Door (trace r) = []) (run th steps p).
Proof.
  induction steps as [|[r|now] rest IH]; simpl; intros Hk p Hd Hl.
  - constructor.
  - apply andb_true_iff in Hk. destruct Hk as [Hr Hk].
    destruct (producer_thread_body_door th r p) as [El Ed].
    apply IH; auto.
    + rewrite Ed. destruct r as [rc ? ?|rc ?|rc ?|rc dist]; auto.
      destruct (rc =? 0); auto.
      apply eqb_prop in Hr. rewrite <- Hr.
      destruct (dist <=? door_closed_dist_cm th); reflexivity.
    + rewrite El. exact Hl.
  - destruct (aggregator_thread_body_final th now p) as (_ & El & Ed).
    constructor.
    + simpl. rewrite aggregator_thread_body_door, Hd, Hl.
      destruct (truthy (ultrasonic_valid (g_sensor_data p))), closed; reflexivity.
    + apply IH; auto.
      * rewrite Ed. exact Hd.
      * rewrite El.
        destruct (truthy (ultrasonic_valid (g_sensor_data p))); auto.
Qed.

(** A tick leaves in [g_sensor_data] the largest severity it raised, and
    a producer leaves the level alone. *)
Lemma aggregator_thread_body_stored_level th now p :
  alert_level (g_sensor_data (final (aggregator_thread_body th now p))) =
  max_severity (events (aggregator_thread_body th now p)).
Proof.
  destruct p as [[] seq l1 l2 l3]. crunch; reflexivity.
Qed.

Lemma producer_thread_body_level th r p :
  alert_level (g_sensor_data (final (producer_thread_body th r p))) =
  alert_level (g_sensor_data p).
Proof.
  destruct p as [[] seq l1 l2 l3], r as [rc ? ?|rc ?|rc ?|rc ?];
    unfold producer_thread_body, temperature_sensor_thread_body,
      gas_sensor_thread_body, motion_sensor_thread_body,
      ultrasonic_sensor_thread_body;
    destruct (rc =? 0); reflexivity.
Qed.

(** X1.  In every run the levels sent are the levels raised, one tick late:
    the first message carries the level the run started with, and each
    later one the largest severity of the tick before it. *)
Lemma run_sent_level_lags th steps :
  forall p,
    map (fun r => MsgDef.alert_level (sent r)) (run th steps p) =
    removelast (alert_level (g_sensor_data p)
                :: map (fun r => max_severity (trace r)) (run th steps p)).
Proof.
  induction steps as [|[r|now] rest IH]; intro p.
  - reflexivity.
  - cbn [run]. rewrite IH, producer_thread_body_level. reflexivity.
  - cbn [run map sent trace]. rewrite IH.
    rewrite aggregator_thread_body_sent_level,
      aggregator_thread_body_stored_level.
    reflexivity.
Qed.

(** C1, at the input where the code departs from it.  From the start of
    the process, three ticks with the temperature at 32, no gas, no motion
    and the door open, open, closed raise the alerts
    {WARNING temperature}, {WARNING temperature},
    {WARNING temperature, INFO door closed}; the largest severity raised
    is WARNING on each tick and is what the tick stores in
    [g_sensor_data]; but the messages sent carry INFO, WARNING, WARNING:
    each message carries the level stored by the tick before it. *)
Theorem three_ticks_sent_level_lags :
  let reports := run configured_thresholds three_ticks initial_process in
  map (fun r => alerts (trace r)) reports =
    [ [EvAlert ALERT_TYPE_TEMP_HIGH ALERT_LEVEL_WARNING 32
               "Temperature above threshold"];
      [EvAlert ALERT_TYPE_TEMP_HIGH ALERT_LEVEL_WARNING 32
               "Temperature above threshold"];
      [EvAlert ALERT_TYPE_TEMP_HIGH ALERT_LEVEL_WARNING 32
               "Temperature above threshold";
       EvAlert ALERT_TYPE_DOOR_CLOSED ALERT_LEVEL_INFO 8 "Door closed"] ]
  /\ map (fun r => max_severity (trace r)) reports =
       [ALERT_LEVEL_WARNING; ALERT_LEVEL_WARNING; ALERT_LEVEL_WARNING]
  /\ map (fun r => alert_level (g_sensor_data (after r))) reports =
       [ALERT_LEVEL_WARNING; ALERT_LEVEL_WARNING; ALERT_LEVEL_WARNING]
  /\ map (fun r => MsgDef.alert_level (sent r)) reports =
       [ALERT_LEVEL_INFO; ALERT_LEVEL_WARNING; ALERT_LEVEL_WARNING].
Proof.
  vm_compute. repeat split.
Qed.

(** C3.  On a tick whose ultrasonic reading is valid and whose door state
    differs from the latched one, exactly one door alert is raised: "Door
    closed" when the door went from open to closed, "Door opened" when it
    went from closed to open.  Over whatever steps follow in which the
    door stays on that side (other producers' iterations, failed
    ultrasonic reads, further ticks), no tick raises a door alert. *)
Theorem door_alert_edge_triggered th closed now steps p :
  truthy (ultrasonic_valid (g_sensor_data p)) = true ->
  truthy (door_closed (g_sensor_data p)) = closed ->
  truthy (last_door_state p) = negb closed ->
  forallb (keeps_door th closed) steps = true ->
  match run th (Tick now :: steps) p with
  | first :: rest =>
      alerts_of Door (trace first) =
        [door_alert closed (distance_cm (g_sensor_data p))]
      /\ Forall (fun r => alerts_of Door (trace r) = []) rest
  | [] => False
  end.
Proof.
  intros Hv Hd Hl Hk. simpl.
  destruct (aggregator_thread_body_final th now p) as (_ & El & Ed).
  split.
  - rewrite aggregator_thread_body_door, Hv, Hd, Hl.
    destruct closed; reflexivity.
  - apply run_door_quiet with (closed := closed); auto.
    + rewrite Ed. exact Hd.
    + rewrite El, Hv. exact Hd.
Qed.

(** The door at 15 cm, then at 8 cm with the threshold at 10 cm: one
    "Door closed" on the tick that sees 8 cm, nothing on the three ticks
    after it, one of which has no valid reading. *)
Lemma door_alert_edge_triggered_witness :
  let p := final (producer_thread_body configured_thresholds
                    (UltrasonicReading 0 8)
                    (final (aggregator_thread_body configured_thresholds 100
                       (final (producer_thread_body configured_thresholds
                                 (UltrasonicReading 0 15) initial_process))))) in
  let steps := [ Produce (UltrasonicReading 0 8); Tick 104;
                 Produce (UltrasonicReading (-1) 0); Tick 106;
                 Produce (UltrasonicReading 0 7); Tick 108 ] in
  match run configured_thresholds (Tick 102 :: steps) p with
  | first :: rest =>
      alerts_of Door (trace first) = [door_alert true 8]
      /\ Forall (fun r => alerts_of Door (trace r) = []) rest
  | [] => False
  end.
Proof.
  intros p steps.
  apply (door_alert_edge_triggered configured_thresholds true 102 steps p);
    reflexivity.
Defined.

(** C4.  On every tick of every run: when the temperature is valid and
    above the high threshold the tick raises exactly one temperature
    alert, WARNING "above threshold" (so the alert is raised again on each
    tick on which this holds); when it is valid and below the low
    threshold, exactly one WARNING "below threshold"; otherwise none. *)
Theorem temperature_alert_level_triggered th steps p :
  temp_low_threshold th <= temp_high_threshold th ->
  Forall (fun r =>
    let valid := truthy (temp_sensor_valid (g_sensor_data (before r))) in
    let temp := temperature (g_sensor_data (before r)) in
    alerts_of Temperature (trace r) =
      if valid && (temp >? temp_high_threshold th)
      then [EvAlert ALERT_TYPE_TEMP_HIGH ALERT_LEVEL_WARNING temp
                    "Temperature above threshold"]
      else if valid && (temp <? temp_low_threshold th)
      then [EvAlert ALERT_TYPE_TEMP_LOW ALERT_LEVEL_WARNING temp
                    "Temperature below threshold"]
      else [])
    (run th steps p)
  /\ forall temp,
       (temp >? temp_high_threshold th) && (temp <? temp_low_threshold th) = false.
Proof.
  intro Hth. split.
  - apply run_Forall. intros now q. cbn [before trace].
    rewrite aggregator_thread_body_temperature.
    destruct (truthy (temp_sensor_valid (g_sensor_data q))); reflexivity.
  - intro temp.
    destruct (Z.gtb_spec temp (temp_high_threshold th));
      destruct (Z.ltb_spec temp (temp_low_threshold th)); auto; lia.
Qed.

(** The thresholds of the process, and a run with four ticks at 35
    degrees and one after the temperature is back at 25. *)
Lemma temperature_alert_level_triggered_witness :
  temp_low_threshold configured_thresholds
  <= temp_high_threshold configured_thresholds
  /\ (Forall (fun r =>
        let valid := truthy (temp_sensor_valid (g_sensor_data (before r))) in
        let temp := temperature (g_sensor_data (before r)) in
        alerts_of Temperature (trace r) =
          if valid && (temp >? temp_high_threshold configured_thresholds)
          then [EvAlert ALERT_TYPE_TEMP_HIGH ALERT_LEVEL_WARNING temp
                        "Temperature above threshold"]
          else if valid && (temp <? temp_low_threshold configured_thresholds)
          then [EvAlert ALERT_TYPE_TEMP_LOW ALERT_LEVEL_WARNING temp
                        "Temperature below threshold"]
          else [])
        (run configured_thresholds
           [ Produce (TemperatureReading 0 35 40); Tick 100; Tick 102;
             Produce (TemperatureReading 0 35 41); Tick 104; Tick 106;
             Produce (TemperatureReading 0 25 41); Tick 108 ]
           initial_process)
      /\ forall temp,
           (temp >? temp_high_threshold configured_thresholds)
           && (temp <? temp_low_threshold configured_thresholds) = false).
Proof.
  split.
  - simpl; lia.
  - apply temperature_alert_level_triggered. simpl; lia.
Defined.

(** The alerts of that run, tick by tick. *)
Example temperature_35_then_25 :
  map (fun r => alerts_of Temperature (trace r))
      (run configured_thresholds
         [ Produce (TemperatureReading 0 35 40); Tick 100; Tick 102;
           Produce (TemperatureReading 0 35 41); Tick 104; Tick 106;
           Produce (TemperatureReading 0 25 41); Tick 108;
           Produce (TemperatureReading 0 10 41); Tick 110;
           Produce (TemperatureReading (-1) 0 0); Tick 112 ]
         initial_process) =
  [ [EvAlert ALERT_TYPE_TEMP_HIGH ALERT_LEVEL_WARNING 35
             "Temperature above threshold"];
    [EvAlert ALERT_TYPE_TEMP_HIGH ALERT_LEVEL_WARNING 35
             "Temperature above threshold"];
    [EvAlert ALERT_TYPE_TEMP_HIGH ALERT_LEVEL_WARNING 35
             "Temperature above threshold"];
    [EvAlert ALERT_TYPE_TEMP_HIGH ALERT_LEVEL_WARNING 35
             "Temperature above threshold"];
    [];
    [EvAlert ALERT_TYPE_TEMP_LOW ALERT_LEVEL_WARNING 10
             "Temperature below threshold"];
    [] ].
Proof. reflexivity. Qed.

(** C5 as the spec states it fails on the first tick of the process: the
    evaluation is entered while the mutex is held. *)
Lemma evaluation_outside_lock_fails :
  ~ evaluates_outside_lock
      (events (aggregator_thread_body configured_thresholds 100 initial_process)).
Proof.
  unfold evaluates_outside_lock. vm_compute. discriminate.
Qed.

(** C5, amended.  On every tick the aggregator takes the lock, copies
    [g_sensor_data] into the message, runs the whole evaluation on
    [g_sensor_data] while it still holds the lock, and releases the lock
    after it; the only thing it does once the lock is free is to send the
    message. *)
Theorem evaluation_inside_lock th now p :
  events_held false (events (aggregator_thread_body th now p)) =
    EvCheck :: events (check_thresholds_and_alert th (g_sensor_data p) p)
  /\ forallb is_evaluation
       (events_held false (events (aggregator_thread_body th now p))) = true
  /\ events_free false (events (aggregator_thread_body th now p)) =
       [EvSensorData (result (aggregator_thread_body th now p))].
Proof.
  destruct p as [[] seq l1 l2 l3]. crunch; repeat split.
Qed.

(** A failed iteration of a producer clears the validity flag of its
    sensor and stores nothing else. *)
Lemma producer_thread_body_failed th r p :
  failed r = true ->
  final (producer_thread_body th r p) =
  set_g_sensor_data (with_valid_flag (producer r) 0 (g_sensor_data p)) p.
Proof.
  destruct p as [[] seq l1 l2 l3], r as [rc ? ?|rc ?|rc ?|rc ?];
    unfold producer_thread_body, temperature_sensor_thread_body,
      gas_sensor_thread_body, motion_sensor_thread_body,
      ultrasonic_sensor_thread_body, failed;
    destruct (rc =? 0); intro H; try discriminate H; reflexivity.
Qed.

Lemma with_valid_flag_twice c v d :
  with_valid_flag c v (with_valid_flag c v d) = with_valid_flag c v d.
Proof. destruct c, d; reflexivity. Qed.

(** C8.  When the read function of a producer fails on N consecutive
    iterations, then after each of them the validity flag of that sensor
    is 0, its value fields are what they were before the first failure,
    and the rest of the process state (the fields of the other sensors,
    the alert level, the sequence number, the latches) is untouched. *)
Theorem failed_reads_keep_last_value th c rs p :
  Forall (fun r => producer r = c /\ failed r = true) rs ->
  List.length (producer_cycles th rs p) = List.length rs
  /\ Forall (fun p' =>
       valid_flag c (g_sensor_data p') = 0
       /\ value_fields c (g_sensor_data p') = value_fields c (g_sensor_data p)
       /\ p' = set_g_sensor_data (with_valid_flag c 0 (g_sensor_data p)) p)
     (producer_cycles th rs p).
Proof.
  intro H. split.
  - clear H. revert p. induction rs as [|r rest IH]; intro p; simpl; auto.
  - assert (G : forall q,
               q = p \/ q = set_g_sensor_data (with_valid_flag c 0 (g_sensor_data p)) p ->
               Forall (fun p' =>
                 p' = set_g_sensor_data (with_valid_flag c 0 (g_sensor_data p)) p)
                 (producer_cycles th rs q)).
    { induction H as [|r rest [Hc Hf] _ IH]; intros q Hq; simpl; constructor.
      - rewrite producer_thread_body_failed, Hc by exact Hf.
        destruct Hq as [-> | ->]; [reflexivity|].
        destruct p; simpl. unfold set_g_sensor_data; simpl.
        now rewrite with_valid_flag_twice.
      - apply IH. right.
        rewrite producer_thread_body_failed, Hc by exact Hf.
        destruct Hq as [-> | ->]; [reflexivity|].
        destruct p; simpl. unfold set_g_sensor_data; simpl.
        now rewrite with_valid_flag_twice. }
    specialize (G p (or_introl eq_refl)).
    eapply Forall_impl; [|exact G].
    intros q ->. destruct p as [d ? ? ? ?], c, d; repeat split.
Qed.

(** Three failed reads of the temperature sensor after a good one. *)
Lemma failed_reads_keep_last_value_witness :
  let p := final (producer_thread_body configured_thresholds
                    (TemperatureReading 0 25 60) initial_process) in
  let rs := [ TemperatureReading (-1) 0 0; TemperatureReading (-1) 99 99;
              TemperatureReading (-1) 7 7 ] in
  List.length (producer_cycles configured_thresholds rs p) = 3%nat
  /\ Forall (fun p' =>
       temp_sensor_valid (g_sensor_data p') = 0
       /\ (temperature (g_sensor_data p'), humidity (g_sensor_data p')) = (25, 60)
       /\ p' = set_g_sensor_data
                 (with_valid_flag Temperature 0 (g_sensor_data p)) p)
     (producer_cycles configured_thresholds rs p).
Proof.
  intros p rs.
  apply (failed_reads_keep_last_value configured_thresholds Temperature rs p).
  repeat constructor.
Defined.

(** Whatever the threads do in between, the value stored for a sensor
    changes only when its own producer has read it: an iteration of
    another producer, a failed iteration of its own and a tick of the
    aggregator all leave it as it is. *)
Lemma producer_thread_body_frame th r c p :
  producer r <> c \/ failed r = true ->
  value_fields c (g_sensor_data (final (producer_thread_body th r p)))
  = value_fields c (g_sensor_data p).
Proof.
  destruct p as [[] seq l1 l2 l3], c, r as [rc ? ?|rc ?|rc ?|rc ?];
    unfold producer_thread_body, temperature_sensor_thread_body,
      gas_sensor_thread_body, motion_sensor_thread_body,
      ultrasonic_sensor_thread_body, failed;
    destruct (rc =? 0); intros [H|H];
    solve [reflexivity | discriminate H | exfalso; apply H; reflexivity].
Qed.

Lemma aggregator_thread_body_frame th now c p :
  value_fields c (g_sensor_data (final (aggregator_thread_body th now p)))
  = value_fields c (g_sensor_data p)
  /\ valid_flag c (g_sensor_data (final (aggregator_thread_body th now p)))
     = valid_flag c (g_sensor_data p).
Proof.
  destruct p as [[] seq l1 l2 l3], c; crunch; split; reflexivity.
Qed.

(** A read function that fails leaves its caller's variable alone. *)
Lemma gas_sensor_read_failed gpio_pin detected w rc detected' w' :
  GasSensor.gas_sensor_read gpio_pin detected w = Some ((rc, detected'), w') ->
  rc = 0 \/ (rc = -1 /\ detected' = detected).
Proof.
  unfold GasSensor.gas_sensor_read, RpiGpio.bind, RpiGpio.rpi_gpio_input,
    RpiGpio.ret.
  destruct (RpiGpio.gpio_input (RpiGpio.board w) (RpiGpio.input_reads w))
    as [status level].
  destruct (negb (status =? 0)); intro H; inversion H; auto.
Qed.

Lemma motion_sensor_read_failed gpio_pin detected w rc detected' w' :
  MotionSensor.motion_sensor_read gpio_pin detected w
    = Some ((rc, detected'), w') ->
  rc = 0 \/ (rc = -1 /\ detected' = detected).
Proof.
  unfold MotionSensor.motion_sensor_read, RpiGpio.bind, RpiGpio.rpi_gpio_input,
    RpiGpio.ret.
  destruct (RpiGpio.gpio_input (RpiGpio.board w) (RpiGpio.input_reads w))
    as [status level].
  destruct (negb (status =? 0)); intro H; inversion H; auto.
Qed.

Lemma ultrasonic_sensor_read_failed to_float to_double rising falling distance_cm :
  fst (UltrasonicSensor.ultrasonic_sensor_read to_float to_double
         rising falling distance_cm) = 0
  \/ UltrasonicSensor.ultrasonic_sensor_read to_float to_double
       rising falling distance_cm = (-1, distance_cm).
Proof.
  unfold UltrasonicSensor.ultrasonic_sensor_read.
  destruct (negb (fst rising =? 0)); [now right|].
  destruct (negb (fst falling =? 0)); [now right | now left].
Qed.

(** C9.  When the validity flag of a category is 0, the evaluation raises
    no alert of that category, and nothing it does depends on the value
    stored for the category: with any other value in those fields it
    raises the same alerts and pulses, stores the same alert level and
    leaves the same latches. *)
Theorem invalid_category_is_skipped th c d p a b :
  valid_flag c d = 0 ->
  alerts_of c (events (check_thresholds_and_alert th d p)) = []
  /\ events (check_thresholds_and_alert th (with_values c a b d) p) =
     events (check_thresholds_and_alert th d p)
  /\ alert_level (result (check_thresholds_and_alert th (with_values c a b d) p)) =
     alert_level (result (check_thresholds_and_alert th d p))
  /\ final (check_thresholds_and_alert th (with_values c a b d) p) =
     final (check_thresholds_and_alert th d p)
  /\ alert_level (result (check_thresholds_and_alert th d p)) =
     max_severity (events (check_thresholds_and_alert th d p)).
Proof.
  intro H. destruct p as [g seq l1 l2 l3], d, c; simpl in H; subst;
    crunch; repeat split.
Qed.

(** Gas stored as detected, but with the validity flag of the gas sensor
    cleared: no gas alert, and the level stays INFO. *)
Lemma invalid_category_is_skipped_witness :
  let d := mk_shared 20 50 1 1 0 0 1 15 0 1 0 in
  alerts_of Gas (events (check_thresholds_and_alert configured_thresholds d
                           initial_process)) = []
  /\ events (check_thresholds_and_alert configured_thresholds
               (with_values Gas 0 0 d) initial_process) =
     events (check_thresholds_and_alert configured_thresholds d initial_process)
  /\ alert_level (result (check_thresholds_and_alert configured_thresholds
                            (with_values Gas 0 0 d) initial_process)) =
     alert_level (result (check_thresholds_and_alert configured_thresholds d
                            initial_process))
  /\ final (check_thresholds_and_alert configured_thresholds
              (with_values Gas 0 0 d) initial_process) =
     final (check_thresholds_and_alert configured_thresholds d initial_process)
  /\ alert_level (result (check_thresholds_and_alert configured_thresholds d
                            initial_process)) =
     max_severity (events (check_thresholds_and_alert configured_thresholds d
                             initial_process)).
Proof.
  intro d.
  apply (invalid_category_is_skipped configured_thresholds Gas d initial_process 0 0).
  reflexivity.
Defined.

(** ** The single-wire decoder *)

Import RpiGpio TemperatureSensor Boards.

(** [dht_read_bit] after its two waits. *)
Lemma dht_read_bit_waits fuel gpio_pin w t1 w1 t2 w2 :
  dht_wait_while_level fuel gpio_pin GPIO_LOW 100 w = Some (t1, w1) ->
  0 <= t1 ->
  dht_wait_while_level fuel gpio_pin GPIO_HIGH 120 w1 = Some (t2, w2) ->
  dht_read_bit fuel gpio_pin w =
  Some ((if t2 <? 0 then -1 else if t2 >? 50 then 1 else 0), w2).
Proof.
  intros H1 Ht1 H2.
  unfold dht_read_bit, RpiGpio.bind. rewrite H1.
  destruct (Z.ltb_spec t1 0); [lia|]. rewrite H2.
  destruct (t2 <? 0); reflexivity.
Qed.

(** C7.  When the low phase of a bit has been waited through and the wait
    through its high phase measures [t2] microseconds, [dht_read_bit]
    returns 0 if [t2 <= 50] and 1 if [t2 > 50]: a high phase of exactly
    50 us is a 0, one of 51 us is a 1. *)
Theorem dht_read_bit_threshold fuel gpio_pin w t1 w1 t2 w2 :
  dht_wait_while_level fuel gpio_pin GPIO_LOW 100 w = Some (t1, w1) ->
  0 <= t1 ->
  dht_wait_while_level fuel gpio_pin GPIO_HIGH 120 w1 = Some (t2, w2) ->
  0 <= t2 ->
  dht_read_bit fuel gpio_pin w = Some ((if t2 <=? 50 then 0 else 1), w2).
Proof.
  intros H1 Ht1 H2 Ht2.
  rewrite (dht_read_bit_waits _ _ _ _ _ _ _ H1 Ht1 H2).
  destruct (Z.ltb_spec t2 0); [lia|].
  destruct (Z.gtb_spec t2 50), (Z.leb_spec t2 50); try lia; reflexivity.
Qed.

(** A bit with a high phase of 50 us on a board with 54 cycles in a
    microsecond. *)
Lemma dht_read_bit_threshold_witness :
  let h := line_board 54 [] 0 [(GPIO_LOW, 50); (GPIO_HIGH, 50)] in
  dht_read_bit 10 4 (power_on h) = Some (0, mk_world h 6 4 0).
Proof.
  intro h.
  apply (dht_read_bit_threshold 10 4 (power_on h) 50 (mk_world h 3 2 0) 50
                                (mk_world h 6 4 0)).
  - reflexivity.
  - lia.
  - reflexivity.
  - lia.
Defined.

(** The same bit with a high phase of 50 us and of 51 us, and with the
    27 us and 70 us of the data sheet. *)
Example dht_read_bit_50_51 :
  map (fun d => option_map fst
         (dht_read_bit 10 4
            (power_on (line_board 54 [] 0 [(GPIO_LOW, 50); (GPIO_HIGH, d)]))))
      [27; 50; 51; 70]
  = [Some 0; Some 0; Some 1; Some 1].
Proof. reflexivity. Qed.

(** Once the handshake has gone through and the 40 bits are in [data],
    the call returns what step 4 makes of [data]. *)
Lemma temperature_sensor_read_frame fuel gpio_pin temperature humidity w w1 data w2 :
  temperature_sensor_read_start fuel gpio_pin w = Some (0, w1) ->
  temperature_sensor_read_bits fuel gpio_pin 40 0 [0; 0; 0; 0; 0] w1
    = Some ((0, data), w2) ->
  temperature_sensor_read fuel gpio_pin temperature humidity w =
  Some (temperature_sensor_read_verify data temperature humidity, w2).
Proof.
  intros Hs Hb.
  unfold temperature_sensor_read, RpiGpio.bind. rewrite Hs. cbn [Z.eqb negb].
  rewrite Hb. reflexivity.
Qed.

Lemma temperature_sensor_read_verify_checksum data temperature humidity :
  temperature_sensor_read_verify data temperature humidity =
  if nth 4 data 0
     =? (nth 0 data 0 + nth 1 data 0 + nth 2 data 0 + nth 3 data 0) mod 256
  then (0, store_through temperature (nth 2 data 0),
           store_through humidity (nth 0 data 0))
  else (-1, temperature, humidity).
Proof.
  unfold temperature_sensor_read_verify, to_uint8. change (2 ^ 8) with 256.
  rewrite (Z.eqb_sym (nth 4 data 0)).
  destruct (_ =? nth 4 data 0); reflexivity.
Qed.

(** C2.  Whenever the start handshake has gone through and the 40 bits
    have been read into [data], [temperature_sensor_read] succeeds (status
    0, [*temperature = data[2]], [*humidity = data[0]]) if
    [data[4] == (data[0] + data[1] + data[2] + data[3]) mod 256], and
    otherwise returns the error status -1 and stores no reading. *)
Theorem checksum_gates_the_reading fuel gpio_pin temperature humidity w w1 data w2 :
  temperature_sensor_read_start fuel gpio_pin w = Some (0, w1) ->
  temperature_sensor_read_bits fuel gpio_pin 40 0 [0; 0; 0; 0; 0] w1
    = Some ((0, data), w2) ->
  temperature_sensor_read fuel gpio_pin temperature humidity w =
  Some ((if nth 4 data 0
            =? (nth 0 data 0 + nth 1 data 0 + nth 2 data 0 + nth 3 data 0) mod 256
         then (0, store_through temperature (nth 2 data 0),
                  store_through humidity (nth 0 data 0))
         else (-1, temperature, humidity)), w2).
Proof.
  intros Hs Hb.
  rewrite (temperature_sensor_read_frame _ _ _ _ _ _ _ _ Hs Hb).
  now rewrite temperature_sensor_read_verify_checksum.
Qed.

(** A DHT11 that sends 55, 0, 24, 0 and the wrong checksum 80. *)
Lemma checksum_gates_the_reading_witness :
  let h := dht11_board 54 [55; 0; 24; 0; 80] in
  temperature_sensor_read 10 4 (Some 7) (Some 9) (power_on h) =
  Some ((-1, Some 7, Some 9), mk_world h 251 166 4).
Proof.
  intro h.
  apply (checksum_gates_the_reading 10 4 (Some 7) (Some 9) (power_on h)
           (mk_world h 11 6 4) [55; 0; 24; 0; 80] (mk_world h 251 166 4)).
  - reflexivity.
  - reflexivity.
Defined.

(** The same frame with the right checksum, and with every checksum that
    is off by one bit. *)
Example checksum_right_and_wrong :
  option_map fst
    (temperature_sensor_read 10 4 (Some 7) (Some 9)
       (power_on (dht11_board 54 [55; 0; 24; 0; 79])))
  = Some (0, Some 24, Some 55)
  /\ map (fun k =>
            option_map fst
              (temperature_sensor_read 10 4 (Some 7) (Some 9)
                 (power_on (dht11_board 54
                              [55; 0; 24; 0; Z.lxor 79 (2 ^ k)]))))
         [0; 1; 2; 3; 4; 5; 6; 7]
     = repeat (Some (-1, Some 7, Some 9)) 8.
Proof. split; vm_compute; reflexivity. Qed.

(** The start handshake returns 0 or -1. *)
Lemma temperature_sensor_read_start_status fuel gpio_pin w rc w1 :
  temperature_sensor_read_start fuel gpio_pin w = Some (rc, w1) ->
  rc = 0 \/ rc = -1.
Proof.
  unfold temperature_sensor_read_start, RpiGpio.bind, RpiGpio.ret.
  repeat match goal with
         | |- context [match ?m ?x with Some _ => _ | None => _ end] =>
             destruct (m x) as [[? ?]|]; try discriminate
         | |- context [if ?b then _ else _] => destruct b
         end;
    intro H; inversion H; auto.
Qed.

Lemma temperature_sensor_read_bits_status fuel gpio_pin count :
  forall i data w rc data' w1,
    temperature_sensor_read_bits fuel gpio_pin count i data w
      = Some ((rc, data'), w1) ->
    rc = 0 \/ rc = -1.
Proof.
  induction count as [|count IH]; intros i data w rc data' w1; simpl.
  - unfold RpiGpio.ret. intro H; inversion H; auto.
  - unfold RpiGpio.bind at 1.
    destruct (dht_read_bit fuel gpio_pin w) as [[bit w0]|]; [|discriminate].
    destruct (bit <? 0).
    + unfold RpiGpio.ret. intro H; inversion H; auto.
    + apply IH.
Qed.

(** C10.  Whenever [temperature_sensor_read] returns, either it returns
    -1 and the two variables behind its out-pointers are as they were, or
    it returns 0, and then the handshake went through, the 40 bits were
    read, the checksum is right, and the variables hold [data[2]] and
    [data[0]]. *)
Theorem failed_read_writes_nothing fuel gpio_pin temperature humidity w
        rc temperature' humidity' w' :
  temperature_sensor_read fuel gpio_pin temperature humidity w
    = Some ((rc, temperature', humidity'), w') ->
  (rc = -1 /\ temperature' = temperature /\ humidity' = humidity)
  \/ (rc = 0
      /\ exists w1 data,
           temperature_sensor_read_start fuel gpio_pin w = Some (0, w1)
           /\ temperature_sensor_read_bits fuel gpio_pin 40 0 [0; 0; 0; 0; 0] w1
              = Some ((0, data), w')
           /\ nth 4 data 0
              = (nth 0 data 0 + nth 1 data 0 + nth 2 data 0 + nth 3 data 0) mod 256
           /\ temperature' = store_through temperature (nth 2 data 0)
           /\ humidity' = store_through humidity (nth 0 data 0)).
Proof.
  unfold temperature_sensor_read, RpiGpio.bind.
  destruct (temperature_sensor_read_start fuel gpio_pin w) as [[rc1 w1]|] eqn:Hs;
    [|discriminate].
  destruct (temperature_sensor_read_start_status _ _ _ _ _ Hs) as [-> | ->];
    cbn [Z.eqb negb].
  2: { unfold RpiGpio.ret. intro H; inversion H; auto. }
  destruct (temperature_sensor_read_bits fuel gpio_pin 40 0 [0; 0; 0; 0; 0] w1)
    as [[[rc2 data] w2]|] eqn:Hb; [|discriminate].
  destruct (temperature_sensor_read_bits_status _ _ _ _ _ _ _ _ _ Hb) as [-> | ->];
    cbn [Z.eqb negb].
  2: { unfold RpiGpio.ret. intro H; inversion H; auto. }
  unfold RpiGpio.ret, temperature_sensor_read_verify, to_uint8.
  change (2 ^ 8) with 256.
  destruct (Z.eqb_spec
              ((nth 0 data 0 + nth 1 data 0 + nth 2 data 0 + nth 3 data 0) mod 256)
              (nth 4 data 0)) as [E|E]; cbn [negb];
    intro H; inversion H; subst; auto.
  right. split; [reflexivity|]. exists w1, data. auto.
Qed.

(** No sensor on the line: the first wait of the handshake times out. *)
Lemma failed_read_writes_nothing_witness :
  let h := silent_board 54 in
  (-1 = -1 /\ Some 7 = Some 7 /\ Some 9 = Some 9)
  \/ (-1 = 0
      /\ exists w1 data,
           temperature_sensor_read_start 100 4 (power_on h) = Some (0, w1)
           /\ temperature_sensor_read_bits 100 4 40 0 [0; 0; 0; 0; 0] w1
              = Some ((0, data), mk_world h 27 21 4)
           /\ nth 4 data 0
              = (nth 0 data 0 + nth 1 data 0 + nth 2 data 0 + nth 3 data 0) mod 256
           /\ Some 7 = store_through (Some 7) (nth 2 data 0)
           /\ Some 9 = store_through (Some 9) (nth 0 data 0)).
Proof.
  intro h.
  apply (failed_read_writes_nothing 100 4 (Some 7) (Some 9) (power_on h)
           (-1) (Some 7) (Some 9) (mk_world h 27 21 4)).
  reflexivity.
Defined.

(** Every way to fail: the resource manager out of reach, no sensor on
    the line, a sensor that stops after 13 bits, a wrong checksum.  Each
    returns -1 and leaves 7 and 9 in the caller's variables. *)
Example failed_reads :
  map (fun h => option_map fst
                  (temperature_sensor_read 100 4 (Some 7) (Some 9) (power_on h)))
      [ unreachable_board 54;
        silent_board 54;
        line_board 54 [0; 40 * 54] (40 * 54)
          (firstn (3 + 2 * 13) (dht11_phases [55; 0; 24; 0; 79]));
        dht11_board 54 [55; 0; 24; 0; 78] ]
  = repeat (Some (-1, Some 7, Some 9)) 4.
Proof. vm_compute. reflexivity. Qed.

(** *** A DHT11 on the line

    On a board whose line follows the protocol, the driver decodes what
    the sensor sends, for every five bytes and every clock rate. *)

Lemma to_uint64_small x : 0 <= x < 2 ^ 64 -> to_uint64 x = x.
Proof. intro H. apply Z.mod_small, H. Qed.

Lemma to_int_small x : 0 <= x < 2 ^ 31 -> to_int x = x.
Proof.
  intro H. unfold to_int. rewrite Z.mod_small; lia.
Qed.

Lemma other_level_neq l : (other_level l =? l) = false.
Proof.
  unfold other_level. destruct (Z.eqb_spec l GPIO_LOW) as [->|N].
  - reflexivity.
  - apply Z.eqb_neq. unfold GPIO_LOW in *. lia.
Qed.

(** Stores into the array. *)
Lemma store_byte_length k v data :
  List.length (store_byte k v data) = List.length data.
Proof.
  revert k. induction data as [|d data IH]; intros [|k]; simpl; auto.
Qed.

Lemma store_byte_nth k v data :
  (k < List.length data)%nat -> nth k (store_byte k v data) 0 = v.
Proof.
  revert k. induction data as [|d data IH]; intros [|k] H; simpl in *;
    try lia; auto. apply IH. lia.
Qed.

Lemma store_byte_twice k u v data :
  store_byte k v (store_byte k u data) = store_byte k v data.
Proof.
  revert k. induction data as [|d data IH]; intros [|k]; simpl; auto.
  now rewrite IH.
Qed.

Lemma store_byte_same k data :
  store_byte k (nth k data 0) data = data.
Proof.
  revert k. induction data as [|d data IH]; intros [|k]; simpl; auto.
  now rewrite IH.
Qed.

(** Bits [i .. i + |bits| - 1], when they all belong to byte [k], are
    shifted into [data[k]] and leave the other bytes alone. *)
Lemma shift_bits_in_cell k bits :
  forall i data,
    (k < List.length data)%nat ->
    8 * Z.of_nat k <= i ->
    i + Z.of_nat (List.length bits) <= 8 * Z.of_nat k + 8 ->
    shift_bits_in i bits data = store_byte k (pack8 bits (nth k data 0)) data.
Proof.
  induction bits as [|b bits IH]; intros i data Hk Hlo Hhi.
  - cbn. now rewrite store_byte_same.
  - cbn [List.length] in Hhi. cbn [shift_bits_in pack8 fold_left].
    assert (Ek : Z.to_nat (i / 8) = k).
    { assert (Z.of_nat k = i / 8); [|lia].
      apply Z.div_unique with (i - 8 * Z.of_nat k); lia. }
    unfold shift_bit_in. rewrite Ek.
    rewrite store_byte_nth, store_byte_twice by assumption.
    rewrite IH by (rewrite ?store_byte_length; lia).
    rewrite store_byte_nth, store_byte_twice by assumption.
    reflexivity.
Qed.

Lemma shift_bits_in_app l1 :
  forall l2 i data,
    shift_bits_in i (l1 ++ l2) data =
    shift_bits_in (i + Z.of_nat (List.length l1)) l2 (shift_bits_in i l1 data).
Proof.
  induction l1 as [|b l1 IH]; intros l2 i data.
  - cbn. now rewrite Z.add_0_r.
  - cbn [app shift_bits_in List.length]. rewrite IH. f_equal. lia.
Qed.

(** Shifting in the eight bits of a byte, the highest first, gives the
    byte back. *)
Lemma byte_of_bits b : 0 <= b < 256 -> pack8 (byte_bits b) 0 = b.
Proof.
  intro H.
  assert (A : forallb (fun n => pack8 (byte_bits (Z.of_nat n)) 0 =? Z.of_nat n)
                      (seq 0 256) = true) by (vm_compute; reflexivity).
  rewrite forallb_forall in A. specialize (A (Z.to_nat b)).
  rewrite Z2Nat.id in A by lia. apply Z.eqb_eq, A, in_seq. lia.
Qed.

Ltac take_byte k b :=
  rewrite (shift_bits_in_cell k (byte_bits b))
    by (change (Z.of_nat (List.length (byte_bits b))) with 8;
        cbn [List.length]; lia);
  cbn [nth store_byte];
  rewrite (byte_of_bits b) by assumption.

(** The array after the 40 bits of five bytes. *)
Lemma frame_of_bytes b0 b1 b2 b3 b4 :
  0 <= b0 < 256 -> 0 <= b1 < 256 -> 0 <= b2 < 256 -> 0 <= b3 < 256 ->
  0 <= b4 < 256 ->
  shift_bits_in 0 (flat_map byte_bits [b0; b1; b2; b3; b4]) [0; 0; 0; 0; 0]
  = [b0; b1; b2; b3; b4].
Proof.
  intros H0 H1 H2 H3 H4. cbn [flat_map]. rewrite app_nil_r.
  rewrite (shift_bits_in_app (byte_bits b0)).
  rewrite (shift_bits_in_app (byte_bits b1)).
  rewrite (shift_bits_in_app (byte_bits b2)).
  rewrite (shift_bits_in_app (byte_bits b3)).
  change (Z.of_nat (List.length (byte_bits b0))) with 8.
  change (Z.of_nat (List.length (byte_bits b1))) with 8.
  change (Z.of_nat (List.length (byte_bits b2))) with 8.
  change (Z.of_nat (List.length (byte_bits b3))) with 8.
  take_byte 0%nat b0. take_byte 1%nat b1. take_byte 2%nat b2.
  take_byte 3%nat b3. take_byte 4%nat b4.
  reflexivity.
Qed.

Section OnScript.

Variable cpu : Z.
Hypothesis cpu_pos : 0 < cpu.
Hypothesis cpu_small : cpu <= 2 ^ 32.

(** One step of the driver on a world that is given field by field. *)
Ltac step_io :=
  repeat progress
    (unfold dht_get_cycles, ClockCycles, dht_cycles_per_usec, rpi_gpio_input,
       RpiGpio.bind, RpiGpio.ret;
     cbn -[Z.mul Z.add Z.sub Z.div Z.modulo Z.pow Z.gtb Z.ltb Z.eqb Z.leb
           to_uint64 to_int to_uint8 Nat.add nth clock_script input_script
           other_level]).

(** A wait through a phase of [d] microseconds returns [d] and leaves
    the world at the start of the next phase. *)
Lemma wait_phase fuel gpio_pin timeout_us t l d rest w :
  on_script cpu t ((l, d) :: rest) w ->
  cycles_per_sec (board w) = cpu * 1000000 ->
  0 <= t -> 1 <= d < 2 ^ 31 -> t + d * cpu < 2 ^ 64 ->
  1 <= timeout_us < 2 ^ 31 ->
  let w' := mk_world (board w) (3 + clock_reads w) (2 + input_reads w) (commands w) in
  dht_wait_while_level (S (S fuel)) gpio_pin l timeout_us w = Some (d, w')
  /\ on_script cpu (t + d * cpu) rest w'.
Proof.
  destruct w as [h c i k]. unfold on_script. cbn [board clock_reads input_reads commands].
  intros [Hc Hi] Hcps Ht Hd Htd Hto.
  assert (C0 := Hc 0%nat). assert (C1 := Hc 1%nat). assert (C2 := Hc 2%nat).
  assert (I0 := Hi 0%nat). assert (I1 := Hi 1%nat).
  cbn [clock_script input_script flat_map List.length nth app fst] in C0, C1, C2, I0, I1.
  rewrite ?Nat.add_0_r, ?Nat.add_1_r in *.
  replace (c + 2)%nat with (S (S c)) in C2 by lia.
  specialize (C0 ltac:(lia)). specialize (C1 ltac:(lia)). specialize (C2 ltac:(lia)).
  specialize (I0 ltac:(lia)). specialize (I1 ltac:(lia)).
  assert (Ecpu : to_uint64 (cpu * 1000000) / 1000000 = cpu).
  { rewrite to_uint64_small by nia. apply Z.div_mul. lia. }
  split.
  - unfold dht_wait_while_level, dht_get_cycles, ClockCycles, dht_cycles_per_usec,
      RpiGpio.bind, RpiGpio.ret.
    step_io. rewrite Hcps, Ecpu, C0, I0.
    step_io. rewrite !Z.eqb_refl. step_io. rewrite C1.
    rewrite (to_uint64_small t) by nia.
    rewrite (to_uint64_small (t + cpu)) by nia.
    replace (t + cpu - t) with cpu by lia.
    rewrite (to_uint64_small cpu) by nia.
    rewrite (to_uint64_small timeout_us) by lia.
    rewrite (to_uint64_small (timeout_us * cpu)) by nia.
    destruct (Z.gtb_spec cpu (timeout_us * cpu)); [nia|].
    step_io. rewrite I1. step_io. rewrite Z.eqb_refl, other_level_neq. step_io.
    rewrite C2, Hcps, Ecpu.
    rewrite (to_uint64_small (t + d * cpu)) by nia.
    replace (t + d * cpu - t) with (d * cpu) by lia.
    rewrite (to_uint64_small (d * cpu)) by nia.
    rewrite Z.div_mul by lia. rewrite to_int_small by lia.
    reflexivity.
  - split.
    + intros n Hn. specialize (Hc (3 + n)%nat).
      cbn [clock_script List.length nth] in Hc.
      replace (3 + c + n)%nat with (c + (3 + n))%nat by lia.
      apply Hc. cbn. lia.
    + intros n Hn. specialize (Hi (2 + n)%nat).
      cbn [input_script flat_map List.length nth app] in Hi.
      replace (2 + i + n)%nat with (i + (2 + n))%nat by lia.
      apply Hi. cbn. fold (input_script rest). lia.
Qed.

(** The two phases of a bit: [dht_read_bit] returns the bit. *)
Lemma bit_phase fuel gpio_pin t b rest w :
  on_script cpu t (bit_phases b ++ rest) w ->
  cycles_per_sec (board w) = cpu * 1000000 ->
  0 <= t -> t + 120 * cpu < 2 ^ 64 ->
  let w' := mk_world (board w) (6 + clock_reads w) (4 + input_reads w) (commands w) in
  dht_read_bit (S (S fuel)) gpio_pin w = Some ((if b then 1 else 0), w')
  /\ on_script cpu (t + duration (bit_phases b) * cpu) rest w'.
Proof.
  intros Hs Hcps Ht Hb. cbn [bit_phases app] in Hs.
  destruct (wait_phase fuel gpio_pin 100 t GPIO_LOW 50 _ w Hs Hcps Ht)
    as [E1 Hs1]; [lia | lia | lia |].
  destruct (wait_phase fuel gpio_pin 120 (t + 50 * cpu) GPIO_HIGH
              (if b then 70 else 27) rest _ Hs1 Hcps)
    as [E2 Hs2]; [lia | destruct b; lia | destruct b; lia | lia |].
  cbn [board clock_reads input_reads commands] in E2, Hs2.
  split.
  - unfold dht_read_bit, RpiGpio.bind. rewrite E1. cbn [Z.ltb Z.compare].
    rewrite E2. destruct b; reflexivity.
  - replace (t + duration (bit_phases b) * cpu)
      with (t + 50 * cpu + (if b then 70 else 27) * cpu)
      by (destruct b; unfold duration, bit_phases; cbn [fold_right snd]; lia).
    exact Hs2.
Qed.

(** The loop of step 3 over the phases of [bs] shifts [bs] into the
    array. *)
Lemma bits_phases fuel gpio_pin rest bs :
  forall i data t w,
    on_script cpu t (flat_map bit_phases bs ++ rest) w ->
    cycles_per_sec (board w) = cpu * 1000000 ->
    0 <= t -> t + 120 * Z.of_nat (List.length bs) * cpu < 2 ^ 64 ->
    exists t',
      temperature_sensor_read_bits (S (S fuel)) gpio_pin (List.length bs) i data w
      = Some ((0, shift_bits_in i bs data),
              mk_world (board w) (6 * List.length bs + clock_reads w)
                       (4 * List.length bs + input_reads w) (commands w))
      /\ on_script cpu t' rest
           (mk_world (board w) (6 * List.length bs + clock_reads w)
                     (4 * List.length bs + input_reads w) (commands w)).
Proof.
  induction bs as [|b bs IH]; intros i data t w Hs Hcps Ht Hb.
  - exists t. destruct w; split; [reflexivity | exact Hs].
  - cbn [flat_map] in Hs. rewrite <- app_assoc in Hs.
    cbn [List.length] in Hb.
    destruct (bit_phase fuel gpio_pin t b _ w Hs Hcps Ht) as [E1 Hs1]; [lia|].
    assert (Hdur : 0 <= duration (bit_phases b) <= 120)
      by (destruct b; unfold duration, bit_phases; cbn [fold_right snd]; lia).
    destruct (IH (i + 1) (shift_bit_in i (if b then 1 else 0) data)
                 (t + duration (bit_phases b) * cpu) _ Hs1 Hcps)
      as (t' & E2 & Hs2); [nia | nia |].
    exists t'.
    cbn [board clock_reads input_reads commands] in E2, Hs2.
    replace (6 * List.length (b :: bs) + clock_reads w)%nat
      with (6 * List.length bs + (6 + clock_reads w))%nat by (cbn [List.length]; lia).
    replace (4 * List.length (b :: bs) + input_reads w)%nat
      with (4 * List.length bs + (4 + input_reads w))%nat by (cbn [List.length]; lia).
    split; [|exact Hs2].
    cbn [List.length temperature_sensor_read_bits shift_bits_in].
    unfold RpiGpio.bind at 1. rewrite E1.
    replace ((if b then 1 else 0) <? 0) with false by (destruct b; reflexivity).
    exact E2.
Qed.

(** The board of the DHT11 after the start signal and the 40 us delay. *)
Lemma dht11_board_on_script bytes :
  on_script cpu (40 * cpu) (dht11_phases bytes)
            (mk_world (dht11_board cpu bytes) 2 0 4).
Proof.
  split; intros n _; reflexivity.
Qed.

Lemma delay_dht11 fuel bytes i k :
  dht_delay_us (S fuel) 40 (mk_world (dht11_board cpu bytes) 0 i k)
  = Some (tt, mk_world (dht11_board cpu bytes) 2 i k).
Proof.
  assert (Ecpu : to_uint64 (cpu * 1000000) / 1000000 = cpu).
  { rewrite to_uint64_small by nia. apply Z.div_mul. lia. }
  unfold dht_delay_us. cbn [dht_delay_us_loop].
  unfold dht_get_cycles, ClockCycles, dht_cycles_per_usec, RpiGpio.bind, RpiGpio.ret.
  cbn [board clock_reads input_reads commands dht11_board line_board
       clock_cycles cycles_per_sec app nth].
  rewrite Ecpu. rewrite (to_uint64_small 0) by lia.
  rewrite (to_uint64_small (40 * cpu)) by nia.
  rewrite (to_uint64_small (0 + 40 * cpu)) by nia.
  rewrite Z.ltb_irrefl. reflexivity.
Qed.

(** Steps 1 and 2 on the DHT11 board. *)
Lemma start_dht11 fuel gpio_pin bytes :
  temperature_sensor_read_start (S (S fuel)) gpio_pin
    (power_on (dht11_board cpu bytes))
  = Some (0, mk_world (dht11_board cpu bytes) 11 6 4)
  /\ on_script cpu (230 * cpu) (flat_map bit_phases (flat_map byte_bits bytes))
       (mk_world (dht11_board cpu bytes) 11 6 4).
Proof.
  pose proof (dht11_board_on_script bytes) as Hs. unfold dht11_phases in Hs.
  cbn [app] in Hs.
  assert (Hcps : forall a b c,
             cycles_per_sec (board (mk_world (dht11_board cpu bytes) a b c))
             = cpu * 1000000) by reflexivity.
  destruct (wait_phase fuel gpio_pin 200 _ GPIO_HIGH 30 _ _ Hs (Hcps _ _ _))
    as [E1 Hs1]; [lia | lia | lia | lia |].
  destruct (wait_phase fuel gpio_pin 200 _ GPIO_LOW 80 _ _ Hs1 (Hcps _ _ _))
    as [E2 Hs2]; [lia | lia | lia | lia |].
  destruct (wait_phase fuel gpio_pin 200 _ GPIO_HIGH 80 _ _ Hs2 (Hcps _ _ _))
    as [E3 Hs3]; [lia | lia | lia | lia |].
  cbn [board clock_reads input_reads commands Nat.add] in E1, E2, E3, Hs3.
  split.
  - unfold temperature_sensor_read_start, rpi_gpio_setup, rpi_gpio_output,
      gpio_command, usleep, power_on.
    repeat (unfold RpiGpio.bind at 1;
            cbn [board commands gpio_status dht11_board line_board RpiGpio.ret
                 clock_reads input_reads GPIO_SUCCESS Z.eqb negb]).
    rewrite delay_dht11.
    cbn [board commands gpio_status dht11_board line_board RpiGpio.ret
         clock_reads input_reads GPIO_SUCCESS Z.eqb negb].
    fold (line_board cpu [0; 40 * cpu] (40 * cpu) (dht11_phases bytes)).
    fold (dht11_board cpu bytes).
    rewrite E1. cbn [Z.ltb Z.compare]. rewrite E2. cbn [Z.ltb Z.compare].
    rewrite E3. reflexivity.
  - replace (230 * cpu) with (40 * cpu + 30 * cpu + 80 * cpu + 80 * cpu) by lia.
    exact Hs3.
Qed.

(** A bit on the line, for every clock rate and every length of its two
    phases: a high phase of at most 50 us is a 0, a longer one is a 1. *)
Lemma dht_read_bit_on_line fuel gpio_pin low high :
  1 <= low < 2 ^ 31 -> 1 <= high < 2 ^ 31 ->
  dht_read_bit (S (S fuel)) gpio_pin
    (power_on (line_board cpu [] 0 [(GPIO_LOW, low); (GPIO_HIGH, high)]))
  = Some ((if high <=? 50 then 0 else 1),
          mk_world (line_board cpu [] 0 [(GPIO_LOW, low); (GPIO_HIGH, high)])
                   6 4 0).
Proof.
  intros Hl Hh.
  assert (Hs : on_script cpu 0 [(GPIO_LOW, low); (GPIO_HIGH, high)]
                 (power_on (line_board cpu [] 0
                              [(GPIO_LOW, low); (GPIO_HIGH, high)])))
    by (split; intros n _; reflexivity).
  destruct (wait_phase fuel gpio_pin 100 0 GPIO_LOW low _ _ Hs eq_refl)
    as [E1 Hs1]; [lia | lia | nia | lia |].
  destruct (wait_phase fuel gpio_pin 120 _ GPIO_HIGH high _ _ Hs1 eq_refl)
    as [E2 Hs2]; [nia | lia | nia | lia |].
  cbn [board clock_reads input_reads commands power_on Nat.add] in E2.
  rewrite (dht_read_bit_waits _ _ _ _ _ _ _ E1 ltac:(lia) E2).
  destruct (Z.ltb_spec high 0); [lia|].
  destruct (Z.gtb_spec high 50), (Z.leb_spec high 50); try lia; reflexivity.
Qed.

(** X19.  Whatever five bytes the DHT11 sends, at whatever clock rate: the
    read succeeds with [*temperature = b2] and [*humidity = b0] when
    [b4] is the sum of the four others modulo 256, and fails with -1, the
    variables untouched, when it is not. *)
Theorem dht11_frame_decoded fuel gpio_pin temperature humidity b0 b1 b2 b3 b4 :
  0 <= b0 < 256 -> 0 <= b1 < 256 -> 0 <= b2 < 256 -> 0 <= b3 < 256 ->
  0 <= b4 < 256 ->
  option_map fst
    (temperature_sensor_read (S (S fuel)) gpio_pin temperature humidity
       (power_on (dht11_board cpu [b0; b1; b2; b3; b4])))
  = Some (if b4 =? (b0 + b1 + b2 + b3) mod 256
          then (0, store_through temperature b2, store_through humidity b0)
          else (-1, temperature, humidity)).
Proof.
  intros H0 H1 H2 H3 H4.
  destruct (start_dht11 fuel gpio_pin [b0; b1; b2; b3; b4]) as [Es Hs].
  rewrite <- (app_nil_r (flat_map bit_phases _)) in Hs.
  destruct (bits_phases fuel gpio_pin [] (flat_map byte_bits [b0; b1; b2; b3; b4])
              0 [0; 0; 0; 0; 0] _ _ Hs eq_refl) as (t' & Eb & _).
  - lia.
  - change (List.length (flat_map byte_bits [b0; b1; b2; b3; b4])) with 40%nat.
    nia.
  - change (List.length (flat_map byte_bits [b0; b1; b2; b3; b4])) with 40%nat in Eb.
    rewrite frame_of_bytes in Eb by assumption.
    rewrite (temperature_sensor_read_frame _ _ _ _ _ _ _ _ Es Eb).
    rewrite temperature_sensor_read_verify_checksum. reflexivity.
Qed.

End OnScript.

(** *** The read returns

    The polling loops of the driver watch the cycle counter.  On a board
    whose counter runs, each of them ends within its timeout, whatever the
    line does, and [temperature_sensor_read] returns: fuel for one more
    iteration than the longest timeout has cycles is enough. *)


Lemma returns_ret {A} (post : world -> Prop) (a : A) w :
  post w -> returns post (RpiGpio.ret a) w.
Proof. intro H. exists a, w. split; [reflexivity | exact H]. Qed.

Lemma within_le h n m w : within h n w -> (n <= m)%nat -> within h m w.
Proof. intros [E H] L. split; [exact E | lia]. Qed.

Section Returns.

Variable h : hardware.
Variable N : nat.
Hypothesis runs : clock_runs h N.

(** The counter over the reads it is known to run. *)
Lemma clock_range k : (k <= N)%nat -> (1 <= N)%nat -> 0 <= clock_cycles h k < 2 ^ 64.
Proof.
  intros Hk HN. destruct k as [|k].
  - destruct (runs 0%nat ltac:(lia)) as [[? ?] ?]. lia.
  - destruct (runs k ltac:(lia)) as [[? ?] ?]. lia.
Qed.

Lemma clock_step k : (S k <= N)%nat -> clock_cycles h k + 1 <= clock_cycles h (S k).
Proof. intro Hk. destruct (runs k ltac:(lia)) as [[? ?] ?]. lia. Qed.


Lemma cycles_per_usec_nonneg : 0 <= cycles_per_usec h.
Proof.
  unfold cycles_per_usec, to_uint64. apply Z.div_pos; [|lia].
  apply Z.mod_pos_bound. lia.
Qed.

Lemma to_uint64_le x : 0 <= x -> 0 <= to_uint64 x <= x.
Proof.
  intro H. unfold to_uint64. split.
  - apply Z.mod_pos_bound. lia.
  - apply Z.mod_le; lia.
Qed.


(** The busy wait of [dht_delay_us] ends. *)
Lemma dht_delay_us_loop_returns target :
  forall fuel w,
    (1 <= fuel)%nat -> board w = h -> (clock_reads w + fuel <= N)%nat ->
    Z.of_nat fuel + clock_cycles h (clock_reads w) >= target + 1 ->
    returns (within h (clock_reads w + fuel)) (dht_delay_us_loop fuel target) w.
Proof.
  induction fuel as [|fuel IH]; intros w Hf Hb HN Hm; [lia|].
  destruct w as [b c i k]. cbn [board clock_reads] in *. subst b.
  cbn [dht_delay_us_loop].
  unfold returns, RpiGpio.bind at 1. unfold dht_get_cycles, ClockCycles at 1.
  cbn [board clock_reads input_reads commands].
  assert (R : 0 <= clock_cycles h c < 2 ^ 64) by (apply clock_range; lia).
  rewrite (to_uint64_small (clock_cycles h c)) by exact R.
  destruct (Z.ltb_spec (clock_cycles h c) target) as [L|L].
  - pose proof (clock_step c ltac:(lia)) as St.
    replace (c + S fuel)%nat with (S c + fuel)%nat by lia.
    apply (IH (mk_world h (S c) i k)); cbn [board clock_reads]; try lia.
    reflexivity.
  - apply returns_ret. split; cbn; [reflexivity | lia].
Qed.

Lemma dht_delay_us_returns fuel usec n w :
  within h n w -> (n + S fuel <= N)%nat ->
  0 <= usec <= 200 -> 200 * cycles_per_usec h + 1 <= Z.of_nat fuel ->
  returns (within h (n + S fuel)) (dht_delay_us fuel usec) w.
Proof.
  intros [Hb Hc] HN Ht Hf. destruct w as [b c i k]. cbn [board clock_reads] in *.
  subst b. pose proof cycles_per_usec_nonneg as Hcpu.
  assert (R : 0 <= clock_cycles h c < 2 ^ 64) by (apply clock_range; lia).
  pose proof (clock_step c ltac:(lia)) as St.
  unfold dht_delay_us, returns, RpiGpio.bind, dht_get_cycles, ClockCycles,
    dht_cycles_per_usec.
  cbn [board clock_reads input_reads commands].
  rewrite (to_uint64_small (clock_cycles h c)) by exact R.
  fold (cycles_per_usec h).
  assert (U : 0 <= usec * cycles_per_usec h <= 200 * cycles_per_usec h).
  { split; [apply Z.mul_nonneg_nonneg; lia|].
    apply Z.mul_le_mono_nonneg_r; lia. }
  pose proof (to_uint64_le (clock_cycles h c + usec * cycles_per_usec h) ltac:(lia)) as T.
  destruct (dht_delay_us_loop_returns
              (to_uint64 (clock_cycles h c + usec * cycles_per_usec h)) fuel
              (mk_world h (S c) i k)) as (a & w' & E & Hw);
    cbn [board clock_reads]; try lia; try reflexivity.
  exists a, w'. split; [exact E|].
  apply within_le with (1 := Hw). cbn [clock_reads]. lia.
Qed.

Lemma gpio_command_returns n w :
  within h n w -> returns (within h n) gpio_command w.
Proof.
  intros [Hb Hc]. eexists _, _. split; [reflexivity|]. split; cbn; assumption.
Qed.





End Returns.

(** The counter of the board without a sensor runs, so the read returns
    there with fuel for 10801 iterations. *)
Lemma silent_board_runs n :
  Z.of_nat n <= 2 ^ 40 -> clock_runs (silent_board 54) n.
Proof.
  intros Hn k Hk. unfold silent_board; cbn [clock_cycles].
  change (2 ^ 40) with 1099511627776 in Hn.
  change (2 ^ 64) with 18446744073709551616. lia.
Qed.


(** ** The pulse-echo decoder *)

Import UltrasonicSensor.

Local Open Scope Q_scope.

Lemma Qtruncate_nonneg x : 0 <= x -> Qtruncate x = Qfloor x.
Proof.
  intro H. unfold Qtruncate.
  destruct (Qle_bool 0 x) eqn:E; [reflexivity|].
  apply Qle_bool_iff in H. congruence.
Qed.

Lemma Qtruncate_le x y : 0 <= x -> x <= y -> (Qtruncate x <= Qtruncate y)%Z.
Proof.
  intros Hx Hxy.
  rewrite (Qtruncate_nonneg x) by assumption.
  rewrite (Qtruncate_nonneg y) by (apply Qle_trans with x; assumption).
  apply Qfloor_resp_le; assumption.
Qed.

Lemma Qtruncate_range x (n : Z) :
  0 <= x -> x <= inject_Z n -> (0 <= Qtruncate x <= n)%Z.
Proof.
  intros Hx Hn. rewrite Qtruncate_nonneg by assumption. split.
  - change 0%Z with (Qfloor 0). apply Qfloor_resp_le; assumption.
  - rewrite <- (Qfloor_Z n). apply Qfloor_resp_le; assumption.
Qed.

Lemma round_down_le bits x y : x <= y -> round_down bits x <= round_down bits y.
Proof.
  intro H. unfold round_down, Qle; cbn [Qnum Qden].
  apply Z.mul_le_mono_nonneg_r; [apply Pos2Z.is_nonneg|].
  apply Qfloor_resp_le.
  apply Qmult_le_compat_r; [assumption|].
  change 0 with (inject_Z 0). rewrite <- Zle_Qle.
  apply Z.pow_nonneg; lia.
Qed.

Lemma round_down_int bits (n : Z) :
  (0 <= bits)%Z -> round_down bits (inject_Z n) == inject_Z n.
Proof.
  intro H. unfold round_down.
  rewrite <- inject_Z_mult, Qfloor_Z.
  unfold Qeq; cbn [Qnum Qden inject_Z].
  rewrite Z2Pos.id by (apply Z.pow_pos_nonneg; lia). lia.
Qed.

Section EchoDistance.

Variable to_float : Q -> Q.
Variable to_double : Q -> Q.

(** What is used of the two roundings: they keep the order, and they
    leave the whole numbers below 2^16 as they are.  Both hold of the
    rounding of a binary floating-point format with 17 bits or more. *)
Hypothesis to_float_le : forall x y, x <= y -> to_float x <= to_float y.
Hypothesis to_double_le : forall x y, x <= y -> to_double x <= to_double y.
Hypothesis to_float_int :
  forall n : Z, (0 <= n < 2 ^ 16)%Z -> to_float (inject_Z n) == inject_Z n.
Hypothesis to_double_int :
  forall n : Z, (0 <= n < 2 ^ 16)%Z -> to_double (inject_Z n) == inject_Z n.

#[local] Instance to_float_compat : Proper (Qeq ==> Qeq) to_float.
Proof.
  intros x y E. apply Qle_antisym; apply to_float_le; rewrite E; apply Qle_refl.
Qed.

#[local] Instance to_double_compat : Proper (Qeq ==> Qeq) to_double.
Proof.
  intros x y E. apply Qle_antisym; apply to_double_le; rewrite E; apply Qle_refl.
Qed.

Lemma to_float_whole (n : Z) (x : Q) :
  (0 <= n < 2 ^ 16)%Z -> x == inject_Z n -> to_float x == inject_Z n.
Proof. intros H E. rewrite E. apply to_float_int, H. Qed.

Lemma to_double_whole (n : Z) (x : Q) :
  (0 <= n < 2 ^ 16)%Z -> x == inject_Z n -> to_double x == inject_Z n.
Proof. intros H E. rewrite E. apply to_double_int, H. Qed.

Lemma speed_of_sound_range :
  0 <= SPEED_OF_SOUND_CM_PER_US to_double <= 1.
Proof.
  unfold SPEED_OF_SOUND_CM_PER_US. split.
  - apply Qle_trans with (to_double 0); [|apply to_double_le; discriminate].
    rewrite (to_double_whole 0 0); [discriminate | lia | reflexivity].
  - apply Qle_trans with (to_double 1); [apply to_double_le; discriminate|].
    rewrite (to_double_whole 1 1); [discriminate | lia | reflexivity].
Qed.

Lemma distance_float_le d1 d2 :
  0 <= d1 -> d1 <= d2 ->
  distance_float to_float to_double d1 <= distance_float to_float to_double d2.
Proof.
  intros H1 H12. unfold distance_float.
  apply to_float_le, to_double_le.
  assert (E2 : to_double 2 == 2)
    by (apply (to_double_whole 2); [lia | reflexivity]).
  unfold Qdiv. apply Qmult_le_compat_r.
  - apply to_double_le.
    apply Qmult_le_compat_r; [assumption | apply speed_of_sound_range].
  - rewrite E2. discriminate.
Qed.

Lemma distance_float_range d :
  0 <= d -> d <= 50000 -> 0 <= distance_float to_float to_double d <= 25000.
Proof.
  intros H0 H1.
  assert (E2 : to_double 2 == 2)
    by (apply (to_double_whole 2); [lia | reflexivity]).
  assert (Z0 : distance_float to_float to_double 0 == 0).
  { unfold distance_float.
    apply (to_float_whole 0); [lia|].
    apply (to_double_whole 0); [lia|].
    rewrite (to_double_whole 0 (0 * _)); [reflexivity | lia | apply Qmult_0_l]. }
  split.
  - rewrite <- Z0. apply distance_float_le; [apply Qle_refl | assumption].
  - unfold distance_float.
    apply Qle_trans with (to_float 25000);
      [|rewrite (to_float_whole 25000 25000);
        [apply Qle_refl | lia | reflexivity]].
    apply to_float_le.
    apply Qle_trans with (to_double 25000);
      [|rewrite (to_double_whole 25000 25000);
        [apply Qle_refl | lia | reflexivity]].
    apply to_double_le.
    apply Qle_trans with (50000 / to_double 2).
    + unfold Qdiv. apply Qmult_le_compat_r; [|rewrite E2; discriminate].
      apply Qle_trans with (to_double 50000);
        [|rewrite (to_double_whole 50000 50000);
          [apply Qle_refl | lia | reflexivity]].
      apply to_double_le.
      apply Qle_trans with (d * 1).
      * apply Qmult_le_compat_nonneg; split;
          solve [assumption | apply Qle_refl | apply speed_of_sound_range].
      * rewrite Qmult_1_r. assumption.
    + rewrite E2. discriminate.
Qed.

(** C6.  For two echo pulses of [d1 < d2] microseconds, neither longer
    than the 50 ms of the edge timeout, the distance decoded from the
    shorter one is at most the distance decoded from the longer one. *)
Theorem echo_distance_monotone d1 d2 :
  0 <= d1 -> d1 < d2 -> d2 <= 50000 ->
  (ultrasonic_distance to_float to_double d1
   <= ultrasonic_distance to_float to_double d2)%Z.
Proof.
  intros H0 H12 H2.
  assert (H12' : d1 <= d2) by (apply Qlt_le_weak; assumption).
  assert (H0' : 0 <= d2) by (apply Qle_trans with d1; assumption).
  assert (H1 : d1 <= 50000) by (apply Qle_trans with d2; assumption).
  unfold ultrasonic_distance, float_to_uint16.
  destruct (distance_float_range d1 H0 H1) as [L1 U1].
  destruct (distance_float_range d2 H0' H2) as [L2 U2].
  pose proof (Qtruncate_range _ 25000 L1 U1).
  pose proof (Qtruncate_range _ 25000 L2 U2).
  rewrite !Z.mod_small by (change (2 ^ 16)%Z with 65536%Z; lia).
  apply Qtruncate_le; [assumption|].
  apply distance_float_le; assumption.
Qed.

End EchoDistance.

(** Pulses of 583 us and 584 us (the door at 10 cm), with roundings to 10
    and to 30 binary places. *)
Lemma echo_distance_monotone_witness :
  (ultrasonic_distance (round_down 10) (round_down 30) 583
   <= ultrasonic_distance (round_down 10) (round_down 30) 584)%Z.
Proof.
  apply (echo_distance_monotone (round_down 10) (round_down 30)
           (round_down_le 10) (round_down_le 30)
           (fun n _ => round_down_int 10 n ltac:(lia))
           (fun n _ => round_down_int 30 n ltac:(lia)) 583 584).
  - discriminate.
  - reflexivity.
  - discriminate.
Defined.

(** The distances decoded from pulses of 0 us to 50 ms. *)
Example echo_distances :
  map (ultrasonic_distance (round_down 10) (round_down 30))
      [0; 58; 583; 584; 874; 875; 29155; 50000]
  = [0; 0; 9; 10; 14; 15; 500; 857]%Z.
Proof. vm_compute. reflexivity. Qed.

Local Close Scope Q_scope.

(** * More of the code *)

Import MoreNotions.

(** ** The alert engine, category by category *)

Ltac unfold_producer :=
  unfold producer_thread_body, temperature_sensor_thread_body,
    gas_sensor_thread_body, motion_sensor_thread_body,
    ultrasonic_sensor_thread_body in *.

(** X3.  The gas alert is level-triggered.  On every tick of every run:
    while the gas reading is valid and gas is detected, the tick raises
    exactly one gas alert, CRITICAL with value 1; otherwise it raises
    none.  No history is consulted. *)
Theorem gas_alert_level_triggered th steps p :
  Forall (fun r =>
    alerts_of Gas (trace r) =
      if truthy (gas_sensor_valid (g_sensor_data (before r)))
         && truthy (gas_detected (g_sensor_data (before r)))
      then [EvAlert ALERT_TYPE_GAS_DETECTED ALERT_LEVEL_CRITICAL 1
                    "Gas detected - potential hazard!"]
      else [])
    (run th steps p).
Proof.
  apply run_Forall. intros now q. cbn [before trace].
  destruct q as [[] seq l1 l2 l3]. crunch; reflexivity.
Qed.

(** X4.  The motion alert does not look at [last_motion].  On every tick
    of every run, whatever the latch holds: while the motion reading is
    valid and motion is reported, the tick raises exactly one motion
    alert, INFO with value 1; otherwise it raises none. *)
Theorem motion_alert_ignores_latch th steps p :
  Forall (fun r =>
    alerts_of Motion (trace r) =
      if truthy (motion_sensor_valid (g_sensor_data (before r)))
         && truthy (motion_detected (g_sensor_data (before r)))
      then [EvAlert ALERT_TYPE_MOTION ALERT_LEVEL_INFO 1 "Motion detected"]
      else [])
    (run th steps p).
Proof.
  apply run_Forall. intros now q. cbn [before trace].
  destruct q as [[] seq l1 l2 l3]. crunch; reflexivity.
Qed.

(** X5.  The alerts of a tick come in the order temperature, gas, motion,
    door, at most one of each: a tick raises at most four alerts, and
    every alert belongs to one of the four categories. *)
Theorem alerts_in_category_order th steps p :
  Forall (fun r =>
    alerts (trace r) =
      alerts_of Temperature (trace r) ++ alerts_of Gas (trace r)
      ++ alerts_of Motion (trace r) ++ alerts_of Door (trace r)
    /\ (List.length (alerts_of Temperature (trace r)) <= 1)%nat
    /\ (List.length (alerts_of Gas (trace r)) <= 1)%nat
    /\ (List.length (alerts_of Motion (trace r)) <= 1)%nat
    /\ (List.length (alerts_of Door (trace r)) <= 1)%nat)
    (run th steps p).
Proof.
  apply run_Forall. intros now q. cbn [before trace].
  destruct q as [[] seq l1 l2 l3]. crunch; repeat split; auto.
Qed.

(** X6.  The pulses of a tick are the pulses of its alerts, in the order
    of the alerts: HIGH_TEMP after a high-temperature alert, HIGH_CO2
    after a gas alert, MOTION_DETECTED after a motion alert, DOOR_OPEN
    after a door alert of either direction, and no pulse after a
    low-temperature alert.  No pulse is sent without an alert. *)
Theorem pulses_follow_alerts th steps p :
  Forall (fun r => filter is_pulse (trace r) = pulses_of_alerts (trace r))
    (run th steps p).
Proof.
  apply run_Forall. intros now q. cbn [before trace].
  destruct q as [[] seq l1 l2 l3]. crunch; reflexivity.
Qed.

(** ** The sequence number *)

Lemma producer_thread_body_sequence th r p :
  g_sequence_num (final (producer_thread_body th r p)) = g_sequence_num p.
Proof.
  destruct p as [[] seq l1 l2 l3], r as [rc ? ?|rc ?|rc ?|rc ?];
    unfold_producer; destruct (rc =? 0); reflexivity.
Qed.

Lemma aggregator_thread_body_sequence th now p :
  sequence_num (result (aggregator_thread_body th now p)) = g_sequence_num p
  /\ g_sequence_num (final (aggregator_thread_body th now p)) =
     (g_sequence_num p + 1) mod 2 ^ 32.
Proof.
  destruct p as [[] seq l1 l2 l3]. crunch; split; reflexivity.
Qed.

(** X7.  The messages of a run carry consecutive sequence numbers: the
    k-th message carries the number the run started with plus k, modulo
    2^32.  No number is skipped or used twice, whatever the producers do
    in between, and after 2^32 - 1 comes 0. *)
Theorem sequence_numbers_consecutive th steps :
  forall p,
    0 <= g_sequence_num p < 2 ^ 32 ->
    map (fun r => sequence_num (sent r)) (run th steps p) =
    map (fun k => (g_sequence_num p + Z.of_nat k) mod 2 ^ 32)
        (seq 0 (List.length (run th steps p))).
Proof.
  induction steps as [|[r|now] rest IH]; intros p Hp.
  - reflexivity.
  - cbn [run]. rewrite IH; rewrite producer_thread_body_sequence; auto.
  - cbn [run map sent List.length seq].
    destruct (aggregator_thread_body_sequence th now p) as [Es Ef].
    rewrite Es, IH by (rewrite Ef; apply Z.mod_pos_bound; lia).
    rewrite Ef, Z.add_0_r, (Z.mod_small (g_sequence_num p)) by lia. f_equal.
    rewrite <- seq_shift, map_map. apply map_ext. intro k.
    rewrite Zplus_mod_idemp_l. f_equal. lia.
Qed.

(** Three ticks from 2^32 - 2. *)
Lemma sequence_numbers_consecutive_witness :
  map (fun r => sequence_num (sent r))
      (run configured_thresholds
           [Tick 100; Produce (GasReading 0 true); Tick 102; Tick 104]
           (mk_process zero_sensor_data (2 ^ 32 - 2) 0 0 0)) =
  [4294967294; 4294967295; 0].
Proof.
  assert (H : 0 <= g_sequence_num (mk_process zero_sensor_data (2 ^ 32 - 2) 0 0 0)
              < 2 ^ 32) by (cbn; lia).
  exact (sequence_numbers_consecutive configured_thresholds
           [Tick 100; Produce (GasReading 0 true); Tick 102; Tick 104]
           (mk_process zero_sensor_data (2 ^ 32 - 2) 0 0 0) H).
Defined.

(** ** What a producer touches *)

(** X8.  An iteration of a producer, successful or not, touches nothing
    but its own sensor's fields: the value and the validity flag of every
    other category, the alert level, the sequence number and the three
    latches of the evaluation are as before, and the iteration sends
    nothing: all it does outside is to take and release the lock. *)
Theorem producer_touches_own_category_only th r c p :
  producer r <> c ->
  let p' := final (producer_thread_body th r p) in
  value_fields c (g_sensor_data p') = value_fields c (g_sensor_data p)
  /\ valid_flag c (g_sensor_data p') = valid_flag c (g_sensor_data p)
  /\ alert_level (g_sensor_data p') = alert_level (g_sensor_data p)
  /\ g_sequence_num p' = g_sequence_num p
  /\ (last_alert_level p', last_motion p', last_door_state p') =
     (last_alert_level p, last_motion p, last_door_state p)
  /\ events (producer_thread_body th r p) = [EvLock; EvUnlock].
Proof.
  intros Hc.
  destruct p as [[] seq l1 l2 l3], r as [rc ? ?|rc ?|rc ?|rc ?], c;
    try (exfalso; apply Hc; reflexivity);
    unfold_producer; destruct (rc =? 0); cbn; repeat split.
Qed.

(** An ultrasonic reading after a temperature reading. *)
Lemma producer_touches_own_category_only_witness :
  let p := final (producer_thread_body configured_thresholds
                    (TemperatureReading 0 21 40) initial_process) in
  let p' := final (producer_thread_body configured_thresholds
                     (UltrasonicReading 0 8) p) in
  value_fields Temperature (g_sensor_data p') = (21, 40)
  /\ valid_flag Temperature (g_sensor_data p') = 1
  /\ alert_level (g_sensor_data p') = 0
  /\ g_sequence_num p' = 0
  /\ (last_alert_level p', last_motion p', last_door_state p') = (0, 0, 0)
  /\ events (producer_thread_body configured_thresholds
               (UltrasonicReading 0 8) p) = [EvLock; EvUnlock].
Proof.
  intros p p'.
  apply (producer_touches_own_category_only configured_thresholds
           (UltrasonicReading 0 8) Temperature p).
  discriminate.
Defined.

(** ** From a reading to the message *)

Lemma aggregator_thread_body_sent th now p c :
  msg_value_fields c (result (aggregator_thread_body th now p)) =
    value_fields c (g_sensor_data p)
  /\ msg_valid_flag c (result (aggregator_thread_body th now p)) =
     valid_flag c (g_sensor_data p).
Proof.
  destruct p as [[] seq l1 l2 l3], c; crunch; split; reflexivity.
Qed.

Lemma producer_thread_body_keeps th r c p :
  category_eqb (producer r) c = false ->
  value_fields c (g_sensor_data (final (producer_thread_body th r p))) =
    value_fields c (g_sensor_data p)
  /\ valid_flag c (g_sensor_data (final (producer_thread_body th r p))) =
     valid_flag c (g_sensor_data p).
Proof.
  intros Hc.
  destruct p as [[] seq l1 l2 l3], r as [rc ? ?|rc ?|rc ?|rc ?], c;
    try discriminate;
    unfold_producer; destruct (rc =? 0); cbn; repeat split.
Qed.

Lemma producer_thread_body_publishes th r p :
  failed r = false ->
  value_fields (producer r) (g_sensor_data (final (producer_thread_body th r p))) =
    reading_values th r
  /\ valid_flag (producer r) (g_sensor_data (final (producer_thread_body th r p))) = 1.
Proof.
  intros Hf.
  destruct p as [[] seq l1 l2 l3], r as [rc ? ?|rc ?|rc ?|rc ?];
    cbn in Hf; apply negb_false_iff in Hf;
    unfold_producer; rewrite Hf; cbn; repeat split.
Qed.

Lemma run_carries th c v steps :
  forallb (leaves_category c) steps = true ->
  forall p,
    value_fields c (g_sensor_data p) = v ->
    valid_flag c (g_sensor_data p) = 1 ->
    Forall (fun t => msg_value_fields c (sent t) = v
                     /\ msg_valid_flag c (sent t) = 1) (run th steps p).
Proof.
  induction steps as [|[r|now] rest IH]; simpl; intros Hk p Hv Hf.
  - constructor.
  - apply andb_true_iff in Hk. destruct Hk as [Hr Hk].
    apply negb_true_iff in Hr.
    destruct (producer_thread_body_keeps th r c p Hr) as [E1 E2].
    apply IH; auto; congruence.
  - destruct (aggregator_thread_body_sent th now p c) as [E1 E2].
    destruct (aggregator_thread_body_frame th now c p) as [E3 E4].
    constructor; [simpl; split; congruence | apply IH; auto; congruence].
Qed.

(** X9.  What a producer has read is what goes out.  After a successful
    iteration of a producer, every message that the aggregator sends
    until the same producer runs again carries the values of that reading
    (for the ultrasonic sensor the distance and the door state derived
    from it) with the validity flag 1, whatever the other producers and
    the aggregator do in between. *)
Theorem published_reading_is_sent th r steps p :
  failed r = false ->
  forallb (leaves_category (producer r)) steps = true ->
  Forall (fun t =>
            msg_value_fields (producer r) (sent t) = reading_values th r
            /\ msg_valid_flag (producer r) (sent t) = 1)
         (run th (Produce r :: steps) p).
Proof.
  intros Hf Hk. cbn [run].
  destruct (producer_thread_body_publishes th r p Hf) as [E1 E2].
  apply run_carries; auto.
Qed.

(** The door at 8 cm, then two ticks with other producers in between. *)
Lemma published_reading_is_sent_witness :
  Forall (fun t =>
            msg_value_fields Door (sent t) = (8, 1)
            /\ msg_valid_flag Door (sent t) = 1)
         (run configured_thresholds
            [ Produce (UltrasonicReading 0 8);
              Produce (TemperatureReading 0 35 40); Tick 100;
              Produce (GasReading (-1) false); Tick 102 ]
            initial_process).
Proof.
  apply (published_reading_is_sent configured_thresholds
           (UltrasonicReading 0 8)
           [ Produce (TemperatureReading 0 35 40); Tick 100;
             Produce (GasReading (-1) false); Tick 102 ]
           initial_process); reflexivity.
Defined.

(** ** Flags and levels *)

Ltac split_flags H :=
  unfold flags_ok in H; cbn in H;
  repeat (let H' := fresh in apply andb_true_iff in H; destruct H as [H H']).

Lemma producer_thread_body_flags th r p :
  flags_ok (g_sensor_data p) = true ->
  flags_ok (g_sensor_data (final (producer_thread_body th r p))) = true.
Proof.
  intro H.
  destruct p as [[] seq l1 l2 l3], r as [rc ? ?|rc b|rc b|rc ?];
    split_flags H;
    unfold_producer; destruct (rc =? 0); unfold flags_ok; cbn;
    repeat (apply andb_true_iff; split); try assumption; try reflexivity;
    try (destruct b; reflexivity).
  destruct (_ <=? _); reflexivity.
Qed.

Lemma aggregator_thread_body_flags th now p :
  flags_ok (g_sensor_data p) = true ->
  flags_ok (g_sensor_data (final (aggregator_thread_body th now p))) = true
  /\ msg_flags_ok (result (aggregator_thread_body th now p)) = true.
Proof.
  intro H.
  destruct p as [[] seq l1 l2 l3]; split_flags H;
    crunch; unfold flags_ok, msg_flags_ok; cbn;
    split; repeat (apply andb_true_iff; split); try assumption; reflexivity.
Qed.

(** X10.  Flags stay flags.  When every validity and detection flag of
    [g_sensor_data] is 0 or 1 and its alert level is one of INFO, WARNING
    and CRITICAL, as at the start of the process, this holds before and
    after every tick of every run, and of every message sent. *)
Theorem flags_stay_flags th steps :
  forall p,
    flags_ok (g_sensor_data p) = true ->
    Forall (fun r => flags_ok (g_sensor_data (before r)) = true
                     /\ msg_flags_ok (sent r) = true
                     /\ flags_ok (g_sensor_data (after r)) = true)
           (run th steps p).
Proof.
  induction steps as [|[r|now] rest IH]; intros p Hp; cbn [run].
  - constructor.
  - apply IH, producer_thread_body_flags, Hp.
  - destruct (aggregator_thread_body_flags th now p Hp) as [H1 H2].
    constructor; [cbn; auto | apply IH; exact H1].
Qed.

(** From the start of the process. *)
Lemma flags_stay_flags_witness :
  Forall (fun r => flags_ok (g_sensor_data (before r)) = true
                   /\ msg_flags_ok (sent r) = true
                   /\ flags_ok (g_sensor_data (after r)) = true)
         (run configured_thresholds three_ticks initial_process).
Proof.
  apply (flags_stay_flags configured_thresholds three_ticks initial_process).
  reflexivity.
Defined.

(** ** The text of an alert *)

Import Printf EventLogger AnalyzerMessages.

Lemma string_length_app (s1 s2 : string) :
  String.length (s1 ++ s2) = (String.length s1 + String.length s2)%nat.
Proof. induction s1 as [|c s1 IH]; cbn; [reflexivity | now rewrite IH]. Qed.

Lemma string_app_assoc (s1 s2 s3 : string) :
  ((s1 ++ s2) ++ s3 = s1 ++ (s2 ++ s3))%string.
Proof. induction s1 as [|c s1 IH]; cbn; [reflexivity | now rewrite IH]. Qed.

Lemma string_app_empty (s : string) : (s ++ EmptyString)%string = s.
Proof. induction s as [|c s IH]; cbn; [reflexivity | now rewrite IH]. Qed.

Lemma substring_whole n s :
  (String.length s <= n)%nat -> substring 0 n s = s.
Proof.
  revert n. induction s as [|c s IH]; intros [|n] H; cbn in *;
    try reflexivity; try lia.
  rewrite IH by lia. reflexivity.
Qed.

Lemma decimal_length fuel :
  forall n acc,
    (String.length (decimal fuel n acc) <= fuel + String.length acc)%nat.
Proof.
  induction fuel as [|fuel IH]; intros n acc; cbn [decimal].
  - lia.
  - destruct (n / 10 =? 0); [cbn; lia|].
    eapply Nat.le_trans; [apply IH|]. cbn. lia.
Qed.

Lemma print_d_length n : (String.length (print_d n) <= 11)%nat.
Proof.
  unfold print_d, print_u. destruct (n <? 0).
  - rewrite string_length_app.
    pose proof (decimal_length 10 (- n) EmptyString). cbn in *. lia.
  - pose proof (decimal_length 10 n EmptyString). cbn in *. lia.
Qed.

Lemma level_text_length l : (String.length (level_text l) <= 8)%nat.
Proof.
  unfold level_text. destruct (l =? _); [cbn; lia|].
  destruct (l =? _); cbn; lia.
Qed.

Lemma alert_format_length l v desc :
  (String.length (alert_format l v desc) <= String.length desc + 31)%nat.
Proof.
  unfold alert_format. rewrite !string_length_app.
  pose proof (print_d_length v). pose proof (level_text_length l).
  cbn [String.length]. lia.
Qed.

(** The descriptions the evaluation passes to [send_alert]. *)
Lemma check_thresholds_and_alert_descriptions th d p :
  Forall (fun e =>
            match e with
            | EvAlert _ _ _ description => (String.length description <= 32)%nat
            | _ => True
            end)
         (events (check_thresholds_and_alert th d p)).
Proof.
  destruct p as [g seq l1 l2 l3], d. crunch; repeat constructor.
Qed.

(** X11.  No alert text is cut.  For every alert the evaluation raises,
    on whatever data, the text [send_alert] puts into the 128-byte buffer
    is the whole of "[LEVEL] description (value=N)": it has at most 63
    characters, so [snprintf] drops none of them. *)
Theorem alert_text_is_never_cut th d p :
  Forall (fun e =>
            match e with
            | EvAlert alert_type alert_level sensor_value description =>
                text (send_alert_msg alert_type alert_level sensor_value description)
                = alert_format alert_level sensor_value description
                /\ (String.length
                      (text (send_alert_msg alert_type alert_level sensor_value
                                             description)) <= 63)%nat
            | _ => True
            end)
         (events (check_thresholds_and_alert th d p)).
Proof.
  eapply Forall_impl; [|apply check_thresholds_and_alert_descriptions].
  intros [| | |ty l v desc| |]; auto. intro H.
  pose proof (alert_format_length l v desc) as L.
  unfold send_alert_msg, snprintf; cbn [text].
  change (128 - 1)%nat with 127%nat.
  rewrite substring_whole by lia. split; [reflexivity | lia].
Qed.

(** ** The event logger *)

(** X12.  The event logger only appends.  Whatever it receives, what the
    log held stays at its start, and what is added is one line
    "EVENT: text" for each message received, in the order of arrival;
    each of these messages gets one reply, with status 0.  A failed
    receive and a pulse add no line and get no reply, and the loop goes
    on after them. *)
Theorem event_logger_appends received :
  forall s,
    let logged := filter (fun r => is_message (fst r)) received in
    logfile (event_logger_loop received s) =
      (logfile s
       ++ fold_right append EmptyString (map (fun r => log_line (snd r)) logged))%string
    /\ EventLogger.replies (event_logger_loop received s) =
       EventLogger.replies s ++ map (fun r => (fst r, 0)) logged.
Proof.
  unfold event_logger_loop.
  induction received as [|[rcvid msg] rest IH]; intro s;
    cbn [fold_left filter fst snd].
  - cbn. rewrite string_app_empty, app_nil_r. split; reflexivity.
  - destruct (IH (event_logger_body rcvid msg s)) as [E1 E2].
    cbv zeta in E1, E2. rewrite E1, E2. clear E1 E2 IH.
    unfold event_logger_body, is_message.
    destruct (rcvid =? -1); [split; reflexivity|].
    destruct (rcvid =? 0); [split; reflexivity|].
    cbn [negb andb map fold_right logfile EventLogger.replies fst snd].
    unfold log_line. rewrite <- app_assoc, string_app_assoc.
    split; reflexivity.
Qed.

(** ** The dashboard *)

Import StatsUpdate.

(** X13.  The dashboard shows nothing of an invalid reading.  When the
    validity flag of a category is 0 in a message, the text written for
    the message is the same whatever the value fields of that category
    hold: the temperature and the humidity are written as null, the door,
    the motion and the smoke status as "unknown", the CO2 value as null
    and the smoke alert as false. *)
Theorem dashboard_hides_invalid_readings format_time c a b m :
  msg_valid_flag c m = 0 ->
  dashboard_json format_time (msg_with_values c a b m) =
  dashboard_json format_time m.
Proof.
  intro H. destruct m, c; cbn in H; subst;
    unfold dashboard_json, dashboard_door, dashboard_temperature,
      dashboard_humidity, dashboard_smoke, dashboard_motion, dashboard_co2,
      dashboard_metadata, msg_with_values;
    cbn [MsgDef.temperature MsgDef.humidity MsgDef.temp_sensor_valid
         MsgDef.gas_detected MsgDef.gas_sensor_valid MsgDef.motion_detected
         MsgDef.motion_sensor_valid MsgDef.distance_cm MsgDef.door_closed
         MsgDef.ultrasonic_valid MsgDef.alert_level sequence_num timestamp
         msg_type truthy Z.eqb negb];
    reflexivity.
Qed.

(** The message of a tick after a failed temperature read that followed a
    reading of 35 degrees. *)
Lemma dashboard_hides_invalid_readings_witness :
  let m := result (aggregator_thread_body configured_thresholds 100
                     (final (producer_thread_body configured_thresholds
                               (TemperatureReading (-1) 0 0)
                               (final (producer_thread_body configured_thresholds
                                         (TemperatureReading 0 35 40)
                                         initial_process))))) in
  msg_value_fields Temperature m = (35, 40)
  /\ dashboard_json (fun _ => "2025-11-20 10:00:00"%string)
                    (msg_with_values Temperature 0 0 m) =
     dashboard_json (fun _ => "2025-11-20 10:00:00"%string) m.
Proof.
  intro m. split; [reflexivity|].
  apply (dashboard_hides_invalid_readings
           (fun _ => "2025-11-20 10:00:00"%string) Temperature 0 0 m).
  reflexivity.
Defined.

Section StatsServer.

Variable format_time : Z -> string.
Variable can_open : string -> bool.

Lemma stats_update_body_running rcvid m s :
  rcvid <> -1 -> running s = true ->
  running (stats_update_body format_time can_open rcvid m s) = true.
Proof.
  intros H R. unfold stats_update_body.
  destruct (Z.eqb_spec rcvid (-1)); [contradiction|].
  destruct (rcvid =? 0); [exact R|].
  destruct (msg_type m =? _); reflexivity.
Qed.

(** Until a receive fails the loop goes on. *)
Lemma stats_update_loop_app front :
  forall s rest,
    running s = true -> Forall (fun r => fst r <> -1) front ->
    stats_update_loop format_time can_open (front ++ rest) s =
      stats_update_loop format_time can_open rest
        (stats_update_loop format_time can_open front s)
    /\ running (stats_update_loop format_time can_open front s) = true.
Proof.
  induction front as [|[rcvid m] front IH]; intros s rest R F.
  - split; [reflexivity | exact R].
  - inversion F as [|? ? Hr Hf]; subst. cbn [fst] in Hr.
    cbn [app stats_update_loop].
    rewrite (stats_update_body_running rcvid m s Hr R).
    apply IH; [apply stats_update_body_running; assumption | exact Hf].
Qed.



(** X15.  One failed receive ends the dashboard.  [stats_update] leaves
    its loop at the first [MsgReceive] that returns -1: what arrives
    after it is neither written nor answered. *)
Theorem stats_update_stops_at_receive_error front m rest s :
  running s = true ->
  Forall (fun r => fst r <> -1) front ->
  stats_update_loop format_time can_open (front ++ (-1, m) :: rest) s =
  mk_server (disk (stats_update_loop format_time can_open front s))
            (replies (stats_update_loop format_time can_open front s)) false.
Proof.
  intros R F. destruct (stats_update_loop_app front s ((-1, m) :: rest) R F) as [E _].
  rewrite E. reflexivity.
Qed.


End StatsServer.


(** A message, a failed receive, and a message that comes too late. *)
Lemma stats_update_stops_at_receive_error_witness :
  let format_time := fun _ : Z => "2025-11-20 10:00:00"%string in
  let s := mk_server (fun _ => None) [] true in
  replies (stats_update_loop format_time (fun _ => true)
             ([(7, blank_msg MSG_TYPE_SENSOR_DATA 1)]
              ++ (-1, blank_msg 0 0) :: [(9, blank_msg MSG_TYPE_SENSOR_DATA 2)]) s)
  = [(7, EOK)]
  /\ running (stats_update_loop format_time (fun _ => true)
                ([(7, blank_msg MSG_TYPE_SENSOR_DATA 1)]
                 ++ (-1, blank_msg 0 0) :: [(9, blank_msg MSG_TYPE_SENSOR_DATA 2)]) s)
     = false.
Proof.
  intros format_time s.
  rewrite (stats_update_stops_at_receive_error format_time (fun _ => true)
             [(7, blank_msg MSG_TYPE_SENSOR_DATA 1)] (blank_msg 0 0)
             [(9, blank_msg MSG_TYPE_SENSOR_DATA 2)] s).
  - split; reflexivity.
  - reflexivity.
  - repeat constructor; discriminate.
Defined.


(** ** The alert manager *)

Import AlertMgr.

Lemma led_after_app level a1 a2 :
  led_after level (a1 ++ a2) = led_after (led_after level a1) a2.
Proof. unfold led_after. apply fold_left_app. Qed.

Lemma seconds_lit_app a1 :
  forall level a2,
    seconds_lit level (a1 ++ a2) =
    seconds_lit level a1 + seconds_lit (led_after level a1) a2.
Proof.
  induction a1 as [|[pin v|s|r] a1 IH]; intros level a2; cbn [app seconds_lit].
  - cbn. reflexivity.
  - rewrite IH. reflexivity.
  - rewrite IH. unfold led_after. cbn [fold_left]. ring.
  - rewrite IH. reflexivity.
Qed.

Lemma alert_mgr_body_led rcvid code :
  led_after GPIO_LOW (alert_mgr_body rcvid code) = GPIO_LOW
  /\ seconds_lit GPIO_LOW (alert_mgr_body rcvid code) =
     if rcvid =? 0 then on_time code else 0.
Proof.
  unfold alert_mgr_body. destruct (rcvid =? -1) eqn:E.
  - apply Z.eqb_eq in E. subst. split; reflexivity.
  - destruct (rcvid =? 0); [|split; reflexivity].
    destruct code as [[]|]; split; reflexivity.
Qed.

Lemma alert_mgr_serves received :
  led_after GPIO_LOW
    (flat_map (fun r => alert_mgr_body (fst r) (snd r)) received) = GPIO_LOW
  /\ seconds_lit GPIO_LOW
       (flat_map (fun r => alert_mgr_body (fst r) (snd r)) received) =
     fold_right Z.add 0
       (map (fun r => if fst r =? 0 then on_time (snd r) else 0) received).
Proof.
  induction received as [|[rcvid code] rest [IH1 IH2]];
    cbn [flat_map map fold_right fst snd].
  - split; reflexivity.
  - destruct (alert_mgr_body_led rcvid code) as [E1 E2].
    rewrite led_after_app, seconds_lit_app, E1, E2, IH1, IH2. split; reflexivity.
Qed.

(** X17.  The alert manager always leaves the LED off.  It serves only
    when the LED pin could be set up; then, whatever level the LED had
    and whatever is received, the LED is off after the last thing served,
    and it has been on for the sum of the times of the pulses served: 2
    seconds for MOTION_DETECTED, 5 for HIGH_CO2, 3 for HIGH_TEMP, 3 for
    DOOR_OPEN.  A pulse with another code, a message and a failed receive
    do not light it. *)
Theorem alert_mgr_leaves_led_off setup_status level received :
  match alert_mgr_main setup_status received with
  | Some acts =>
      setup_status = 0
      /\ led_after level acts = GPIO_LOW
      /\ seconds_lit level acts =
         fold_right Z.add 0
           (map (fun r => if fst r =? 0 then on_time (snd r) else 0) received)
  | None => setup_status <> 0
  end.
Proof.
  unfold alert_mgr_main. destruct (Z.eqb_spec setup_status 0) as [E|E]; cbn [negb].
  - destruct (alert_mgr_serves received) as [E1 E2].
    split; [exact E|].
    change (Output LED_PIN GPIO_LOW :: ?l) with ([Output LED_PIN GPIO_LOW] ++ l).
    rewrite led_after_app, seconds_lit_app.
    change (led_after level [Output LED_PIN GPIO_LOW]) with GPIO_LOW.
    rewrite E1, E2. split; reflexivity.
  - exact E.
Qed.

(** X18.  The pulses of one tick.  On every tick of every run the
    aggregator sends at most four pulses, and serving them keeps the LED
    on for at most 13 seconds in all and leaves it off. *)
Theorem tick_lights_led_for_at_most_13_seconds th steps p :
  Forall (fun r =>
            let acts := flat_map (fun r => alert_mgr_body (fst r) (snd r))
                                 (pulses_received (trace r)) in
            0 <= seconds_lit GPIO_LOW acts <= 13
            /\ (List.length (pulses_received (trace r)) <= 4)%nat
            /\ led_after GPIO_LOW acts = GPIO_LOW)
         (run th steps p).
Proof.
  apply run_Forall. intros now q. cbn [before trace].
  destruct q as [[] seq l1 l2 l3]. crunch; repeat split; cbn; lia.
Qed.

(** ** The DHT11 driver on more boards *)

(** A DHT11 that sends 55, 0, 24, 0 and the checksum 79, at 54 cycles in
    a microsecond. *)
Lemma dht11_frame_decoded_witness :
  option_map fst
    (temperature_sensor_read 10 4 (Some 7) (Some 9)
       (power_on (dht11_board 54 [55; 0; 24; 0; 79])))
  = Some (0, Some 24, Some 55).
Proof.
  assert (P : 0 < 54) by lia.
  assert (S : 54 <= 2 ^ 32) by (change (2 ^ 32) with 4294967296; lia).
  assert (B0 : 0 <= 55 < 256) by lia.
  assert (B1 : 0 <= 0 < 256) by lia.
  assert (B2 : 0 <= 24 < 256) by lia.
  assert (B4 : 0 <= 79 < 256) by lia.
  exact (dht11_frame_decoded 54 P S 8 4 (Some 7) (Some 9) 55 0 24 0 79
           B0 B1 B2 B1 B4).
Defined.

Lemma lor_byte a b : 0 <= a < 256 -> 0 <= b < 256 -> 0 <= Z.lor a b < 256.
Proof.
  intros Ha Hb. split; [apply Z.lor_nonneg; lia|].
  destruct (Z.eq_dec (Z.lor a b) 0) as [E|E]; [lia|].
  assert (0 < Z.lor a b) by (pose proof (proj2 (Z.lor_nonneg a b)); lia).
  apply (Z.log2_lt_pow2 _ 8); [assumption|].
  rewrite Z.log2_lor by lia.
  apply Z.max_lub_lt.
  - destruct (Z.eq_dec a 0); [subst; cbn; lia | apply Z.log2_lt_pow2; lia].
  - destruct (Z.eq_dec b 0); [subst; cbn; lia | apply Z.log2_lt_pow2; lia].
Qed.

Lemma to_uint8_byte x : 0 <= to_uint8 x < 256.
Proof. unfold to_uint8. apply Z.mod_pos_bound. lia. Qed.

Lemma nth_byte k data :
  Forall (fun x => 0 <= x < 256) data -> 0 <= nth k data 0 < 256.
Proof.
  intro H. revert k. induction H as [|x data Hx _ IH]; intros [|k]; cbn; try lia.
  apply IH.
Qed.

Lemma store_byte_bytes k v data :
  0 <= v < 256 -> Forall (fun x => 0 <= x < 256) data ->
  Forall (fun x => 0 <= x < 256) (store_byte k v data).
Proof.
  intros Hv H. revert k. induction H as [|x data Hx H IH]; intros [|k]; cbn;
    constructor; auto.
Qed.

Lemma shift_bit_in_bytes i bit data :
  Forall (fun x => 0 <= x < 256) data ->
  Forall (fun x => 0 <= x < 256) (shift_bit_in i bit data).
Proof.
  intro H. unfold shift_bit_in.
  apply store_byte_bytes.
  - apply lor_byte; [|apply to_uint8_byte].
    apply nth_byte, store_byte_bytes; [apply to_uint8_byte | exact H].
  - apply store_byte_bytes; [apply to_uint8_byte | exact H].
Qed.

(** The array of the frame holds bytes, whatever the line does. *)
Lemma temperature_sensor_read_bits_bytes fuel gpio_pin count :
  forall i data w rc data' w',
    Forall (fun x => 0 <= x < 256) data ->
    temperature_sensor_read_bits fuel gpio_pin count i data w
      = Some ((rc, data'), w') ->
    Forall (fun x => 0 <= x < 256) data'.
Proof.
  induction count as [|count IH]; intros i data w rc data' w' H E;
    cbn [temperature_sensor_read_bits] in E.
  - inversion E; subst. exact H.
  - unfold RpiGpio.bind in E.
    destruct (dht_read_bit fuel gpio_pin w) as [[bit w1]|]; [|discriminate].
    destruct (bit <? 0).
    + inversion E; subst. exact H.
    + eapply IH; [|exact E]. apply shift_bit_in_bytes, H.
Qed.

(** X22.  What the driver stores is a byte.  Whenever
    [temperature_sensor_read] succeeds, on whatever board, the
    temperature and the humidity it stores are between 0 and 255: the
    driver never reports a negative temperature, and it drops the decimal
    bytes of the frame. *)
Theorem stored_readings_are_bytes fuel gpio_pin temperature humidity w t h w' :
  temperature_sensor_read fuel gpio_pin temperature humidity w
    = Some ((0, Some t, Some h), w') ->
  0 <= t <= 255 /\ 0 <= h <= 255.
Proof.
  unfold temperature_sensor_read, RpiGpio.bind. intro E.
  destruct (temperature_sensor_read_start fuel gpio_pin w) as [[rc w1]|];
    [|discriminate].
  destruct (negb (rc =? 0)); [discriminate|].
  destruct (temperature_sensor_read_bits fuel gpio_pin 40 0 [0; 0; 0; 0; 0] w1)
    as [[[rc2 data] w2]|] eqn:Eb; [|discriminate].
  destruct (negb (rc2 =? 0)); [discriminate|].
  assert (B : Forall (fun x => 0 <= x < 256) data).
  { eapply temperature_sensor_read_bits_bytes; [|exact Eb].
    repeat constructor; lia. }
  unfold temperature_sensor_read_verify, RpiGpio.ret in E.
  destruct (negb (_ =? _)); [discriminate|].
  destruct temperature, humidity; cbn in E; try discriminate.
  inversion E; subst.
  pose proof (nth_byte 2 data B). pose proof (nth_byte 0 data B). lia.
Qed.

(** The frame 55, 0, 24, 0, 79. *)
Lemma stored_readings_are_bytes_witness :
  let h := dht11_board 54 [55; 0; 24; 0; 79] in
  temperature_sensor_read 10 4 (Some 7) (Some 9) (power_on h)
    = Some ((0, Some 24, Some 55), mk_world h 251 166 4)
  /\ 0 <= 24 <= 255 /\ 0 <= 55 <= 255.
Proof.
  intro h. split; [reflexivity|].
  apply (stored_readings_are_bytes 10 4 (Some 7) (Some 9) (power_on h) 24 55
           (mk_world h 251 166 4)).
  reflexivity.
Defined.

Section SilentLine.

Variable h : hardware.
Variable N : nat.
Hypothesis runs : clock_runs h N.
Hypothesis silent : forall n, gpio_input h n = (0, GPIO_HIGH).

(** A wait for the line to leave the level it never leaves runs into
    its timeout. *)
Lemma wait_loop_times_out gpio_pin start timeout :
  forall fuel w,
    (1 <= fuel)%nat -> board w = h -> (clock_reads w + fuel <= N)%nat ->
    0 <= start <= clock_cycles h (clock_reads w) ->
    Z.of_nat fuel + (clock_cycles h (clock_reads w) - start) >= timeout + 2 ->
    exists w',
      dht_wait_while_level_loop fuel gpio_pin GPIO_HIGH start timeout w
      = Some (-1, w').
Proof.
  induction fuel as [|fuel IH]; intros w Hf Hb HN Hs Hm; [lia|].
  destruct w as [b c i k]. cbn [board clock_reads] in *. subst b.
  cbn [dht_wait_while_level_loop].
  unfold RpiGpio.bind at 1. unfold rpi_gpio_input at 1.
  cbn [board clock_reads input_reads commands].
  rewrite silent. cbn [Z.eqb negb GPIO_HIGH Pos.eqb].
  assert (R : 0 <= clock_cycles h c < 2 ^ 64) by (apply (clock_range h N runs); lia).
  unfold RpiGpio.bind at 1. unfold dht_get_cycles, ClockCycles at 1.
  cbn [board clock_reads input_reads commands].
  rewrite (to_uint64_small (clock_cycles h c)) by exact R.
  rewrite (to_uint64_small (clock_cycles h c - start)) by lia.
  destruct (Z.gtb_spec (clock_cycles h c - start) timeout) as [G|G].
  { eexists. reflexivity. }
  pose proof (clock_step h N runs c ltac:(lia)) as St.
  apply (IH (mk_world h (S c) (S i) k)); cbn [board clock_reads]; try lia.
  reflexivity.
Qed.

Lemma dht_wait_while_level_times_out fuel gpio_pin timeout_us n w :
  within h n w -> (n + S fuel <= N)%nat ->
  0 <= timeout_us <= 200 -> 200 * cycles_per_usec h + 1 <= Z.of_nat fuel ->
  exists w', dht_wait_while_level fuel gpio_pin GPIO_HIGH timeout_us w = Some (-1, w').
Proof.
  intros [Hb Hc] HN Ht Hf. destruct w as [b c i k]. cbn [board clock_reads] in *.
  subst b. pose proof (cycles_per_usec_nonneg h) as Hcpu.
  assert (R : 0 <= clock_cycles h c < 2 ^ 64) by (apply (clock_range h N runs); lia).
  pose proof (clock_step h N runs c ltac:(lia)) as St.
  unfold dht_wait_while_level, RpiGpio.bind, dht_get_cycles, ClockCycles,
    dht_cycles_per_usec.
  cbn [board clock_reads input_reads commands].
  rewrite (to_uint64_small (clock_cycles h c)) by exact R.
  fold (cycles_per_usec h).
  assert (T : 0 <= to_uint64 (to_uint64 timeout_us * cycles_per_usec h)
              <= 200 * cycles_per_usec h).
  { pose proof (to_uint64_le timeout_us ltac:(lia)) as T1.
    assert (T2 : 0 <= to_uint64 timeout_us * cycles_per_usec h
                 <= 200 * cycles_per_usec h).
    { split; [apply Z.mul_nonneg_nonneg; lia|].
      apply Z.mul_le_mono_nonneg_r; lia. }
    destruct T2 as [T2 T3].
    pose proof (to_uint64_le (to_uint64 timeout_us * cycles_per_usec h) T2) as [T4 T5].
    split; [exact T4|]. eapply Z.le_trans; eassumption. }
  apply (wait_loop_times_out gpio_pin (clock_cycles h c)
           (to_uint64 (to_uint64 timeout_us * cycles_per_usec h)) fuel
           (mk_world h (S c) i k));
    cbn [board clock_reads]; try lia; try reflexivity.
Qed.

(** Sequencing towards a known result. *)
Lemma fails_bind {A B} (mid : world -> Prop) (m : io A) (k : A -> io B) (v : B) w :
  returns mid m w ->
  (forall a w1, mid w1 -> exists w', k a w1 = Some (v, w')) ->
  exists w', RpiGpio.bind m k w = Some (v, w').
Proof.
  intros (a & w1 & E & H1) Hk. unfold RpiGpio.bind. rewrite E. apply Hk, H1.
Qed.

(** X21.  No sensor, no reading.  On a board whose cycle counter runs
    and whose data line stays high (no sensor answers the start signal),
    [temperature_sensor_read] returns -1 and leaves both variables as
    they were, after at most [2 * (fuel + 1)] reads of the counter:
    it gives up at the first wait of the handshake, or before it when
    a GPIO command fails. *)
Theorem silent_line_times_out fuel gpio_pin temperature humidity w :
  board w = h -> (clock_reads w + 2 * S fuel <= N)%nat ->
  200 * cycles_per_usec h + 1 <= Z.of_nat fuel ->
  exists w',
    temperature_sensor_read fuel gpio_pin temperature humidity w
    = Some ((-1, temperature, humidity), w').
Proof.
  intros Hb HN Hf.
  assert (Hw : within h (clock_reads w) w) by (split; [exact Hb | lia]).
  assert (S : exists w1, temperature_sensor_read_start fuel gpio_pin w = Some (-1, w1)).
  { unfold temperature_sensor_read_start, rpi_gpio_setup, rpi_gpio_output, usleep.
    eapply fails_bind; [apply gpio_command_returns, Hw|].
    intros rc w1 H1. destruct (negb (rc =? 0)); [eexists; reflexivity|].
    eapply fails_bind; [apply gpio_command_returns, H1|].
    clear rc. intros rc w2 H2. destruct (negb (rc =? 0)); [eexists; reflexivity|].
    eapply fails_bind; [apply returns_ret, H2|]. intros _ w3 H3.
    eapply fails_bind; [apply gpio_command_returns, H3|].
    clear rc. intros rc w4 H4. destruct (negb (rc =? 0)); [eexists; reflexivity|].
    eapply fails_bind.
    { apply (dht_delay_us_returns h N runs) with (n := clock_reads w);
        try eassumption; lia. }
    intros _ w5 H5.
    eapply fails_bind; [apply gpio_command_returns, H5|].
    clear rc. intros rc w6 H6. destruct (negb (rc =? 0)); [eexists; reflexivity|].
    destruct (dht_wait_while_level_times_out fuel gpio_pin 200
                (clock_reads w + S fuel)%nat w6 H6) as [w7 E7]; try lia.
    unfold RpiGpio.bind. rewrite E7. eexists. reflexivity. }
  destruct S as [w1 E1].
  unfold temperature_sensor_read, RpiGpio.bind. rewrite E1.
  eexists. reflexivity.
Qed.

End SilentLine.

(** The board without a sensor. *)
Lemma silent_line_times_out_witness :
  exists w',
    temperature_sensor_read (Z.to_nat 10801) 4 (Some 7) (Some 9)
      (power_on (silent_board 54))
    = Some ((-1, Some 7, Some 9), w').
Proof.
  apply (silent_line_times_out (silent_board 54) (2 * S (Z.to_nat 10801))).
  - apply silent_board_runs.
    change (2 ^ 40) with 1099511627776. lia.
  - reflexivity.
  - reflexivity.
  - cbn [power_on clock_reads]. lia.
  - unfold cycles_per_usec, silent_board; cbn [cycles_per_sec].
    change (to_uint64 (54 * 1000000) / 1000000) with 54. lia.
Defined.

(** ** The range of the distance *)

Local Open Scope Q_scope.

Section EchoRange.

Variable to_float : Q -> Q.
Variable to_double : Q -> Q.

Hypothesis to_float_le : forall x y, x <= y -> to_float x <= to_float y.
Hypothesis to_double_le : forall x y, x <= y -> to_double x <= to_double y.
Hypothesis to_float_int :
  forall n : Z, (0 <= n < 2 ^ 16)%Z -> to_float (inject_Z n) == inject_Z n.
Hypothesis to_double_int :
  forall n : Z, (0 <= n < 2 ^ 16)%Z -> to_double (inject_Z n) == inject_Z n.

(** X23.  The distance fits its variable.  For an echo pulse no longer
    than the 50 ms of the edge timeout, the distance computed in
    floating point is not negative and stays below 2^16, so the
    conversion to [uint16_t] drops the fraction and nothing else: what is
    stored is the whole part of the distance. *)
Theorem ultrasonic_distance_fits d :
  0 <= d -> d <= 50000 ->
  ultrasonic_distance to_float to_double d
    = Qfloor (distance_float to_float to_double d)
  /\ (0 <= ultrasonic_distance to_float to_double d <= 25000)%Z.
Proof.
  intros H0 H1.
  destruct (distance_float_range to_float to_double to_float_le to_double_le
              to_float_int to_double_int d H0 H1) as [L U].
  pose proof (Qtruncate_range _ 25000 L U) as R.
  unfold ultrasonic_distance, float_to_uint16.
  rewrite Z.mod_small by (change (2 ^ 16)%Z with 65536%Z; lia).
  split; [apply Qtruncate_nonneg, L | exact R].
Qed.

End EchoRange.

(** The longest pulse, with roundings to 10 and to 30 binary places. *)
Lemma ultrasonic_distance_fits_witness :
  ultrasonic_distance (round_down 10) (round_down 30) 50000
    = Qfloor (distance_float (round_down 10) (round_down 30) 50000)
  /\ (0 <= ultrasonic_distance (round_down 10) (round_down 30) 50000 <= 25000)%Z.
Proof.
  apply (ultrasonic_distance_fits (round_down 10) (round_down 30)
           (round_down_le 10) (round_down_le 30)
           (fun n _ => round_down_int 10 n ltac:(lia))
           (fun n _ => round_down_int 30 n ltac:(lia)) 50000).
  - discriminate.
  - discriminate.
Defined.

Local Close Scope Q_scope.

(** ** The GPIO client library *)

Import RpiGpioApi.

Ltac unfold_api :=
  unfold perform, rpi_gpio_setup_pull, RpiGpioApi.rpi_gpio_setup,
    rpi_gpio_get_setup, RpiGpioApi.rpi_gpio_output, RpiGpioApi.rpi_gpio_input,
    rpi_gpio_cleanup, gpio_send_msg, gpio_send_receive_msg, MsgSend,
    gpio_msg_connect, RpiGpioApi.bind, RpiGpioApi.ret in *.

Ltac api_step :=
  match goal with
  | |- context [if ?b then _ else _] => destruct b eqn:?
  end; cbn in *.

Section GpioClient.

Variable FUNC_IN FUNC_OUT PUD_OFF PUD_UP PUD_DOWN : Z.



(** X26.  What [rpi_gpio_input] stores.  The call either returns
    GPIO_SUCCESS and has stored GPIO_LOW (the manager replied 0) or
    GPIO_HIGH (it replied 1), or it returns a negative status and leaves
    the caller's variable as it was: the variable never holds anything
    but a level after a success. *)
Theorem rpi_gpio_input_level gpio_pin level c :
  let r := RpiGpioApi.rpi_gpio_input gpio_pin level c in
  let reply := reply_value (system c) (sends c) in
  (fst (fst r) = GPIO_SUCCESS
   /\ ((reply = 0 /\ snd (fst r) = GPIO_LOW)
       \/ (reply = 1 /\ snd (fst r) = GPIO_HIGH)))
  \/ (fst (fst r) < 0 /\ snd (fst r) = level).
Proof.
  destruct c as [fd m o n l].
  unfold_api; cbn; repeat api_step; auto;
    try (right; split; [reflexivity|reflexivity]).
  all: left; split; [reflexivity|].
  all: match goal with
       | E : (reply_value _ _ =? _) = true |- _ => apply Z.eqb_eq in E
       end; auto.
Qed.

(** X27.  The device is opened once.  Once [gpio_fd] holds a descriptor,
    no sequence of calls opens the device again or changes [gpio_fd]:
    not even [rpi_gpio_cleanup], after which the library goes on with the
    descriptor it has closed. *)
Theorem device_is_opened_once ks :
  forall c,
    gpio_fd c <> -1 ->
    let r := perform_all FUNC_IN FUNC_OUT PUD_OFF PUD_UP PUD_DOWN ks c in
    gpio_fd (snd r) = gpio_fd c /\ opens (snd r) = opens c.
Proof.
  assert (P : forall k c,
             gpio_fd c <> -1 ->
             gpio_fd (snd (perform FUNC_IN FUNC_OUT PUD_OFF PUD_UP PUD_DOWN k c))
             = gpio_fd c
             /\ opens (snd (perform FUNC_IN FUNC_OUT PUD_OFF PUD_UP PUD_DOWN k c))
               = opens c).
  { intros k [fd m o n l] H. cbn in H. apply Z.eqb_neq in H.
    destruct k; unfold_api; cbn; rewrite H; cbn; repeat api_step;
      split; reflexivity. }
  induction ks as [|k ks IH]; intros c H; cbn.
  - split; reflexivity.
  - specialize (P k c H).
    destruct (perform FUNC_IN FUNC_OUT PUD_OFF PUD_UP PUD_DOWN k c) as [rc c1].
    cbn in P. destruct P as [P1 P2].
    assert (H1 : gpio_fd c1 <> -1) by congruence.
    specialize (IH c1 H1). cbv zeta in IH.
    destruct (perform_all FUNC_IN FUNC_OUT PUD_OFF PUD_UP PUD_DOWN ks c1) as [rs c2].
    cbn in *. destruct IH. split; congruence.
Qed.

(** X28.  Without the resource manager nothing works and nothing is
    sent.  While the device cannot be opened, every call that needs the
    manager tries once to open it and returns GPIO_ERROR_NOT_CONNECTED,
    whatever its arguments, no message is ever passed on, and
    [rpi_gpio_cleanup] returns GPIO_SUCCESS. *)
Theorem unreachable_manager_fails_every_call ks :
  forall c,
    gpio_fd c = -1 ->
    (forall n, open_fd (system c) n = -1) ->
    let r := perform_all FUNC_IN FUNC_OUT PUD_OFF PUD_UP PUD_DOWN ks c in
    fst r = map (fun k => if needs_manager k then GPIO_ERROR_NOT_CONNECTED
                          else GPIO_SUCCESS) ks
    /\ sent (snd r) = sent c
    /\ opens (snd r) = (opens c + List.length (filter needs_manager ks))%nat.
Proof.
  induction ks as [|k ks IH]; intros c H O; cbn.
  - repeat split. lia.
  - assert (P : perform FUNC_IN FUNC_OUT PUD_OFF PUD_UP PUD_DOWN k c =
                if needs_manager k
                then (GPIO_ERROR_NOT_CONNECTED,
                      mk_client (-1) (system c) (S (opens c)) (sends c) (sent c))
                else (GPIO_SUCCESS, c)).
    { destruct c as [fd m o n l]. cbn in H, O. subst fd.
      destruct k; unfold_api; cbn; rewrite ?O; cbn; reflexivity. }
    rewrite P. destruct (needs_manager k).
    + specialize (IH (mk_client (-1) (system c) (S (opens c)) (sends c) (sent c))
                     eq_refl O). cbv zeta in IH.
      destruct (perform_all _ _ _ _ _ ks _) as [rs c2].
      cbn in *. destruct IH as (E1 & E2 & E3). repeat split; try congruence. lia.
    + specialize (IH c H O). cbv zeta in IH.
      destruct (perform_all _ _ _ _ _ ks _) as [rs c2].
      cbn in *. destruct IH as (E1 & E2 & E3). repeat split; congruence.
Qed.

(** X29.  [rpi_gpio_setup_pull] checks the direction too late.  With the
    device open, a pin of the board, a valid configuration and a manager
    that accepts the message, a call with a direction that is none of
    GPIO_PUD_OFF, GPIO_PUD_UP and GPIO_PUD_DOWN returns
    GPIO_ERROR_INPUT_OUT_OF_RANGE after it has sent the request that sets
    the function of the pin: the pin is reconfigured although the call
    fails. *)
Theorem setup_pull_checks_direction_late gpio_pin configuration direction c :
  gpio_fd c <> -1 ->
  0 <= gpio_pin < GPIO_COUNT ->
  configuration = GPIO_IN \/ configuration = GPIO_OUT ->
  send_status (system c) (sends c) = 0 ->
  direction <> GPIO_PUD_OFF -> direction <> GPIO_PUD_UP ->
  direction <> GPIO_PUD_DOWN ->
  rpi_gpio_setup_pull FUNC_IN FUNC_OUT PUD_OFF PUD_UP PUD_DOWN
                      gpio_pin configuration direction c =
  (GPIO_ERROR_INPUT_OUT_OF_RANGE,
   mk_client (gpio_fd c) (system c) (opens c) (S (sends c))
             (sent c ++ [mk_msg RPI_GPIO_SET_SELECT gpio_pin
                                (if configuration =? GPIO_IN then FUNC_IN
                                 else FUNC_OUT)])).
Proof.
  intros Hfd Hp Hc Hs D0 D1 D2. destruct c as [fd m o n l]. cbn in *.
  apply Z.eqb_neq in Hfd, D0, D1, D2.
  assert (R : (gpio_pin <? 0) || (gpio_pin >=? GPIO_COUNT) = false).
  { apply orb_false_iff. split; [apply Z.ltb_ge; lia|].
    rewrite Z.geb_leb. apply Z.leb_gt. lia. }
  destruct Hc; subst configuration;
    unfold_api; cbn; rewrite Hfd; cbn; rewrite R; cbn; rewrite Hs; cbn;
    rewrite ?R; cbn; rewrite D0, D1, D2; reflexivity.
Qed.

End GpioClient.



(** A setup, a cleanup and two more calls. *)
Lemma device_is_opened_once_witness :
  let c := snd (perform 0 1 0 1 2 (Setup 4 GPIO_OUT) (loaded (willing_manager 1))) in
  let r := perform_all 0 1 0 1 2
             [OutputLevel 4 GPIO_HIGH; Cleanup; InputLevel 4; Setup 5 GPIO_IN] c in
  fst r = [0; 0; 0; 0] /\ gpio_fd (snd r) = 3 /\ opens (snd r) = 1%nat.
Proof.
  intros c r. split; [reflexivity|].
  apply (device_is_opened_once 0 1 0 1 2
           [OutputLevel 4 GPIO_HIGH; Cleanup; InputLevel 4; Setup 5 GPIO_IN] c).
  discriminate.
Defined.

(** Four calls on a system without the device. *)
Lemma unreachable_manager_fails_every_call_witness :
  let r := perform_all 0 1 0 1 2
             [Setup 4 GPIO_OUT; OutputLevel 99 7; Cleanup; InputLevel 4]
             (loaded absent_manager) in
  fst r = [-1; -1; 0; -1] /\ sent (snd r) = [] /\ opens (snd r) = 3%nat.
Proof.
  apply (unreachable_manager_fails_every_call 0 1 0 1 2
           [Setup 4 GPIO_OUT; OutputLevel 99 7; Cleanup; InputLevel 4]
           (loaded absent_manager)).
  - reflexivity.
  - intro n. reflexivity.
Defined.

(** Pin 17 as an input with direction 3. *)
Lemma setup_pull_checks_direction_late_witness :
  rpi_gpio_setup_pull 0 1 0 1 2 17 GPIO_IN 3
    (mk_client 3 (willing_manager 0) 1 0 []) =
  (GPIO_ERROR_INPUT_OUT_OF_RANGE,
   mk_client 3 (willing_manager 0) 1 1 [mk_msg RPI_GPIO_SET_SELECT 17 0]).
Proof.
  apply (setup_pull_checks_direction_late 0 1 0 1 2 17 GPIO_IN 3
           (mk_client 3 (willing_manager 0) 1 0 [])).
  - discriminate.
  - unfold GPIO_COUNT. lia.
  - left. reflexivity.
  - reflexivity.
  - discriminate.
  - discriminate.
  - discriminate.
Defined.
